(** * Nanomaterial toxicity service: the request handlers of
    [webapp/app.py] and [api/index.py]

    The two Flask applications carry the same handlers ([predict],
    [detailed_analysis], [health_check]); they differ in [load_ml_model]
    only.  The handlers are embedded once, as functions of the loaded
    artifacts and of the outcome of [request.get_json()].

    Numbers.  JSON numbers, probabilities and scaled features are modelled
    as rationals ([Q]): every finite float is a rational, so a comparison
    against a literal threshold is exact.  Products and [round] are the
    exact ones (round-half-to-even).  Non-finite floats and integers beyond
    the float range are outside the model.

    Left out of the payloads: the elapsed-time stamps ([time.time()],
    [datetime.now()]) and the constant fields of the analysis report
    (the empty [risk_factors], [statistical_analysis] and
    [comparative_analysis]). *)

From Stdlib Require Import QArith Qround Qabs Lqa Ascii String.
From Stdlib Require Import Permutation Sorted.
From stdpp Require Import gmap strings list fin_maps.

Set Warnings "-register-all".
Local Open Scope string_scope.
Local Open Scope list_scope.

(** ** JSON values handed over by [request.get_json()] *)

Inductive json : Type :=
| JNull
| JBool (b : bool)
| JNum (x : Q)
| JStr (s : string)
| JArr (l : list json)
| JObj (m : gmap string json).

(** ** Python exceptions met on the handlers' paths *)

Inductive exn : Type :=
| TypeError
| ValueError
| KeyError (k : string)
| IndexError
| AttributeError
| HTTPException (status : Z)
| LibraryError (msg : string).

Inductive result (A : Type) : Type :=
| Ok (a : A)
| Err (e : exn).
Arguments Ok {A} a.
Arguments Err {A} e.

(** ** The three artifacts *)

(** The scaler and the classifier are library objects read from disk; the
    handlers only call their methods, which may raise.  [feature_info] is
    the unpickled dict with its ['names'] list and its ['descriptions']
    dict.  A global is [None] until its file has been loaded; a loaded
    object is truthy (a fitted ensemble, a scaler, a non-empty dict), so the
    handlers' [not x] is the test [x is None]. *)
Record scaler_t : Type := {
  transform : list Q -> result (list Q)
}.

Record classifier : Type := {
  predict_proba : list Q -> result (list Q);   (* row 0 of the matrix *)
  predict_label : list Q -> result Z;          (* [model.predict(x)[0]] *)
  feature_importances_ : list Q
}.

Record feature_info_t : Type := {
  names : list string;
  descriptions : gmap string string
}.

Record artifacts : Type := {
  model : option classifier;
  scaler : option scaler_t;
  feature_info : option feature_info_t
}.

(** ** Responses *)

Record log_entry : Type := {
  step : string;
  message : string;
  entry_status : string
}.

(** The text of an [error] field: a literal, or an f-string that ends in
    [str(e)]. *)
Inductive error_text : Type :=
| Literal (s : string)
| Formatted (prefix : string) (e : exn).

Inductive risk : Type := Low | Medium | High.

Record prediction_result : Type := {
  prediction : Z;
  prediction_text : string;
  confidence : Q;
  non_toxic : Q;
  toxic : Q;
  risk_level : risk;
  risk_factors : list string;
  feature_importance : list (string * Q);
  result_log : list log_entry
}.

Record feature_entry : Type := {
  fe_value : Q;
  fe_description : string;
  fe_importance : Q;
  fe_risk_level : risk;
  fe_normalized_value : Q
}.

Record analysis_report : Type := {
  an_class : Z;
  an_text : string;
  an_confidence : Q;
  an_non_toxic : Q;
  an_toxic : Q;
  feature_analysis : gmap string feature_entry;
  overall_risk : risk;
  safety_recommendations : list string;
  chart_probability : list (string * Q);
  chart_importance : list (string * Q);
  risk_distribution : list (string * nat)
}.

Record health_report : Type := {
  health_status : string;
  model_loaded : bool;
  scaler_loaded : bool;
  features_loaded : bool
}.

Inductive payload : Type :=
| ErrorBody (error : error_text) (log : option (list log_entry))
| PredictionBody (r : prediction_result)
| AnalysisBody (a : analysis_report)
| HealthBody (h : health_report).

Record response : Type := {
  code : Z;
  body : payload
}.

(** Calls into the library objects, in the order they are made. *)
Inductive call : Type :=
| CallTransform (x : list Q)
| CallPredictProba (x : list Q)
| CallPredict (x : list Q).

(** ** Exact arithmetic helpers *)

Definition Qlt_bool (x y : Q) : bool := negb (Qle_bool y x).

(** Round half to even, to an integer. *)
Definition round_half_even (x : Q) : Z :=
  let f := Qfloor x in
  let r := (x - inject_Z f)%Q in
  if Qlt_bool r (1 # 2) then f
  else if Qlt_bool (1 # 2) r then (f + 1)%Z
  else if Z.even f then f else (f + 1)%Z.

(** [round(x, ndigits)] *)
Definition py_round (x : Q) (ndigits : nat) : Q :=
  let scale := inject_Z (10 ^ Z.of_nat ndigits) in
  (inject_Z (round_half_even (x * scale)) / scale)%Q.

(** [needle in hay] on two [str]: substring test. *)
Fixpoint str_contains (needle hay : string) : bool :=
  if String.prefix needle hay then true
  else match hay with
       | EmptyString => false
       | String _ hay' => str_contains needle hay'
       end.

(** ** Python built-ins applied to JSON values *)

Definition bool_num (b : bool) : Q := if b then 1%Q else 0%Q.

(** The values that order comparisons against a number accept: [int],
    [float] and [bool]. *)
Definition as_number (v : json) : option Q :=
  match v with
  | JNum x => Some x
  | JBool b => Some (bool_num b)
  | _ => None
  end.

(** [v < c], [v > c]: [TypeError] unless [v] is a number. *)
Definition py_lt (v : json) (c : Q) : result bool :=
  match as_number v with
  | Some x => Ok (Qlt_bool x c)
  | None => Err TypeError
  end.

Definition py_gt (v : json) (c : Q) : result bool :=
  match as_number v with
  | Some x => Ok (Qlt_bool c x)
  | None => Err TypeError
  end.

(** [v == c] never raises; a non-number differs from every number. *)
Definition py_eq (v : json) (c : Q) : bool :=
  match as_number v with
  | Some x => Qeq_bool x c
  | None => false
  end.

(** [name in l] on a [list]: some element equals the [str] [name]. *)
Definition list_contains (name : string) (l : list json) : bool :=
  existsb (fun v => match v with
                    | JStr s => String.eqb name s
                    | _ => false
                    end) l.

(** [name in data]: key lookup on a [dict], element search on a [list],
    substring test on a [str]; [None] and numbers are not iterable. *)
Definition py_contains (name : string) (data : json) : result bool :=
  match data with
  | JObj m => Ok (bool_decide (is_Some (m !! name)))
  | JArr l => Ok (list_contains name l)
  | JStr s => Ok (str_contains name s)
  | JNull | JBool _ | JNum _ => Err TypeError
  end.

(** [data[name]] *)
Definition py_getitem (data : json) (name : string) : result json :=
  match data with
  | JObj m => match m !! name with
              | Some v => Ok v
              | None => Err (KeyError name)
              end
  | _ => Err TypeError
  end.

(** [data.get(name, dflt)]: only a [dict] has the method. *)
Definition py_get (data : json) (name : string) (dflt : json) : result json :=
  match data with
  | JObj m => Ok (default dflt (m !! name))
  | _ => Err AttributeError
  end.

(** [l[i]] on a sequence of numbers *)
Definition py_index (l : list Q) (i : nat) : result Q :=
  match l !! i with
  | Some x => Ok x
  | None => Err IndexError
  end.

Definition Qmax (x y : Q) : Q := if Qlt_bool x y then y else x.

(** [max(l)]: [ValueError] on an empty sequence. *)
Definition py_max (l : list Q) : result Q :=
  match l with
  | [] => Err ValueError
  | x :: l' => Ok (fold_left Qmax l' x)
  end.

(** ** Handler monad

    A handler body runs inside [try: ... except Exception].  Its local
    state is the [status_log] list (unbound until [status_log = []] has
    run, which is what ['status_log' in locals()] asks) and the record of
    the library calls made so far.  A step yields a value, raises, or
    leaves the function through [return]. *)

Record frame : Type := {
  fr_log : option (list log_entry);
  fr_calls : list call
}.

Inductive outcome (A : Type) : Type :=
| Next (a : A)
| Raise (e : exn)
| Return (r : response).
Arguments Next {A} a.
Arguments Raise {A} e.
Arguments Return {A} r.

Definition M (A : Type) : Type := frame -> outcome A * frame.

Definition ret {A} (a : A) : M A := fun st => (Next a, st).

Definition bind {A B} (c : M A) (k : A -> M B) : M B :=
  fun st =>
    match c st with
    | (Next a, st') => k a st'
    | (Raise e, st') => (Raise e, st')
    | (Return r, st') => (Return r, st')
    end.

Notation "x <- c ;; k" := (bind c (fun x => k))
  (at level 100, c at next level, right associativity).
Notation "c ;;; k" := (bind c (fun _ => k))
  (at level 100, right associativity).

Definition lift {A} (r : result A) : M A :=
  fun st => match r with
            | Ok a => (Next a, st)
            | Err e => (Raise e, st)
            end.

Definition return_ {A} (r : response) : M A := fun st => (Return r, st).

(** [status_log = []] *)
Definition new_log : M unit :=
  fun st => (Next tt, {| fr_log := Some []; fr_calls := fr_calls st |}).

(** [status_log.append({...})] *)
Definition append_log (stp msg sts : string) : M unit :=
  fun st =>
    let e := {| step := stp; message := msg; entry_status := sts |} in
    (Next tt, {| fr_log := Some (default [] (fr_log st) ++ [e]);
                 fr_calls := fr_calls st |}).

Definition read_log : M (list log_entry) :=
  fun st => (Next (default [] (fr_log st)), st).

Definition invoke {A} (c : call) (r : result A) : M A :=
  fun st =>
    let st' := {| fr_log := fr_log st; fr_calls := fr_calls st ++ [c] |} in
    match r with
    | Ok a => (Next a, st')
    | Err e => (Raise e, st')
    end.

Definition jsonify (status : Z) (b : payload) : response :=
  {| code := status; body := b |}.

Section Handlers.

(** [float(s)] on a [str] is the interpreter's parser: [None] stands for
    its [ValueError]. *)
Variable str_float : string -> option Q.

(** [float(v)] *)
Definition py_float (v : json) : result Q :=
  match v with
  | JNum x => Ok x
  | JBool b => Ok (bool_num b)
  | JStr s => match str_float s with
              | Some x => Ok x
              | None => Err ValueError
              end
  | JNull | JArr _ | JObj _ => Err TypeError
  end.

(** ** Feature extraction: the loop shared by both handlers

    [with_log] tells the two [return jsonify(...), 400] apart: [predict]
    attaches the status log, [detailed_analysis] does not. *)
Fixpoint extract_features (with_log : bool) (data : json)
    (feature_names : list string) (features : list Q) : M (list Q) :=
  match feature_names with
  | [] => ret features
  | feature_name :: rest =>
      present <- lift (py_contains feature_name data) ;;
      if present then
        raw <- lift (py_getitem data feature_name) ;;
        value <- lift (py_float raw) ;;
        extract_features with_log data rest (features ++ [value])
      else
        status_log <- read_log ;;
        return_ (jsonify 400
          (ErrorBody (Literal (String.append "Missing feature: " feature_name))
                     (if with_log then Some status_log else None)))
  end.

(** ** Interpretation of a prediction *)

Definition and_then {A B} (r : result A) (k : A -> result B) : result B :=
  match r with
  | Ok a => k a
  | Err e => Err e
  end.

Notation "x <~ c ;; k" := (and_then c (fun x => k))
  (at level 100, c at next level, right associativity).

Definition small_particle_msg := "Small particle size increases bioavailability".
Definition high_surface_msg := "High surface area enhances reactivity".
Definition high_concentration_msg := "High concentration increases exposure risk".
Definition metal_msg := "Metal nanoparticles can have higher toxicity".
Definition high_aspect_msg := "High aspect ratio (fiber-like) may cause inflammation".

(** The five [if data.get(...) ...: risk_factors.append(...)] statements of
    [predict], on the raw request values. *)
Definition key_risk_factors (data : json) : result (list string) :=
  let risk_factors := [] in
  v <~ py_get data "particle_size_nm" (JNum 0) ;;
  b <~ py_lt v 50 ;;
  let risk_factors :=
    if b then risk_factors ++ [small_particle_msg] else risk_factors in
  v <~ py_get data "surface_area_m2g" (JNum 0) ;;
  b <~ py_gt v 100 ;;
  let risk_factors :=
    if b then risk_factors ++ [high_surface_msg] else risk_factors in
  v <~ py_get data "concentration_mgl" (JNum 0) ;;
  b <~ py_gt v 100 ;;
  let risk_factors :=
    if b then risk_factors ++ [high_concentration_msg] else risk_factors in
  v <~ py_get data "material_type" (JNum 0) ;;
  let risk_factors :=
    if py_eq v 1 then risk_factors ++ [metal_msg] else risk_factors in
  v <~ py_get data "aspect_ratio" (JNum 1) ;;
  b <~ py_gt v 10 ;;
  let risk_factors :=
    if b then risk_factors ++ [high_aspect_msg] else risk_factors in
  Ok risk_factors.

(** [risk_level] of [predict], from the toxic percentage. *)
Definition predict_risk_level (toxic_prob : Q) : risk :=
  if Qlt_bool 70 toxic_prob then High
  else if Qlt_bool 40 toxic_prob then Medium
  else Low.

Definition class_text (prediction_class : Z) : string :=
  if (prediction_class =? 1)%Z then "Toxic" else "Non-Toxic".

(** [dict(zip(keys, values))]: a later value for a key replaces the earlier
    one and keeps its place in the iteration order. *)
Fixpoint dict_set (k : string) (v : Q) (d : list (string * Q))
    : list (string * Q) :=
  match d with
  | [] => [(k, v)]
  | (k', v') :: d' =>
      if String.eqb k k' then (k, v) :: d' else (k', v') :: dict_set k v d'
  end.

Definition dict_zip (keys : list string) (values : list Q)
    : list (string * Q) :=
  fold_left (fun d kv => dict_set (fst kv) (snd kv) d) (combine keys values) [].

(** [sorted(items, key=lambda x: x[1], reverse=True)]: stable, largest
    first. *)
Fixpoint insert_desc (x : string * Q) (l : list (string * Q))
    : list (string * Q) :=
  match l with
  | [] => [x]
  | y :: l' =>
      if Qlt_bool (snd x) (snd y) then y :: insert_desc x l' else x :: l
  end.

Definition sorted_desc (l : list (string * Q)) : list (string * Q) :=
  fold_right insert_desc [] l.

Definition top_importance (feature_names : list string) (imp : list Q)
    : list (string * Q) :=
  map (fun kv => (fst kv, py_round (snd kv) 4))
      (take 5 (sorted_desc (dict_zip feature_names imp))).

(** ** [predict] *)

Definition predict_body (m : classifier) (s : scaler_t)
    (fi : feature_info_t) (get_json : result json) : M response :=
  data <- lift get_json ;;
  new_log ;;;
  append_log "validation" "Validating input parameters..." "processing" ;;;
  let feature_names := names fi in
  features <- extract_features true data feature_names [] ;;
  append_log "validation" "✅ Input validation completed" "completed" ;;;
  append_log "preprocessing" "Normalizing features using StandardScaler..."
             "processing" ;;;
  features_scaled <- invoke (CallTransform features) (transform s features) ;;
  append_log "preprocessing" "✅ Feature scaling completed" "completed" ;;;
  append_log "prediction" "Running Random Forest model inference..."
             "processing" ;;;
  prediction_prob <- invoke (CallPredictProba features_scaled)
                            (predict_proba m features_scaled) ;;
  prediction_class <- invoke (CallPredict features_scaled)
                             (predict_label m features_scaled) ;;
  append_log "prediction" "✅ Model inference completed" "completed" ;;;
  append_log "interpretation" "Analyzing prediction results..."
             "processing" ;;;
  top <- lift (py_max prediction_prob) ;;
  let confidence := (top * 100)%Q in
  p0 <- lift (py_index prediction_prob 0) ;;
  let non_toxic_prob := (p0 * 100)%Q in
  p1 <- lift (py_index prediction_prob 1) ;;
  let toxic_prob := (p1 * 100)%Q in
  let risk_level := predict_risk_level toxic_prob in
  risk_factors <- lift (key_risk_factors data) ;;
  append_log "interpretation" "✅ Result analysis completed" "completed" ;;;
  status_log <- read_log ;;
  ret (jsonify 200 (PredictionBody {|
    prediction := prediction_class;
    prediction_text := class_text prediction_class;
    confidence := py_round confidence 2;
    non_toxic := py_round non_toxic_prob 2;
    toxic := py_round toxic_prob 2;
    risk_level := risk_level;
    risk_factors := risk_factors;
    feature_importance := top_importance feature_names (feature_importances_ m);
    result_log := status_log
  |})).

Definition empty_frame : frame := {| fr_log := None; fr_calls := [] |}.

(** The handler with its guard and its [except Exception] clause.  The
    second component lists the library calls made while serving. *)
Definition predict (a : artifacts) (get_json : result json)
    : response * list call :=
  match model a, scaler a, feature_info a with
  | Some m, Some s, Some fi =>
      match predict_body m s fi get_json empty_frame with
      | (Next r, st) | (Return r, st) => (r, fr_calls st)
      | (Raise e, st) =>
          (jsonify 500 (ErrorBody (Formatted "Prediction failed: " e)
                                  (Some (default [] (fr_log st)))),
           fr_calls st)
      end
  | _, _, _ =>
      (jsonify 500 (ErrorBody (Literal "Model not loaded properly") None), [])
  end.

(** ** [detailed_analysis] *)

(** Per-feature tier: the [if]/[elif] chain inside the feature loop. *)
Definition feature_risk (name : string) (value : Q) : risk :=
  if String.eqb name "particle_size_nm" && Qlt_bool value 50 then High
  else if String.eqb name "surface_area_m2g" && Qlt_bool 200 value then Medium
  else if String.eqb name "concentration_mgl" && Qlt_bool 500 value then High
  else if String.eqb name "zeta_potential_mv" && Qlt_bool (Qabs value) 15
       then Medium
  else Low.

(** [for i, (name, value) in enumerate(zip(feature_names, features))] *)
Fixpoint analyse_features (fi : feature_info_t) (m : classifier)
    (features_scaled : list Q) (i : nat) (pairs : list (string * Q))
    (acc : gmap string feature_entry) : result (gmap string feature_entry) :=
  match pairs with
  | [] => Ok acc
  | (name, value) :: rest =>
      desc <~ match descriptions fi !! name with
              | Some d => Ok d
              | None => Err (KeyError name)
              end ;;
      importance <~ py_index (feature_importances_ m) i ;;
      let risk_level := feature_risk name value in
      normalized <~ py_index features_scaled i ;;
      analyse_features fi m features_scaled (S i) rest
        (<[name := {| fe_value := value;
                      fe_description := desc;
                      fe_importance := py_round importance 4;
                      fe_risk_level := risk_level;
                      fe_normalized_value := py_round normalized 3 |}]> acc)
  end.

(** [overall_risk], from the toxic probability itself. *)
Definition analysis_overall_risk (p1 : Q) : risk :=
  if Qlt_bool (7 # 10) p1 then High
  else if Qlt_bool (4 # 10) p1 then Medium
  else Low.

Definition recommendations_of (data : json) : result (list string) :=
  let recommendations := [] in
  v <~ py_get data "particle_size_nm" (JNum 0) ;;
  b <~ py_lt v 50 ;;
  let recommendations :=
    if b then recommendations
              ++ ["Consider larger particle sizes to reduce bioavailability"]
    else recommendations in
  v <~ py_get data "concentration_mgl" (JNum 0) ;;
  b <~ py_gt v 500 ;;
  let recommendations :=
    if b then recommendations
              ++ ["Reduce concentration to minimize exposure risk"]
    else recommendations in
  v <~ py_get data "surface_area_m2g" (JNum 0) ;;
  b <~ py_gt v 200 ;;
  let recommendations :=
    if b then recommendations
              ++ ["Monitor surface reactivity due to high surface area"]
    else recommendations in
  Ok recommendations.

Definition risk_eqb (a b : risk) : bool :=
  match a, b with
  | Low, Low | Medium, Medium | High, High => true
  | _, _ => false
  end.

(** [sum(1 for f in feature_analysis.values() if f['risk_level'] == tier)] *)
Definition count_tier (tier : risk) (fa : gmap string feature_entry) : nat :=
  length (List.filter (fun kv => risk_eqb (fe_risk_level (snd kv)) tier)
                      (map_to_list fa)).

Definition analysis_body (m : classifier) (s : scaler_t)
    (fi : feature_info_t) (get_json : result json) : M response :=
  data <- lift get_json ;;
  let feature_names := names fi in
  features <- extract_features false data feature_names [] ;;
  features_scaled <- invoke (CallTransform features) (transform s features) ;;
  prediction_prob <- invoke (CallPredictProba features_scaled)
                            (predict_proba m features_scaled) ;;
  prediction_class <- invoke (CallPredict features_scaled)
                             (predict_label m features_scaled) ;;
  top <- lift (py_max prediction_prob) ;;
  p0 <- lift (py_index prediction_prob 0) ;;
  p1 <- lift (py_index prediction_prob 1) ;;
  let non_toxic_pct := py_round (p0 * 100) 2 in
  let toxic_pct := py_round (p1 * 100) 2 in
  fa <- lift (analyse_features fi m features_scaled 0
                (combine feature_names features) ∅) ;;
  p1' <- lift (py_index prediction_prob 1) ;;
  recommendations <- lift (recommendations_of data) ;;
  ret (jsonify 200 (AnalysisBody {|
    an_class := prediction_class;
    an_text := class_text prediction_class;
    an_confidence := py_round (top * 100) 2;
    an_non_toxic := non_toxic_pct;
    an_toxic := toxic_pct;
    feature_analysis := fa;
    overall_risk := analysis_overall_risk p1';
    safety_recommendations := recommendations;
    chart_probability := [("Non-Toxic", non_toxic_pct); ("Toxic", toxic_pct)];
    chart_importance :=
      map (fun ni => (fst ni, py_round (snd ni * 100) 2))
          (combine feature_names (feature_importances_ m));
    risk_distribution :=
      [("Low Risk Features", count_tier Low fa);
       ("Medium Risk Features", count_tier Medium fa);
       ("High Risk Features", count_tier High fa)]
  |})).

Definition detailed_analysis (a : artifacts) (get_json : result json)
    : response * list call :=
  match model a, scaler a, feature_info a with
  | Some m, Some s, Some fi =>
      match analysis_body m s fi get_json empty_frame with
      | (Next r, st) | (Return r, st) => (r, fr_calls st)
      | (Raise e, st) =>
          (jsonify 500 (ErrorBody (Formatted "Analysis failed: " e) None),
           fr_calls st)
      end
  | _, _, _ =>
      (jsonify 500 (ErrorBody (Literal "Model not loaded properly") None), [])
  end.

End Handlers.

(** ** [health_check] *)

Definition health_check (a : artifacts) : response :=
  jsonify 200 (HealthBody {|
    health_status := "healthy";
    model_loaded := bool_decide (is_Some (model a));
    scaler_loaded := bool_decide (is_Some (scaler a));
    features_loaded := bool_decide (is_Some (feature_info a))
  |}).

(** ** [load_ml_model]

    A pickle file is missing, unreadable, or holds an object.  The three
    globals start as [None]; [load_ml_model] assigns them one by one and
    stops at the first failure, so an earlier assignment survives a later
    failure. *)

Inductive pickle_file (A : Type) : Type :=
| Missing
| Unreadable
| Pickled (a : A).
Arguments Missing {A}.
Arguments Unreadable {A}.
Arguments Pickled {A} a.

Record disk : Type := {
  model_pkl : pickle_file classifier;
  scaler_pkl : pickle_file scaler_t;
  feature_info_pkl : pickle_file feature_info_t
}.

Definition exists_file {A} (f : pickle_file A) : bool :=
  match f with
  | Missing => false
  | _ => true
  end.

Definition unloaded : artifacts :=
  {| model := None; scaler := None; feature_info := None |}.

(** The chain of [open]/[pickle.load] calls; the [bool] is the function's
    return value. *)
Definition load_in_order (d : disk) : artifacts * bool :=
  match model_pkl d with
  | Pickled m =>
      match scaler_pkl d with
      | Pickled s =>
          match feature_info_pkl d with
          | Pickled fi =>
              ({| model := Some m; scaler := Some s;
                  feature_info := Some fi |}, true)
          | _ => ({| model := Some m; scaler := Some s;
                     feature_info := None |}, false)
          end
      | _ => ({| model := Some m; scaler := None; feature_info := None |},
              false)
      end
  | _ => (unloaded, false)
  end.

Module Webapp.

(** [webapp/app.py] *)
Definition load_ml_model (d : disk) : artifacts * bool := load_in_order d.

End Webapp.

Module Api.

(** [api/index.py]: the three [os.path.exists] checks come first. *)
Definition load_ml_model (d : disk) : artifacts * bool :=
  if negb (exists_file (model_pkl d)) then (unloaded, false)
  else if negb (exists_file (scaler_pkl d)) then (unloaded, false)
  else if negb (exists_file (feature_info_pkl d)) then (unloaded, false)
  else load_in_order d.

End Api.

(** ** Concrete data of the repository *)

(** [features] of [generate_synthetic_nanotox_dataset] in
    [webapp/model_trainer.py]: the column order of the training frame. *)
Definition trainer_features : list string :=
  [ "particle_size_nm"; "surface_area_m2g"; "zeta_potential_mv"; "ph";
    "concentration_mgl"; "material_type"; "crystallinity"; "porosity";
    "hydrophobicity"; "aspect_ratio" ].

(** [test_data] of [verify_deployment.py], the body it posts to [/predict]. *)
Definition test_data : gmap string json :=
  list_to_map
    [ ("particle_size_nm", JNum 25);
      ("surface_area_m2g", JNum 150);
      ("concentration_mgl", JNum 100);
      ("ph", JNum (74 # 10));
      ("temperature_c", JNum 25);
      ("zeta_potential_mv", JNum (-30));
      ("material_type", JNum 1);
      ("exposure_time_h", JNum 24);
      ("aspect_ratio", JNum (15 # 10)) ].

Definition test_data_keys : list string :=
  [ "particle_size_nm"; "surface_area_m2g"; "concentration_mgl"; "ph";
    "temperature_c"; "zeta_potential_mv"; "material_type";
    "exposure_time_h"; "aspect_ratio" ].

(** ** Instances used to run the handlers *)

(** A reader of plain decimal literals ([25], [-30], [7.4]); [float] agrees
    with it on these. *)
Definition digit_of (c : ascii) : option Z :=
  let n := nat_of_ascii c in
  if (48 <=? n)%nat && (n <=? 57)%nat then Some (Z.of_nat (n - 48)) else None.

Fixpoint read_fraction (s : string) (num : Z) (den : positive) : option Q :=
  match s with
  | EmptyString => Some (num # den)
  | String c s' =>
      match digit_of c with
      | Some d => read_fraction s' (num * 10 + d)%Z (den * 10)%positive
      | None => None
      end
  end.

Fixpoint read_integer (s : string) (num : Z) (seen : bool) : option Q :=
  match s with
  | EmptyString => if seen then Some (num # 1) else None
  | String c s' =>
      if Ascii.eqb c "."%char then
        if seen then read_fraction s' num 1 else None
      else
        match digit_of c with
        | Some d => read_integer s' (num * 10 + d)%Z true
        | None => None
        end
  end.

Definition decimal_float (s : string) : option Q :=
  match s with
  | String "-"%char s' => option_map Qopp (read_integer s' 0 false)
  | String "+"%char s' => read_integer s' 0 false
  | _ => read_integer s 0 false
  end.

(** A scaler with zero mean and unit scale. *)
Definition unit_scaler : scaler_t := {| transform := fun x => Ok x |}.

(** A classifier answering [p0, p1] and the index of the larger entry
    (the first one on a tie), with the given importances. *)
Definition argmax2 (p0 p1 : Q) : Z := if Qlt_bool p0 p1 then 1%Z else 0%Z.

Definition constant_classifier (p0 p1 : Q) (imp : list Q) : classifier :=
  {| predict_proba := fun _ => Ok [p0; p1];
     predict_label := fun _ => Ok (argmax2 p0 p1);
     feature_importances_ := imp |}.

Definition describe (l : list string) : gmap string string :=
  list_to_map (map (fun n => (n, n)) l).

Definition trainer_info : feature_info_t :=
  {| names := trainer_features; descriptions := describe trainer_features |}.

Definition deployed_info : feature_info_t :=
  {| names := test_data_keys; descriptions := describe test_data_keys |}.

Definition tenth : list Q := repeat (1 # 10) 10.

Definition loaded_with (fi : feature_info_t) (p0 p1 : Q) : artifacts :=
  {| model := Some (constant_classifier p0 p1 tenth);
     scaler := Some unit_scaler;
     feature_info := Some fi |}.

(** ** Vocabulary of the statements *)

(** [coerces sf data n x]: the mapping has an entry under [n] and [float]
    turns it into [x]. *)
Definition coerces (sf : string -> option Q) (data : gmap string json)
    (n : string) (x : Q) : Prop :=
  exists v, data !! n = Some v /\ py_float sf v = Ok x.

(** The log entry present when the extraction loop runs. *)
Definition validation_started : log_entry :=
  {| step := "validation"; message := "Validating input parameters...";
     entry_status := "processing" |}.

(** The log of a request served to the end. *)
Definition full_log : list log_entry :=
  [ validation_started;
    {| step := "validation"; message := "✅ Input validation completed";
       entry_status := "completed" |};
    {| step := "preprocessing";
       message := "Normalizing features using StandardScaler...";
       entry_status := "processing" |};
    {| step := "preprocessing"; message := "✅ Feature scaling completed";
       entry_status := "completed" |};
    {| step := "prediction";
       message := "Running Random Forest model inference...";
       entry_status := "processing" |};
    {| step := "prediction"; message := "✅ Model inference completed";
       entry_status := "completed" |};
    {| step := "interpretation"; message := "Analyzing prediction results...";
       entry_status := "processing" |};
    {| step := "interpretation"; message := "✅ Result analysis completed";
       entry_status := "completed" |} ].

Definition missing_feature (n : string) : error_text :=
  Literal (String.append "Missing feature: " n).

(** The library calls of a request served to the end, in order. *)
Definition library_calls (feats scaled : list Q) : list call :=
  [CallTransform feats; CallPredictProba scaled; CallPredict scaled].

(** The number a check compares: the raw entry under [k], or the default of
    [data.get] when there is none; [None] when the entry is no number. *)
Definition raw_number (data : gmap string json) (k : string) (dflt : Q)
    : option Q :=
  as_number (default (JNum dflt) (data !! k)).

(** Every entry under [k], if any, is a number or a boolean. *)
Definition comparable (data : gmap string json) (k : string) : Prop :=
  forall v, data !! k = Some v -> is_Some (as_number v).

Definition when (b : bool) (msg : string) : list string :=
  if b then [msg] else [].

(** The risk-factor list in which exactly the checks flagged [true] have
    fired, in the order of the five [if] statements. *)
Definition fired (size area conc metal aspect : bool) : list string :=
  when size small_particle_msg ++ when area high_surface_msg
  ++ when conc high_concentration_msg ++ when metal metal_msg
  ++ when aspect high_aspect_msg.

(** A mapping with the raw entries of the five checks overridden. *)
Definition with_raw_entries (size area conc material aspect : Q)
    (d : gmap string json) : gmap string json :=
  <["particle_size_nm" := JNum size]>
    (<["surface_area_m2g" := JNum area]>
      (<["concentration_mgl" := JNum conc]>
        (<["material_type" := JNum material]>
          (<["aspect_ratio" := JNum aspect]> d)))).

(** The keys whose raw entries [predict] compares with [<] or [>]. *)
Definition compared_keys : list string :=
  ["particle_size_nm"; "surface_area_m2g"; "concentration_mgl";
   "aspect_ratio"].

(** What the loop leaves in [feature_analysis]: an entry for every name it
    went through, holding a value paired with that name and the tier of
    that value; other names keep what the accumulator had. *)
Definition analysed (pairs : list (string * Q))
    (acc fa : gmap string feature_entry) : Prop :=
  (forall n, In n (map fst pairs) ->
     exists e, fa !! n = Some e /\ In (n, fe_value e) pairs /\
               fe_risk_level e = feature_risk n (fe_value e)) /\
  (forall n, ~ In n (map fst pairs) -> fa !! n = acc !! n).

(** Sample services and the vector [test_data] yields under the feature
    order of [test_data_keys]. *)
Definition sample_classifier : classifier :=
  constant_classifier (3 # 10) (7 # 10) tenth.

Definition sample_service : artifacts :=
  loaded_with deployed_info (3 # 10) (7 # 10).

Definition trainer_service : artifacts :=
  loaded_with trainer_info (3 # 10) (7 # 10).

Definition test_features : list Q :=
  [25; 150; 100; 74 # 10; 25; -30; 1; 24; 15 # 10]%Q.

(** * The remaining endpoints, the deployment check and the trainer *)

Notation "x <~ c ;; k" := (and_then c (fun x => k))
  (at level 100, c at next level, right associativity).

(** ** [get_features] and [model_info] *)

Record model_info_t : Type := {
  model_type : string;
  n_estimators : Z;
  max_depth : option Z;
  n_features : Z;
  feature_names : list string;
  training_accuracy : string;
  model_size : Q
}.

Inductive info_payload : Type :=
| InfoError (error : error_text)
| FeaturesBody (fi : feature_info_t)
| ModelInfoBody (i : model_info_t).

Definition get_features (a : artifacts) : Z * info_payload :=
  match feature_info a with
  | Some fi => (200%Z, FeaturesBody fi)
  | None => (500%Z, InfoError (Literal "Model not loaded"))
  end.

Section ModelInfo.

(** Attribute reads on the unpickled model and the length of
    [pickle.dumps(model)]; any of them may raise. *)
Variable get_n_estimators : classifier -> result Z.
Variable get_max_depth : classifier -> result (option Z).
Variable get_n_features_in_ : classifier -> result Z.
Variable pickled_length : classifier -> result nat.


End ModelInfo.

(** ** [verify_deployment.py] *)

(** [if not url.startswith('http'): url = f"https://{url}"] *)
Definition normalize_url (url : string) : string :=
  if String.prefix "http" url then url else String.append "https://" url.

(** What [requests] hands back: a status code and the outcome of
    [response.json()]. *)
Record http_response : Type := {
  status_code : Z;
  json_body : result json
}.

(** [requests.get] and [requests.post]; either may raise. *)
Record network : Type := {
  http_get : string -> result http_response;
  http_post : string -> json -> result http_response
}.

(** The lines the script prints, one constructor per [print] statement,
    with the values it interpolates. *)
Inductive printed : Type :=
| TestingDeployment (base_url : string)
| Rule
| TestingHealth
| HealthPassed
| ModelLoaded (v : json)
| ScalerLoaded (v : json)
| FeaturesLoaded (v : json)
| HealthFailed (status : Z)
| ResponseText
| HealthError (e : exn)
| TestingFeatures
| FeaturesWorking
| FeaturesFailed (status : Z)
| FeaturesError (e : exn)
| TestingPrediction
| PredictionWorking
| PredictionLine (v : json)
| ConfidenceLine (v : json)
| PredictionFailed (status : Z)
| PredictionError (e : exn)
| VerificationCompleted.

(** The first [try] block; [None] stands for falling through to the next
    block, [Some false] for [return False]. *)
Definition check_health (net : network) (base_url : string)
    : list printed * option bool :=
  match http_get net (String.append base_url "/health") with
  | Err e => ([TestingHealth; HealthError e], Some false)
  | Ok response =>
      if (status_code response =? 200)%Z then
        match json_body response with
        | Err e => ([TestingHealth; HealthError e], Some false)
        | Ok health_data =>
            match py_get health_data "model_loaded" (JBool false) with
            | Err e => ([TestingHealth; HealthPassed; HealthError e],
                        Some false)
            | Ok v1 =>
                match py_get health_data "scaler_loaded" (JBool false) with
                | Err e =>
                    ([TestingHealth; HealthPassed; ModelLoaded v1;
                      HealthError e], Some false)
                | Ok v2 =>
                    match py_get health_data "features_loaded" (JBool false)
                    with
                    | Err e =>
                        ([TestingHealth; HealthPassed; ModelLoaded v1;
                          ScalerLoaded v2; HealthError e], Some false)
                    | Ok v3 =>
                        ([TestingHealth; HealthPassed; ModelLoaded v1;
                          ScalerLoaded v2; FeaturesLoaded v3], None)
                    end
                end
            end
        end
      else
        ([TestingHealth; HealthFailed (status_code response); ResponseText],
         Some false)
  end.

Definition check_features (net : network) (base_url : string)
    : list printed :=
  match http_get net (String.append base_url "/features") with
  | Err e => [TestingFeatures; FeaturesError e]
  | Ok response =>
      if (status_code response =? 200)%Z then
        [TestingFeatures; FeaturesWorking]
      else [TestingFeatures; FeaturesFailed (status_code response)]
  end.

Definition check_prediction (net : network) (base_url : string)
    : list printed :=
  match http_post net (String.append base_url "/predict") (JObj test_data)
  with
  | Err e => [TestingPrediction; PredictionError e]
  | Ok response =>
      if (status_code response =? 200)%Z then
        match json_body response with
        | Err e => [TestingPrediction; PredictionError e]
        | Ok result =>
            match py_get result "prediction_text" (JStr "Unknown") with
            | Err e =>
                [TestingPrediction; PredictionWorking; PredictionError e]
            | Ok text =>
                match py_get result "confidence" (JNum 0) with
                | Err e =>
                    [TestingPrediction; PredictionWorking;
                     PredictionLine text; PredictionError e]
                | Ok conf =>
                    [TestingPrediction; PredictionWorking;
                     PredictionLine text; ConfidenceLine conf]
                end
            end
        end
      else
        [TestingPrediction; PredictionFailed (status_code response);
         ResponseText]
  end.

Definition test_vercel_deployment (net : network) (base_url : string)
    : list printed * bool :=
  let banner := [TestingDeployment base_url; Rule] in
  match check_health net base_url with
  | (out, Some verdict) => (banner ++ out, verdict)
  | (out, None) =>
      (banner ++ out ++ check_features net base_url
       ++ check_prediction net base_url ++ [VerificationCompleted], true)
  end.

(** ** What the service puts on the wire

    [jsonify] turns the payload dict into a JSON object.  [str_exn] is
    [str(e)]. *)

Definition risk_text (r : risk) : string :=
  match r with
  | Low => "Low"
  | Medium => "Medium"
  | High => "High"
  end.

Definition json_strings (l : list string) : json := JArr (map JStr l).

Definition json_numbers (l : list (string * Q)) : json :=
  JObj (list_to_map (map (fun kv => (fst kv, JNum (snd kv))) l)).

Definition log_entry_json (e : log_entry) : json :=
  JObj (list_to_map [("step", JStr (step e)); ("message", JStr (message e));
                     ("status", JStr (entry_status e))]).

Section Wire.

Variable str_exn : exn -> string.

Definition error_json (e : error_text) : json :=
  match e with
  | Literal s => JStr s
  | Formatted prefix e => JStr (String.append prefix (str_exn e))
  end.

Definition health_json (h : health_report) : json :=
  JObj (list_to_map
    [("status", JStr (health_status h));
     ("model_loaded", JBool (model_loaded h));
     ("scaler_loaded", JBool (scaler_loaded h));
     ("features_loaded", JBool (features_loaded h))]).

Definition prediction_json (r : prediction_result) : json :=
  JObj (list_to_map
    [("prediction", JNum (inject_Z (prediction r)));
     ("prediction_text", JStr (prediction_text r));
     ("confidence", JNum (confidence r));
     ("probabilities",
      JObj (list_to_map [("non_toxic", JNum (non_toxic r));
                         ("toxic", JNum (toxic r))]));
     ("risk_level", JStr (risk_text (risk_level r)));
     ("risk_factors", json_strings (risk_factors r));
     ("feature_importance", json_numbers (feature_importance r));
     ("status_log", JArr (map log_entry_json (result_log r)))]).

Definition features_json (fi : feature_info_t) : json :=
  JObj (list_to_map
    [("names", json_strings (names fi));
     ("descriptions", JObj (JStr <$> descriptions fi))]).

(** The wire form of the answers the deployment check asks for; an analysis
    report is never requested by it and is left opaque here. *)
Definition deliver (r : response) : http_response :=
  {| status_code := code r;
     json_body :=
       match body r with
       | ErrorBody e None => Ok (JObj (list_to_map [("error", error_json e)]))
       | ErrorBody e (Some log) =>
           Ok (JObj (list_to_map
                 [("error", error_json e);
                  ("status_log", JArr (map log_entry_json log))]))
       | PredictionBody p => Ok (prediction_json p)
       | HealthBody h => Ok (health_json h)
       | AnalysisBody _ => Err (LibraryError "analysis report")
       end |}.

Definition deliver_features (r : Z * info_payload) : http_response :=
  {| status_code := fst r;
     json_body :=
       match snd r with
       | InfoError e => Ok (JObj (list_to_map [("error", error_json e)]))
       | FeaturesBody fi => Ok (features_json fi)
       | ModelInfoBody _ => Err (LibraryError "model info")
       end |}.

(** [not_found] of [api/index.py] *)
Definition not_found : http_response :=
  {| status_code := 404;
     json_body :=
       Ok (JObj (list_to_map [("error", JStr "Endpoint not found")])) |}.

Variable str_float : string -> option Q.

(** The service behind [base_url], as the check sees it. *)
Definition service (a : artifacts) (base_url : string) : network :=
  {| http_get := fun url =>
       if String.eqb url (String.append base_url "/health")
       then Ok (deliver (health_check a))
       else if String.eqb url (String.append base_url "/features")
       then Ok (deliver_features (get_features a))
       else Ok not_found;
     http_post := fun url payload =>
       if String.eqb url (String.append base_url "/predict")
       then Ok (deliver (fst (predict str_float a (Ok payload))))
       else Ok not_found |}.

End Wire.

(** ** [generate_synthetic_nanotox_dataset]: clipping and scoring

    The random draws are the input here: one [sample] per row, and the
    noise term of its score.  [ln] is [np.log]. *)

Record sample : Type := {
  particle_size_nm : Q;
  surface_area_m2g : Q;
  zeta_potential_mv : Q;
  ph : Q;
  concentration_mgl : Q;
  material_type : Q;
  crystallinity : Q;
  porosity : Q;
  hydrophobicity : Q;
  aspect_ratio : Q
}.

Definition Qmin (x y : Q) : Q := if Qlt_bool y x then y else x.

(** [np.clip(x, lo, hi)] *)
Definition np_clip (x lo hi : Q) : Q := Qmin (Qmax x lo) hi.

(** The six [np.clip] assignments. *)
Definition clip_sample (r : sample) : sample :=
  {| particle_size_nm := np_clip (particle_size_nm r) 1 500;
     surface_area_m2g := np_clip (surface_area_m2g r) 5 400;
     zeta_potential_mv := np_clip (zeta_potential_mv r) (-100) 60;
     ph := np_clip (ph r) 3 12;
     concentration_mgl := np_clip (concentration_mgl r) (1 # 10) 1000;
     material_type := material_type r;
     crystallinity := crystallinity r;
     porosity := porosity r;
     hydrophobicity := hydrophobicity r;
     aspect_ratio := np_clip (aspect_ratio r) 1 20 |}.

Section Score.

Variable ln : Q -> Q.

Definition toxicity_score (r : sample) (noise : Q) : Q :=
  ((1 / (particle_size_nm r / 50)) * (3 # 10)
   + (surface_area_m2g r / 200) * (2 # 10)
   + (ln (concentration_mgl r) / 5) * (25 # 100)
   + material_type r * (15 # 100)
   + (aspect_ratio r / 10) * (1 # 10)
   + noise)%Q.

(** [(toxicity_score > threshold).astype(int)] *)
Definition toxicity_label (score threshold : Q) : Z :=
  if Qlt_bool threshold score then 1%Z else 0%Z.

End Score.

(** * Properties *)

(** ** Exact arithmetic *)

Lemma Qlt_bool_true (x y : Q) : Qlt_bool x y = true <-> (x < y)%Q.
Proof.
  unfold Qlt_bool. rewrite negb_true_iff. split.
  - intros H. apply Qnot_le_lt. intros Hle.
    apply Qle_bool_iff in Hle. congruence.
  - intros H. destruct (Qle_bool y x) eqn:E; [|reflexivity].
    apply Qle_bool_iff in E. lra.
Qed.

Lemma Qlt_bool_false (x y : Q) : Qlt_bool x y = false <-> (y <= x)%Q.
Proof.
  unfold Qlt_bool. rewrite negb_false_iff. apply Qle_bool_iff.
Qed.

Lemma Qfloor_bounds (x : Q) :
  (inject_Z (Qfloor x) <= x)%Q /\ (x < inject_Z (Qfloor x) + 1)%Q.
Proof.
  split; [apply Qfloor_le|].
  pose proof (Qlt_floor x) as H. rewrite inject_Z_plus in H. exact H.
Qed.


(** Rounding is the identity on integers. *)
Lemma round_half_even_Z (z : Z) : round_half_even (inject_Z z) = z.
Proof.
  unfold round_half_even. rewrite Qfloor_Z.
  assert (E : Qlt_bool (inject_Z z - inject_Z z) (1 # 2) = true)
    by (apply Qlt_bool_true; lra).
  now rewrite E.
Qed.

Lemma round_half_even_mono_lo (z : Z) (x : Q) :
  (inject_Z z <= x)%Q -> (z <= round_half_even x)%Z.
Proof.
  intros H. unfold round_half_even.
  assert (Hf : (z <= Qfloor x)%Z).
  { rewrite <- (Qfloor_Z z). now apply Qfloor_resp_le. }
  repeat destruct (Qlt_bool _ _); try destruct (Z.even _); lia.
Qed.

Lemma round_half_even_mono_hi (z : Z) (x : Q) :
  (x <= inject_Z z)%Q -> (round_half_even x <= z)%Z.
Proof.
  intros H.
  destruct (Qfloor_bounds x) as [Hlo Hhi].
  assert (Hf : (Qfloor x <= z)%Z).
  { rewrite <- (Qfloor_Z z). now apply Qfloor_resp_le. }
  unfold round_half_even.
  destruct (Qlt_bool (x - inject_Z (Qfloor x)) (1 # 2)) eqn:E1; [exact Hf|].
  apply Qlt_bool_false in E1.
  assert (Hne : (Qfloor x < z)%Z).
  { apply Z.le_neq. split; [exact Hf|]. intros Heq. rewrite Heq in E1. lra. }
  repeat destruct (Qlt_bool _ _); try destruct (Z.even _); lia.
Qed.

Lemma py_round2_unfold (x : Q) :
  (py_round x 2 == inject_Z (round_half_even (x * 100)) / 100)%Q.
Proof. unfold py_round. reflexivity. Qed.


(** [round(x, 2)] keeps a percentage inside [0, 100]. *)
Lemma py_round2_percent (x : Q) :
  (0 <= x)%Q -> (x <= 100)%Q ->
  (0 <= py_round x 2)%Q /\ (py_round x 2 <= 100)%Q.
Proof.
  intros H0 H100. rewrite py_round2_unfold.
  assert (Hlo : (0 <= round_half_even (x * 100))%Z).
  { apply round_half_even_mono_lo. change (inject_Z 0) with 0%Q. lra. }
  assert (Hhi : (round_half_even (x * 100) <= 10000)%Z).
  { apply round_half_even_mono_hi. change (inject_Z 10000) with 10000%Q. lra. }
  set (z := round_half_even (x * 100)) in *.
  assert (A : (inject_Z 0 <= inject_Z z)%Q) by (rewrite <- Zle_Qle; exact Hlo).
  assert (B : (inject_Z z <= inject_Z 10000)%Q)
    by (rewrite <- Zle_Qle; exact Hhi).
  change (inject_Z 0) with 0%Q in A. change (inject_Z 10000) with 10000%Q in B.
  split.
  - apply Qle_shift_div_l; lra.
  - apply Qle_shift_div_r; lra.
Qed.

(** ** Reading the request *)

Section Extraction.

Variable sf : string -> option Q.
Variable data : gmap string json.

Lemma extract_absent wl n rest acc st :
  data !! n = None ->
  extract_features sf wl (JObj data) (n :: rest) acc st =
  (Return (jsonify 400
     (ErrorBody (missing_feature n)
                (if wl then Some (default [] (fr_log st)) else None))), st).
Proof.
  intros H. cbn [extract_features]. unfold bind, lift, py_contains.
  rewrite bool_decide_eq_false_2; [reflexivity|].
  rewrite H. intros [? ?]; discriminate.
Qed.

Lemma extract_present wl n x rest acc st :
  coerces sf data n x ->
  extract_features sf wl (JObj data) (n :: rest) acc st =
  extract_features sf wl (JObj data) rest (acc ++ [x]) st.
Proof.
  intros (v & Hv & Hx). cbn [extract_features].
  unfold bind, lift, py_contains, py_getitem.
  rewrite bool_decide_eq_true_2 by (rewrite Hv; eauto).
  rewrite Hv, Hx. reflexivity.
Qed.

Lemma extract_uncoercible wl n v e rest acc st :
  data !! n = Some v -> py_float sf v = Err e ->
  extract_features sf wl (JObj data) (n :: rest) acc st = (Raise e, st).
Proof.
  intros Hv Hx. cbn [extract_features].
  unfold bind, lift, py_contains, py_getitem.
  rewrite bool_decide_eq_true_2 by (rewrite Hv; eauto).
  rewrite Hv, Hx. reflexivity.
Qed.

(** A prefix of present, coercible names is consumed in order. *)
Lemma extract_prefix wl ns xs :
  Forall2 (coerces sf data) ns xs ->
  forall rest acc st,
  extract_features sf wl (JObj data) (ns ++ rest) acc st =
  extract_features sf wl (JObj data) rest (acc ++ xs) st.
Proof.
  induction 1 as [|n x ns xs Hn _ IH]; intros rest acc st.
  - now rewrite app_nil_r.
  - rewrite <- app_comm_cons, (extract_present _ _ _ _ _ _ Hn), IH.
    now rewrite <- app_assoc.
Qed.

Lemma extract_complete wl ns xs st :
  Forall2 (coerces sf data) ns xs ->
  extract_features sf wl (JObj data) ns [] st = (Next xs, st).
Proof.
  intros H. rewrite <- (app_nil_r ns), (extract_prefix _ _ _ H).
  reflexivity.
Qed.

(** The loop stops at the first absent name when everything before it
    could be read. *)
Lemma extract_first_absent wl pre xs n post st :
  Forall2 (coerces sf data) pre xs ->
  data !! n = None ->
  extract_features sf wl (JObj data) (pre ++ n :: post) [] st =
  (Return (jsonify 400
     (ErrorBody (missing_feature n)
                (if wl then Some (default [] (fr_log st)) else None))), st).
Proof.
  intros Hpre Hn. rewrite (extract_prefix _ _ _ Hpre).
  now apply extract_absent.
Qed.

End Extraction.

(** Conversely: a loop that runs to its end has read every name, and a
    loop that returns does so with a 400. *)
Lemma extract_next sf wl (data : gmap string json) ns : forall acc st xs st',
  extract_features sf wl (JObj data) ns acc st = (Next xs, st') ->
  st' = st /\ exists feats, xs = acc ++ feats /\
                            Forall2 (coerces sf data) ns feats.
Proof.
  induction ns as [|n ns IH]; intros acc st xs st' H.
  - injection H as <- <-. split; [reflexivity|]. exists [].
    split; [now rewrite app_nil_r|constructor].
  - cbn [extract_features] in H.
    unfold bind, lift, py_contains, py_getitem in H.
    destruct (data !! n) as [v|] eqn:Hv.
    + rewrite bool_decide_eq_true_2 in H by eauto.
      destruct (py_float sf v) as [x|e] eqn:Hx; try discriminate.
      apply IH in H as (-> & feats & -> & Hfeats).
      split; [reflexivity|]. exists (x :: feats).
      split; [now rewrite <- app_assoc|].
      constructor; [exists v; auto|exact Hfeats].
    + rewrite bool_decide_eq_false_2 in H by (intros [? ?]; discriminate).
      discriminate.
Qed.

Lemma extract_return sf wl data ns : forall acc st r st',
  extract_features sf wl data ns acc st = (Return r, st') -> code r = 400%Z.
Proof.
  induction ns as [|n ns IH]; intros acc st r st' H.
  - discriminate.
  - cbn [extract_features] in H. unfold bind, lift in H.
    destruct (py_contains n data) as [[|]|e]; try discriminate.
    + destruct (py_getitem data n) as [v|e]; try discriminate.
      destruct (py_float sf v) as [x|e]; try discriminate.
      now apply IH in H.
    + cbn in H. injection H as <- _. reflexivity.
Qed.

(** ** A request served to the end *)

Section Served.

Variable sf : string -> option Q.
Variables (a : artifacts) (m : classifier) (s : scaler_t) (fi : feature_info_t).
Hypothesis Hmodel : model a = Some m.
Hypothesis Hscaler : scaler a = Some s.
Hypothesis Hinfo : feature_info a = Some fi.

Variable data : gmap string json.
Variables (feats scaled probs : list Q) (label : Z).
Hypothesis Hfeats : Forall2 (coerces sf data) (names fi) feats.
Hypothesis Hscaled : transform s feats = Ok scaled.
Hypothesis Hprobs : predict_proba m scaled = Ok probs.
Hypothesis Hlabel : predict_label m scaled = Ok label.

Lemma predict_served top p0 p1 rf :
  py_max probs = Ok top ->
  py_index probs 0 = Ok p0 ->
  py_index probs 1 = Ok p1 ->
  key_risk_factors (JObj data) = Ok rf ->
  predict sf a (Ok (JObj data)) =
  (jsonify 200 (PredictionBody {|
     prediction := label;
     prediction_text := class_text label;
     confidence := py_round (top * 100) 2;
     non_toxic := py_round (p0 * 100) 2;
     toxic := py_round (p1 * 100) 2;
     risk_level := predict_risk_level (p1 * 100);
     risk_factors := rf;
     feature_importance := top_importance (names fi) (feature_importances_ m);
     result_log := full_log |}),
   library_calls feats scaled).
Proof.
  intros Htop Hp0 Hp1 Hrf.
  unfold predict. rewrite Hmodel, Hscaler, Hinfo.
  unfold predict_body, bind.
  cbn [lift new_log append_log empty_frame fr_log fr_calls].
  rewrite (extract_complete _ _ _ _ _ _ Hfeats).
  unfold invoke, lift, read_log, ret. cbn [fr_log fr_calls].
  rewrite Hscaled, Hprobs, Hlabel, Htop, Hp0, Hp1, Hrf.
  reflexivity.
Qed.

End Served.

Lemma key_risk_factors_object j rf :
  key_risk_factors j = Ok rf -> exists data, j = JObj data.
Proof. destruct j; try discriminate. eauto. Qed.

(** Every 200 answer of [predict] comes from a run of that shape. *)
Lemma predict_inv sf a req r calls :
  predict sf a req = (jsonify 200 (PredictionBody r), calls) ->
  exists m s fi data feats scaled probs top p0 p1,
    model a = Some m /\ scaler a = Some s /\ feature_info a = Some fi /\
    req = Ok (JObj data) /\
    Forall2 (coerces sf data) (names fi) feats /\
    transform s feats = Ok scaled /\
    predict_proba m scaled = Ok probs /\
    predict_label m scaled = Ok (prediction r) /\
    py_max probs = Ok top /\
    py_index probs 0 = Ok p0 /\ py_index probs 1 = Ok p1 /\
    key_risk_factors (JObj data) = Ok (risk_factors r) /\
    risk_level r = predict_risk_level (p1 * 100) /\
    non_toxic r = py_round (p0 * 100) 2 /\
    toxic r = py_round (p1 * 100) 2 /\
    calls = library_calls feats scaled.
Proof.
  unfold predict.
  destruct (model a) as [m|]; [|discriminate].
  destruct (scaler a) as [s|]; [|discriminate].
  destruct (feature_info a) as [fi|]; [|discriminate].
  destruct req as [j|e]; [|discriminate].
  unfold predict_body, bind.
  cbn [lift new_log append_log empty_frame fr_log fr_calls].
  destruct (extract_features sf true j (names fi) [] _)
    as [[xs|e|r'] st] eqn:Hext.
  2: discriminate.
  2: { intros [= Hr _]. apply extract_return in Hext. rewrite Hr in Hext.
       discriminate. }
  unfold invoke, lift, read_log, ret. cbn [fr_log fr_calls].
  destruct (transform s xs) as [scaled|e] eqn:Hsc; [|discriminate].
  destruct (predict_proba m scaled) as [probs|e] eqn:Hpr; [|discriminate].
  destruct (predict_label m scaled) as [label|e] eqn:Hlab; [|discriminate].
  destruct (py_max probs) as [top|e] eqn:Htop; [|discriminate].
  destruct (py_index probs 0) as [p0|e] eqn:Hp0; [|discriminate].
  destruct (py_index probs 1) as [p1|e] eqn:Hp1; [|discriminate].
  destruct (key_risk_factors j) as [rf|e] eqn:Hrf; [|discriminate].
  destruct (key_risk_factors_object _ _ Hrf) as [data ->].
  apply extract_next in Hext as (-> & feats & -> & Hfeats).
  intros [= <- <-]. cbn [app fr_calls risk_level non_toxic toxic].
  exists m, s, fi, data, feats, scaled, probs, top, p0, p1.
  repeat split; assumption.
Qed.

(** ** Missing features *)

Lemma missing_feature_inj (n n' : string) :
  missing_feature n = missing_feature n' -> n = n'.
Proof. unfold missing_feature. cbn. intros H. now inversion H. Qed.

(** Present names in front of the loop either all coerce, or make the
    loop raise before it gets past them. *)
Lemma extract_prefix_cases sf (data : gmap string json) (pre : list string) :
  Forall (fun k => is_Some (data !! k)) pre ->
  (exists xs, Forall2 (coerces sf data) pre xs) \/
  (forall wl rest acc st, exists e,
     extract_features sf wl (JObj data) (pre ++ rest) acc st = (Raise e, st)).
Proof.
  induction 1 as [|k pre [v Hv] _ IH].
  - left. exists []. constructor.
  - destruct (py_float sf v) as [x|e] eqn:Hx.
    + assert (Hk : coerces sf data k x) by (exists v; auto).
      destruct IH as [[xs Hxs]|Hraise].
      * left. exists (x :: xs). now constructor.
      * right. intros wl rest acc st. rewrite <- app_comm_cons.
        rewrite (extract_present _ _ _ _ _ _ _ _ Hk). apply Hraise.
    + right. intros wl rest acc st. exists e. rewrite <- app_comm_cons.
      now apply extract_uncoercible with (v := v).
Qed.

Section MissingFeature.

Variable sf : string -> option Q.
Variables (a : artifacts) (m : classifier) (s : scaler_t) (fi : feature_info_t).
Hypothesis Hmodel : model a = Some m.
Hypothesis Hscaler : scaler a = Some s.
Hypothesis Hinfo : feature_info a = Some fi.
Variable data : gmap string json.

Lemma predict_extraction_outcome :
  predict sf a (Ok (JObj data)) =
  match extract_features sf true (JObj data) (names fi) []
          {| fr_log := Some [validation_started]; fr_calls := [] |} with
  | (Return r, st) => (r, fr_calls st)
  | (Raise e, st) =>
      (jsonify 500 (ErrorBody (Formatted "Prediction failed: " e)
                              (Some (default [] (fr_log st)))), fr_calls st)
  | (Next xs, st) => predict sf a (Ok (JObj data))
  end.
Proof.
  destruct (extract_features sf true (JObj data) (names fi) [] _)
    as [[xs|e|r] st] eqn:E; [reflexivity| |];
    unfold predict; rewrite Hmodel, Hscaler, Hinfo;
    unfold predict_body, bind;
    cbn [lift new_log append_log empty_frame fr_log fr_calls];
    change (extract_features sf true (JObj data) (names fi) [] _)
      with (extract_features sf true (JObj data) (names fi) []
              {| fr_log := Some [validation_started]; fr_calls := [] |});
    rewrite E; reflexivity.
Qed.

Lemma analysis_extraction_outcome :
  detailed_analysis sf a (Ok (JObj data)) =
  match extract_features sf false (JObj data) (names fi) [] empty_frame with
  | (Return r, st) => (r, fr_calls st)
  | (Raise e, st) =>
      (jsonify 500 (ErrorBody (Formatted "Analysis failed: " e) None),
       fr_calls st)
  | (Next xs, st) => detailed_analysis sf a (Ok (JObj data))
  end.
Proof.
  destruct (extract_features sf false (JObj data) (names fi) [] _)
    as [[xs|e|r] st] eqn:E; [reflexivity| |];
    unfold detailed_analysis; rewrite Hmodel, Hscaler, Hinfo;
    unfold analysis_body, bind; cbn [lift]; rewrite E; reflexivity.
Qed.

Lemma first_absent_rejected (pre post : list string) (xs : list Q)
    (n : string) :
  names fi = pre ++ n :: post ->
  Forall2 (coerces sf data) pre xs ->
  data !! n = None ->
  predict sf a (Ok (JObj data)) =
    (jsonify 400 (ErrorBody (missing_feature n) (Some [validation_started])),
     []) /\
  detailed_analysis sf a (Ok (JObj data)) =
    (jsonify 400 (ErrorBody (missing_feature n) None), []).
Proof.
  intros Hnames Hpre Hn. split.
  - rewrite predict_extraction_outcome, Hnames.
    rewrite (extract_first_absent _ _ _ _ _ _ _ _ Hpre Hn). reflexivity.
  - rewrite analysis_extraction_outcome, Hnames.
    rewrite (extract_first_absent _ _ _ _ _ _ _ _ Hpre Hn). reflexivity.
Qed.

(** C1 (amended).  With the three artifacts loaded, take a feature mapping
    that lacks a name [n] of the feature list, every name before [n] in the
    list being present with an entry that [float] accepts.  Then [/predict]
    and [/detailed-analysis] both answer 400 with the error
    [Missing feature: n]; [/predict] attaches the one-entry status log; and
    neither handler has called the scaler or the classifier. *)
Theorem missing_feature_rejected (pre post : list string) (xs : list Q)
    (n : string) :
  names fi = pre ++ n :: post ->
  Forall2 (coerces sf data) pre xs ->
  data !! n = None ->
  predict sf a (Ok (JObj data)) =
    (jsonify 400 (ErrorBody (missing_feature n) (Some [validation_started])),
     []) /\
  detailed_analysis sf a (Ok (JObj data)) =
    (jsonify 400 (ErrorBody (missing_feature n) None), []).
Proof.
  intros Hnames Hpre Hn. split.
  - rewrite predict_extraction_outcome, Hnames.
    rewrite (extract_prefix _ _ _ _ _ Hpre).
    now rewrite extract_absent.
  - rewrite analysis_extraction_outcome, Hnames.
    rewrite (extract_prefix _ _ _ _ _ Hpre).
    now rewrite extract_absent.
Qed.

(** C9.  Let [n] be the earliest name of the feature list that is absent
    from the mapping, and [n'] a later absent name.  When the entries in
    front of [n] can be read, both handlers answer 400 naming [n], without
    any library call; and whatever those entries are, neither handler ever
    answers with a 400 that names [n']. *)
Theorem earliest_absent_named (pre post : list string) (n n' : string) :
  names fi = pre ++ n :: post ->
  Forall (fun k => is_Some (data !! k)) pre ->
  data !! n = None ->
  In n' post -> data !! n' = None -> n' <> n ->
  (forall xs, Forall2 (coerces sf data) pre xs ->
     predict sf a (Ok (JObj data)) =
       (jsonify 400
          (ErrorBody (missing_feature n) (Some [validation_started])), []) /\
     detailed_analysis sf a (Ok (JObj data)) =
       (jsonify 400 (ErrorBody (missing_feature n) None), [])) /\
  (forall log,
     fst (predict sf a (Ok (JObj data)))
       <> jsonify 400 (ErrorBody (missing_feature n') log) /\
     fst (detailed_analysis sf a (Ok (JObj data)))
       <> jsonify 400 (ErrorBody (missing_feature n') log)).
Proof.
  intros Hnames Hpre Hn _ _ Hne. split.
  - intros xs Hxs. now apply first_absent_rejected with pre post xs.
  - intros log.
    destruct (extract_prefix_cases sf data pre Hpre) as [[xs Hxs]|Hraise].
    + destruct (first_absent_rejected pre post xs n Hnames Hxs Hn)
        as [-> ->].
      cbn [fst]. unfold jsonify.
      split; intros H;
        (assert (H1 : missing_feature n = missing_feature n')
           by congruence);
        apply missing_feature_inj in H1; congruence.
    + rewrite predict_extraction_outcome, analysis_extraction_outcome, Hnames.
      destruct (Hraise true (n :: post) []
                  {| fr_log := Some [validation_started]; fr_calls := [] |})
        as [e1 ->].
      destruct (Hraise false (n :: post) [] empty_frame) as [e2 ->].
      cbn [fst]. split; intros H; inversion H.
Qed.

End MissingFeature.

(** ** Load state *)

Lemma guard_unloaded sf (a : artifacts) (get_json : result json) :
  model a = None \/ scaler a = None \/ feature_info a = None ->
  predict sf a get_json =
    (jsonify 500 (ErrorBody (Literal "Model not loaded properly") None), [])
  /\
  detailed_analysis sf a get_json =
    (jsonify 500 (ErrorBody (Literal "Model not loaded properly") None), []).
Proof.
  unfold predict, detailed_analysis.
  intros [H|[H|H]]; rewrite H;
    destruct (model a); try destruct (scaler a); split; reflexivity.
Qed.

(** An artifact whose file is absent or unreadable stays [None], under
    either loader. *)
Lemma load_failure_recorded (d : disk) :
  (forall x, model_pkl d <> Pickled x) ->
  fst (Webapp.load_ml_model d) = unloaded /\
  fst (Api.load_ml_model d) = unloaded.
Proof.
  intros H. unfold Webapp.load_ml_model, Api.load_ml_model, load_in_order.
  destruct (model_pkl d) as [| |x]; [| |now destruct (H x)];
    repeat destruct (negb _); split; reflexivity.
Qed.

Lemma load_success (d : disk) m s fi :
  model_pkl d = Pickled m -> scaler_pkl d = Pickled s ->
  feature_info_pkl d = Pickled fi ->
  Webapp.load_ml_model d =
    ({| model := Some m; scaler := Some s; feature_info := Some fi |}, true)
  /\
  Api.load_ml_model d =
    ({| model := Some m; scaler := Some s; feature_info := Some fi |}, true).
Proof.
  intros Hm Hs Hf.
  unfold Webapp.load_ml_model, Api.load_ml_model, load_in_order.
  rewrite Hm, Hs, Hf. split; reflexivity.
Qed.

(** A load that reports failure leaves a global at [None], so that the
    guard of the handlers answers. *)
Lemma load_failure_blocks_predict sf (d : disk) (get_json : result json) :
  (snd (Webapp.load_ml_model d) = false ->
   predict sf (fst (Webapp.load_ml_model d)) get_json =
     (jsonify 500 (ErrorBody (Literal "Model not loaded properly") None),
      [])) /\
  (snd (Api.load_ml_model d) = false ->
   predict sf (fst (Api.load_ml_model d)) get_json =
     (jsonify 500 (ErrorBody (Literal "Model not loaded properly") None),
      [])).
Proof.
  unfold Webapp.load_ml_model, Api.load_ml_model, load_in_order.
  destruct (model_pkl d), (scaler_pkl d), (feature_info_pkl d);
    cbn; split; intros H; try discriminate; reflexivity.
Qed.

(** C7.  If any of [model], [scaler], [feature_info] is [None], [/health]
    reports the flag of every such artifact as false, and every request to
    [/predict], whatever its body, is answered 500 with
    [Model not loaded properly], with no status log and no library call:
    the guard returns before [get_json], extraction and inference. *)
Theorem unloaded_artifact_reported sf (a : artifacts) :
  model a = None \/ scaler a = None \/ feature_info a = None ->
  (exists h, health_check a = jsonify 200 (HealthBody h) /\
     (model a = None -> model_loaded h = false) /\
     (scaler a = None -> scaler_loaded h = false) /\
     (feature_info a = None -> features_loaded h = false)) /\
  (forall get_json,
     predict sf a get_json =
       (jsonify 500 (ErrorBody (Literal "Model not loaded properly") None),
        [])).
Proof.
  intros H. split.
  - eexists. split; [reflexivity|]. cbn.
    repeat split; intros ->; reflexivity.
  - intros get_json. now apply guard_unloaded.
Qed.

(** C10.  [/health] answers 200 with [status] equal to ['healthy'] for every
    load state; the three flags say which artifacts are not [None], and
    nothing else in the answer depends on the load state.  With nothing
    loaded the answer is still 200 and ['healthy'], all three flags false. *)
Theorem health_always_healthy (a : artifacts) :
  health_check a =
    jsonify 200 (HealthBody {|
      health_status := "healthy";
      model_loaded := bool_decide (model a <> None);
      scaler_loaded := bool_decide (scaler a <> None);
      features_loaded := bool_decide (feature_info a <> None) |}) /\
  code (health_check a) = 200%Z /\
  health_check unloaded =
    jsonify 200 (HealthBody {|
      health_status := "healthy";
      model_loaded := false;
      scaler_loaded := false;
      features_loaded := false |}).
Proof.
  split; [|split; reflexivity].
  unfold health_check. do 2 f_equal.
  destruct (model a), (scaler a), (feature_info a); reflexivity.
Qed.

(** ** The threshold checks on the raw request *)

Lemma comparable_raw_number data k dflt :
  comparable data k -> is_Some (raw_number data k dflt).
Proof.
  unfold comparable, raw_number. intros H.
  destruct (data !! k) as [v|]; cbn; eauto.
Qed.

Lemma key_risk_factors_spec (data : gmap string json) :
  key_risk_factors (JObj data) =
  match raw_number data "particle_size_nm" 0,
        raw_number data "surface_area_m2g" 0,
        raw_number data "concentration_mgl" 0,
        raw_number data "aspect_ratio" 1 with
  | Some size, Some area, Some conc, Some aspect =>
      Ok (fired (Qlt_bool size 50) (Qlt_bool 100 area) (Qlt_bool 100 conc)
                (py_eq (default (JNum 0) (data !! "material_type")) 1)
                (Qlt_bool 10 aspect))
  | _, _, _, _ => Err TypeError
  end.
Proof.
  unfold key_risk_factors, raw_number, py_get, py_lt, py_gt, and_then.
  destruct (as_number (default (JNum 0) (data !! "particle_size_nm")))
    as [size|]; [|reflexivity].
  destruct (as_number (default (JNum 0) (data !! "surface_area_m2g")))
    as [area|]; [|reflexivity].
  destruct (as_number (default (JNum 0) (data !! "concentration_mgl")))
    as [conc|]; [|reflexivity].
  destruct (as_number (default (JNum 1) (data !! "aspect_ratio")))
    as [aspect|]; [|reflexivity].
  destruct (Qlt_bool size 50), (Qlt_bool 100 area), (Qlt_bool 100 conc),
    (py_eq (default (JNum 0) (data !! "material_type")) 1),
    (Qlt_bool 10 aspect); reflexivity.
Qed.

Lemma recommendations_spec (data : gmap string json) :
  recommendations_of (JObj data) =
  match raw_number data "particle_size_nm" 0,
        raw_number data "concentration_mgl" 0,
        raw_number data "surface_area_m2g" 0 with
  | Some size, Some conc, Some area =>
      Ok (when (Qlt_bool size 50)
               "Consider larger particle sizes to reduce bioavailability"
          ++ when (Qlt_bool 500 conc)
                  "Reduce concentration to minimize exposure risk"
          ++ when (Qlt_bool 200 area)
                  "Monitor surface reactivity due to high surface area")
  | _, _, _ => Err TypeError
  end.
Proof.
  unfold recommendations_of, raw_number, py_get, py_lt, py_gt, and_then.
  destruct (as_number (default (JNum 0) (data !! "particle_size_nm")))
    as [size|]; [|reflexivity].
  destruct (as_number (default (JNum 0) (data !! "concentration_mgl")))
    as [conc|]; [|reflexivity].
  destruct (as_number (default (JNum 0) (data !! "surface_area_m2g")))
    as [area|]; [|reflexivity].
  destruct (Qlt_bool size 50), (Qlt_bool 500 conc), (Qlt_bool 200 area);
    reflexivity.
Qed.

Lemma key_risk_factors_total (data : gmap string json) :
  Forall (comparable data) compared_keys ->
  exists rf, key_risk_factors (JObj data) = Ok rf.
Proof.
  intros H. rewrite key_risk_factors_spec.
  apply Forall_cons_1 in H as [H1 H]. apply Forall_cons_1 in H as [H2 H].
  apply Forall_cons_1 in H as [H3 H]. apply Forall_cons_1 in H as [H4 _].
  destruct (comparable_raw_number _ _ 0 H1) as [x1 ->].
  destruct (comparable_raw_number _ _ 0 H2) as [x2 ->].
  destruct (comparable_raw_number _ _ 0 H3) as [x3 ->].
  destruct (comparable_raw_number _ _ 1 H4) as [x4 ->].
  eauto.
Qed.

Lemma recommendations_total (data : gmap string json) :
  Forall (comparable data) compared_keys ->
  exists rs, recommendations_of (JObj data) = Ok rs.
Proof.
  intros H. rewrite recommendations_spec.
  apply Forall_cons_1 in H as [H1 H]. apply Forall_cons_1 in H as [H2 H].
  apply Forall_cons_1 in H as [H3 _].
  destruct (comparable_raw_number _ _ 0 H1) as [x1 ->].
  destruct (comparable_raw_number _ _ 0 H2) as [x2 ->].
  destruct (comparable_raw_number _ _ 0 H3) as [x3 ->].
  eauto.
Qed.

(** ** The per-feature loop of [detailed_analysis] *)

Lemma analyse_features_ok (fi : feature_info_t) (m : classifier)
    (scaled : list Q) (pairs : list (string * Q)) :
  forall (i : nat) (acc : gmap string feature_entry),
  Forall (fun p => is_Some (descriptions fi !! fst p)) pairs ->
  i + length pairs <= length (feature_importances_ m) ->
  i + length pairs <= length scaled ->
  exists fa, analyse_features fi m scaled i pairs acc = Ok fa /\
             analysed pairs acc fa.
Proof.
  induction pairs as [|[n x] rest IH]; intros i acc Hdesc Himp Hsc.
  - exists acc. split; [reflexivity|]. split; [intros n []|reflexivity].
  - apply Forall_cons_1 in Hdesc as [[d Hd] Hrest]. cbn [length] in Himp, Hsc.
    cbn [analyse_features fst] in *. rewrite Hd. cbn [and_then].
    destruct (lookup_lt_is_Some_2 (feature_importances_ m) i) as [w Hw];
      [lia|].
    destruct (lookup_lt_is_Some_2 scaled i) as [z Hz]; [lia|].
    unfold py_index. rewrite Hw, Hz. cbn [and_then].
    set (e0 := {| fe_value := x; fe_description := d;
                  fe_importance := py_round w 4;
                  fe_risk_level := feature_risk n x;
                  fe_normalized_value := py_round z 3 |}).
    destruct (IH (S i) (<[n:=e0]> acc) Hrest) as (fa & Hfa & Hin & Hout);
      [lia|lia|].
    exists fa. split; [exact Hfa|]. split.
    + intros k Hk. cbn [map fst] in Hk.
      destruct (in_dec string_dec k (map fst rest)) as [Hr|Hr].
      * destruct (Hin k Hr) as (e & He & Hp & Ht).
        exists e. repeat split; [exact He|now right|exact Ht].
      * destruct Hk as [<-|Hk]; [|contradiction].
        exists e0. rewrite (Hout n Hr), lookup_insert_eq.
        repeat split. now left.
    + intros k Hk. cbn [map fst] in Hk.
      rewrite Hout by (intros Hc; apply Hk; now right).
      apply lookup_insert_ne. intros ->. apply Hk. now left.
Qed.

Lemma analyse_features_inv (fi : feature_info_t) (m : classifier)
    (scaled : list Q) (pairs : list (string * Q)) :
  forall (i : nat) (acc fa : gmap string feature_entry),
  analyse_features fi m scaled i pairs acc = Ok fa ->
  analysed pairs acc fa.
Proof.
  induction pairs as [|[n x] rest IH]; intros i acc fa H.
  - injection H as <-. split; [intros n []|reflexivity].
  - cbn [analyse_features] in H.
    destruct (descriptions fi !! n) as [d|]; [|discriminate].
    cbn [and_then] in H.
    destruct (py_index (feature_importances_ m) i) as [w|e]; [|discriminate].
    cbn [and_then] in H.
    destruct (py_index scaled i) as [z|e]; [|discriminate].
    cbn [and_then] in H.
    apply IH in H as [Hin Hout]. split.
    + intros k Hk. cbn [map fst] in Hk.
      destruct (in_dec string_dec k (map fst rest)) as [Hr|Hr].
      * destruct (Hin k Hr) as (e & He & Hp & Ht).
        exists e. repeat split; [exact He|now right|exact Ht].
      * destruct Hk as [<-|Hk]; [|contradiction].
        eexists. rewrite (Hout n Hr), lookup_insert_eq.
        repeat split. now left.
    + intros k Hk. cbn [map fst] in Hk.
      rewrite Hout by (intros Hc; apply Hk; now right).
      apply lookup_insert_ne. intros ->. apply Hk. now left.
Qed.

Section ServedAnalysis.

Variable sf : string -> option Q.
Variables (a : artifacts) (m : classifier) (s : scaler_t) (fi : feature_info_t).
Hypothesis Hmodel : model a = Some m.
Hypothesis Hscaler : scaler a = Some s.
Hypothesis Hinfo : feature_info a = Some fi.

Variable data : gmap string json.
Variables (feats scaled probs : list Q) (label : Z).
Hypothesis Hfeats : Forall2 (coerces sf data) (names fi) feats.
Hypothesis Hscaled : transform s feats = Ok scaled.
Hypothesis Hprobs : predict_proba m scaled = Ok probs.
Hypothesis Hlabel : predict_label m scaled = Ok label.

Lemma analysis_served top p0 p1 fa rs :
  py_max probs = Ok top ->
  py_index probs 0 = Ok p0 ->
  py_index probs 1 = Ok p1 ->
  analyse_features fi m scaled 0 (combine (names fi) feats) ∅ = Ok fa ->
  recommendations_of (JObj data) = Ok rs ->
  detailed_analysis sf a (Ok (JObj data)) =
  (jsonify 200 (AnalysisBody {|
     an_class := label;
     an_text := class_text label;
     an_confidence := py_round (top * 100) 2;
     an_non_toxic := py_round (p0 * 100) 2;
     an_toxic := py_round (p1 * 100) 2;
     feature_analysis := fa;
     overall_risk := analysis_overall_risk p1;
     safety_recommendations := rs;
     chart_probability :=
       [("Non-Toxic", py_round (p0 * 100) 2); ("Toxic", py_round (p1 * 100) 2)];
     chart_importance :=
       map (fun ni => (fst ni, py_round (snd ni * 100) 2))
           (combine (names fi) (feature_importances_ m));
     risk_distribution :=
       [("Low Risk Features", count_tier Low fa);
        ("Medium Risk Features", count_tier Medium fa);
        ("High Risk Features", count_tier High fa)] |}),
   library_calls feats scaled).
Proof.
  intros Htop Hp0 Hp1 Hfa Hrs.
  unfold detailed_analysis. rewrite Hmodel, Hscaler, Hinfo.
  unfold analysis_body, bind. cbn [lift].
  rewrite (extract_complete _ _ _ _ _ _ Hfeats).
  unfold invoke, lift, ret, empty_frame. cbn [fr_log fr_calls].
  rewrite Hscaled, Hprobs, Hlabel, Htop, Hp0, Hp1, Hfa, Hrs.
  reflexivity.
Qed.

End ServedAnalysis.

Lemma recommendations_object j rs :
  recommendations_of j = Ok rs -> exists data, j = JObj data.
Proof. destruct j; try discriminate. eauto. Qed.

(** Every 200 answer of [detailed_analysis] comes from a run of that
    shape. *)
Lemma analysis_inv sf a req an calls :
  detailed_analysis sf a req = (jsonify 200 (AnalysisBody an), calls) ->
  exists m s fi data feats scaled probs p1,
    model a = Some m /\ scaler a = Some s /\ feature_info a = Some fi /\
    req = Ok (JObj data) /\
    Forall2 (coerces sf data) (names fi) feats /\
    transform s feats = Ok scaled /\
    predict_proba m scaled = Ok probs /\
    py_index probs 1 = Ok p1 /\
    analysed (combine (names fi) feats) ∅ (feature_analysis an) /\
    overall_risk an = analysis_overall_risk p1 /\
    an_toxic an = py_round (p1 * 100) 2 /\
    calls = library_calls feats scaled.
Proof.
  unfold detailed_analysis.
  destruct (model a) as [m|]; [|discriminate].
  destruct (scaler a) as [s|]; [|discriminate].
  destruct (feature_info a) as [fi|]; [|discriminate].
  destruct req as [j|e]; [|discriminate].
  unfold analysis_body, bind. cbn [lift].
  destruct (extract_features sf false j (names fi) [] _)
    as [[xs|e|r'] st] eqn:Hext.
  2: discriminate.
  2: { intros [= Hr _]. apply extract_return in Hext. rewrite Hr in Hext.
       discriminate. }
  unfold invoke, lift, ret. cbn [fr_log fr_calls].
  destruct (transform s xs) as [scaled|e] eqn:Hsc; [|discriminate].
  destruct (predict_proba m scaled) as [probs|e] eqn:Hpr; [|discriminate].
  destruct (predict_label m scaled) as [label|e] eqn:Hlab; [|discriminate].
  destruct (py_max probs) as [top|e] eqn:Htop; [|discriminate].
  destruct (py_index probs 0) as [p0|e] eqn:Hp0; [|discriminate].
  destruct (py_index probs 1) as [p1|e] eqn:Hp1; [|discriminate].
  destruct (analyse_features fi m scaled 0 (combine (names fi) xs) ∅)
    as [fa|e] eqn:Hfa; [|discriminate].
  destruct (recommendations_of j) as [rs|e] eqn:Hrs; [|discriminate].
  destruct (recommendations_object _ _ Hrs) as [data ->].
  apply extract_next in Hext as (-> & feats & -> & Hfeats).
  intros [= <- <-].
  cbn [app fr_calls empty_frame feature_analysis overall_risk an_toxic].
  exists m, s, fi, data, feats, scaled, probs, p1.
  repeat split; try assumption;
    now apply analyse_features_inv in Hfa as [? ?].
Qed.

(** ** Valid requests

    The setting of the claims about "every valid input": the artifacts are
    loaded; every name of the feature list is present in the mapping with an
    entry that [float] accepts ([feats] are the resulting numbers, in
    order); the raw entries under the compared keys are numbers; and the
    scaler and the two-class classifier answer on this input. *)

Lemma Qmax_cases (x y : Q) :
  (Qmax x y = x /\ (y <= x)%Q) \/ (Qmax x y = y /\ (x < y)%Q).
Proof.
  unfold Qmax. destruct (Qlt_bool x y) eqn:E.
  - right. split; [reflexivity|]. now apply Qlt_bool_true.
  - left. split; [reflexivity|]. now apply Qlt_bool_false.
Qed.

Lemma in_when (b : bool) (msg x : string) :
  In x (when b msg) <-> b = true /\ x = msg.
Proof.
  destruct b; cbn; split.
  - intros [<-|[]]. now split.
  - intros [_ ->]. now left.
  - intros [].
  - intros [H _]. discriminate.
Qed.

Lemma key_risk_factors_inv (data : gmap string json) (rf : list string) :
  key_risk_factors (JObj data) = Ok rf ->
  exists size area conc aspect,
    raw_number data "particle_size_nm" 0 = Some size /\
    raw_number data "surface_area_m2g" 0 = Some area /\
    raw_number data "concentration_mgl" 0 = Some conc /\
    raw_number data "aspect_ratio" 1 = Some aspect /\
    rf = fired (Qlt_bool size 50) (Qlt_bool 100 area) (Qlt_bool 100 conc)
               (py_eq (default (JNum 0) (data !! "material_type")) 1)
               (Qlt_bool 10 aspect).
Proof.
  rewrite key_risk_factors_spec.
  destruct (raw_number data "particle_size_nm" 0) as [size|];
    [|discriminate].
  destruct (raw_number data "surface_area_m2g" 0) as [area|];
    [|discriminate].
  destruct (raw_number data "concentration_mgl" 0) as [conc|];
    [|discriminate].
  destruct (raw_number data "aspect_ratio" 1) as [aspect|]; [|discriminate].
  intros [= <-]. exists size, area, conc, aspect. repeat split.
Qed.

Lemma raw_number_insert_eq (data : gmap string json) k x dflt :
  raw_number (<[k := JNum x]> data) k dflt = Some x.
Proof. unfold raw_number. now rewrite lookup_insert_eq. Qed.

Lemma raw_number_insert_ne (data : gmap string json) k k' v dflt :
  k <> k' -> raw_number (<[k := v]> data) k' dflt = raw_number data k' dflt.
Proof. intros H. unfold raw_number. now rewrite lookup_insert_ne. Qed.

Lemma raw_number_lookup (data : gmap string json) k x dflt :
  data !! k = Some (JNum x) -> raw_number data k dflt = Some x.
Proof. intros H. unfold raw_number. now rewrite H. Qed.

Lemma Forall2_combine_In {A B} (P : A -> B -> Prop) l1 l2 x y :
  Forall2 P l1 l2 -> In (x, y) (combine l1 l2) -> P x y.
Proof.
  induction 1 as [|u v l1 l2 Huv _ IH]; cbn; [intros []|].
  intros [[= <- <-]|H]; auto.
Qed.

Lemma Forall2_combine_fst {A B} (P : A -> B -> Prop) l1 l2 :
  Forall2 P l1 l2 -> map fst (combine l1 l2) = l1.
Proof. induction 1; cbn; [reflexivity|now f_equal]. Qed.

(** Overriding the raw entry of one check leaves the other four checks as
    they were. *)
Ltac other_keys :=
  repeat first
    [ rewrite raw_number_insert_eq
    | rewrite raw_number_insert_ne by discriminate
    | rewrite lookup_insert_eq
    | rewrite lookup_insert_ne by discriminate ].

Ltac membership :=
  unfold fired; repeat rewrite in_app_iff; repeat rewrite in_when; tauto.

Lemma any_subset_fires (d : gmap string json) (b1 b2 b3 b4 b5 : bool) :
  key_risk_factors
    (JObj (with_raw_entries (if b1 then 0 else 50) (if b2 then 101 else 0)
             (if b3 then 101 else 0) (if b4 then 1 else 0)
             (if b5 then 11 else 0) d)) =
  Ok (fired b1 b2 b3 b4 b5).
Proof.
  rewrite key_risk_factors_spec. unfold with_raw_entries. other_keys.
  destruct b1, b2, b3, b4, b5; reflexivity.
Qed.

Lemma reads_insert sf (data : gmap string json) k y ns feats :
  Forall2 (coerces sf data) ns feats ->
  exists feats', Forall2 (coerces sf (<[k := JNum y]> data)) ns feats'.
Proof.
  induction 1 as [|n x ns feats (v & Hv & Hx) _ [feats' IH]].
  - exists []. constructor.
  - destruct (string_dec k n) as [->|Hne].
    + exists (y :: feats'). constructor; [|exact IH].
      exists (JNum y). split; [apply lookup_insert_eq|reflexivity].
    + exists (x :: feats'). constructor; [|exact IH].
      exists v. split; [now rewrite lookup_insert_ne|exact Hx].
Qed.

Lemma reads_with_raw_entries sf x1 x2 x3 x4 x5 (data : gmap string json)
    ns feats :
  Forall2 (coerces sf data) ns feats ->
  exists feats',
    Forall2 (coerces sf (with_raw_entries x1 x2 x3 x4 x5 data)) ns feats'.
Proof.
  intros H. unfold with_raw_entries.
  destruct (reads_insert sf _ "aspect_ratio" x5 _ _ H) as [f5 H5].
  destruct (reads_insert sf _ "material_type" x4 _ _ H5) as [f4 H4].
  destruct (reads_insert sf _ "concentration_mgl" x3 _ _ H4) as [f3 H3].
  destruct (reads_insert sf _ "surface_area_m2g" x2 _ _ H3) as [f2 H2].
  exact (reads_insert sf _ "particle_size_nm" x1 _ _ H2).
Qed.




Section ValidRequest.

Variable sf : string -> option Q.
Variables (a : artifacts) (m : classifier) (s : scaler_t) (fi : feature_info_t).
Hypothesis Hmodel : model a = Some m.
Hypothesis Hscaler : scaler a = Some s.
Hypothesis Hinfo : feature_info a = Some fi.

Variable data : gmap string json.
Variables (feats scaled : list Q) (p0 p1 : Q) (label : Z).
Hypothesis Hfeats : Forall2 (coerces sf data) (names fi) feats.
Hypothesis Hcmp : Forall (comparable data) compared_keys.
Hypothesis Hscaled : transform s feats = Ok scaled.
Hypothesis Hprobs : predict_proba m scaled = Ok [p0; p1].
Hypothesis Hlabel : predict_label m scaled = Ok label.

Lemma valid_predict :
  exists rf,
    key_risk_factors (JObj data) = Ok rf /\
    predict sf a (Ok (JObj data)) =
    (jsonify 200 (PredictionBody {|
       prediction := label;
       prediction_text := class_text label;
       confidence := py_round (Qmax p0 p1 * 100) 2;
       non_toxic := py_round (p0 * 100) 2;
       toxic := py_round (p1 * 100) 2;
       risk_level := predict_risk_level (p1 * 100);
       risk_factors := rf;
       feature_importance :=
         top_importance (names fi) (feature_importances_ m);
       result_log := full_log |}),
     library_calls feats scaled).
Proof.
  destruct (key_risk_factors_total data Hcmp) as [rf Hrf].
  exists rf. split; [exact Hrf|].
  now apply predict_served with (m := m) (s := s) (probs := [p0; p1]).
Qed.


(** C4.  On every valid input [/predict] answers 200, and in every 200
    answer of [/predict] the [risk_factors] are the five checks applied to
    the raw request entries (with the defaults of [data.get] where an entry
    is absent), each check looking at its own entry only: size < 50,
    surface area > 100, concentration > 100, material type == 1, aspect
    ratio > 10.  Any subset of the five may fire: over any mapping the five
    raw entries can be overridden so that exactly a chosen subset is
    reported, and on a service whose scaler and classifier answer every
    vector the overridden valid input is again served with that subset.
    The list is monotone: once the checks run through on a mapping,
    overriding one raw entry with a number that makes its check fire gives
    a list that holds that factor and every factor reported before. *)
Theorem risk_factors_independent_monotone :
  (exists r, predict sf a (Ok (JObj data)) =
               (jsonify 200 (PredictionBody r), library_calls feats scaled)) /\
  (forall req r calls,
     predict sf a req = (jsonify 200 (PredictionBody r), calls) ->
     exists d size area conc aspect,
       req = Ok (JObj d) /\
       raw_number d "particle_size_nm" 0 = Some size /\
       raw_number d "surface_area_m2g" 0 = Some area /\
       raw_number d "concentration_mgl" 0 = Some conc /\
       raw_number d "aspect_ratio" 1 = Some aspect /\
       risk_factors r =
         fired (Qlt_bool size 50) (Qlt_bool 100 area) (Qlt_bool 100 conc)
               (py_eq (default (JNum 0) (d !! "material_type")) 1)
               (Qlt_bool 10 aspect)) /\
  (forall (d : gmap string json) (b1 b2 b3 b4 b5 : bool),
     exists x1 x2 x3 x4 x5 : Q,
       key_risk_factors (JObj (with_raw_entries x1 x2 x3 x4 x5 d)) =
       Ok (fired b1 b2 b3 b4 b5)) /\
  ((forall x, exists y, transform s x = Ok y) ->
   (forall y, exists q0 q1, predict_proba m y = Ok [q0; q1]) ->
   (forall y, exists l, predict_label m y = Ok l) ->
   forall b1 b2 b3 b4 b5 : bool,
     exists (x1 x2 x3 x4 x5 : Q) r calls,
       predict sf a (Ok (JObj (with_raw_entries x1 x2 x3 x4 x5 data))) =
         (jsonify 200 (PredictionBody r), calls) /\
       risk_factors r = fired b1 b2 b3 b4 b5) /\
  (forall (d : gmap string json) (rf : list string),
     key_risk_factors (JObj d) = Ok rf ->
     (forall x, (x < 50)%Q ->
        exists rf',
          key_risk_factors (JObj (<["particle_size_nm" := JNum x]> d))
            = Ok rf' /\
          In small_particle_msg rf' /\ forall f, In f rf -> In f rf') /\
     (forall x, (100 < x)%Q ->
        exists rf',
          key_risk_factors (JObj (<["surface_area_m2g" := JNum x]> d))
            = Ok rf' /\
          In high_surface_msg rf' /\ forall f, In f rf -> In f rf') /\
     (forall x, (100 < x)%Q ->
        exists rf',
          key_risk_factors (JObj (<["concentration_mgl" := JNum x]> d))
            = Ok rf' /\
          In high_concentration_msg rf' /\ forall f, In f rf -> In f rf') /\
     (exists rf',
        key_risk_factors (JObj (<["material_type" := JNum 1]> d)) = Ok rf' /\
        In metal_msg rf' /\ forall f, In f rf -> In f rf') /\
     (forall x, (10 < x)%Q ->
        exists rf',
          key_risk_factors (JObj (<["aspect_ratio" := JNum x]> d)) = Ok rf' /\
          In high_aspect_msg rf' /\ forall f, In f rf -> In f rf')).
Proof.
  split; [|split; [|split; [|split]]].
  - destruct valid_predict as (rf & _ & Hresp). eauto.
  - intros req r calls Hresp.
    destruct (predict_inv _ _ _ _ _ Hresp)
      as (m' & s' & fi' & d & fs & sc & pr & top & q0 & q1 & _ & _ & _ & ->
          & _ & _ & _ & _ & _ & _ & _ & Hrf & _).
    destruct (key_risk_factors_inv _ _ Hrf)
      as (size & area & conc & aspect & H1 & H2 & H3 & H4 & Hr).
    exists d, size, area, conc, aspect. repeat split; assumption.
  - intros d b1 b2 b3 b4 b5. do 5 eexists. apply any_subset_fires.
  - intros Hts Htp Htl b1 b2 b3 b4 b5.
    destruct (reads_with_raw_entries sf (if b1 then 0 else 50)
                (if b2 then 101 else 0) (if b3 then 101 else 0)
                (if b4 then 1 else 0) (if b5 then 11 else 0)
                _ _ _ Hfeats) as [feats' Hfeats'].
    destruct (Hts feats') as [scaled' Hsc'].
    destruct (Htp scaled') as (q0 & q1 & Hq).
    destruct (Htl scaled') as [l' Hl'].
    do 7 eexists. split.
    + eapply predict_served with (probs := [q0; q1]); eauto;
        first [apply any_subset_fires | reflexivity].
    + reflexivity.
  - intros d rf Hrf.
    destruct (key_risk_factors_inv _ _ Hrf)
      as (size & area & conc & aspect & H1 & H2 & H3 & H4 & ->).
    unfold fired. repeat split.
    + intros x Hx. eexists. rewrite key_risk_factors_spec. other_keys.
      rewrite H2, H3, H4. split; [reflexivity|].
      apply Qlt_bool_true in Hx. rewrite Hx.
      split; [|intros f]; membership.
    + intros x Hx. eexists. rewrite key_risk_factors_spec. other_keys.
      rewrite H1, H3, H4. split; [reflexivity|].
      apply Qlt_bool_true in Hx. rewrite Hx.
      split; [|intros f]; membership.
    + intros x Hx. eexists. rewrite key_risk_factors_spec. other_keys.
      rewrite H1, H2, H4. split; [reflexivity|].
      apply Qlt_bool_true in Hx. rewrite Hx.
      split; [|intros f]; membership.
    + eexists. rewrite key_risk_factors_spec. other_keys.
      rewrite H1, H2, H3, H4. split; [reflexivity|].
      change (py_eq (default (JNum 0) (Some (JNum 1))) 1) with true.
      split; [|intros f]; membership.
    + intros x Hx. eexists. rewrite key_risk_factors_spec. other_keys.
      rewrite H1, H2, H3. split; [reflexivity|].
      apply Qlt_bool_true in Hx. rewrite Hx.
      split; [|intros f]; membership.
Qed.

Hypothesis Hdesc :
  Forall (fun n => is_Some (descriptions fi !! n)) (names fi).
Hypothesis Himp : length (names fi) <= length (feature_importances_ m).
Hypothesis Hsc : length (names fi) <= length scaled.

Lemma valid_analysis :
  exists fa rs,
    analysed (combine (names fi) feats) ∅ fa /\
    detailed_analysis sf a (Ok (JObj data)) =
    (jsonify 200 (AnalysisBody {|
       an_class := label;
       an_text := class_text label;
       an_confidence := py_round (Qmax p0 p1 * 100) 2;
       an_non_toxic := py_round (p0 * 100) 2;
       an_toxic := py_round (p1 * 100) 2;
       feature_analysis := fa;
       overall_risk := analysis_overall_risk p1;
       safety_recommendations := rs;
       chart_probability :=
         [("Non-Toxic", py_round (p0 * 100) 2);
          ("Toxic", py_round (p1 * 100) 2)];
       chart_importance :=
         map (fun ni => (fst ni, py_round (snd ni * 100) 2))
             (combine (names fi) (feature_importances_ m));
       risk_distribution :=
         [("Low Risk Features", count_tier Low fa);
          ("Medium Risk Features", count_tier Medium fa);
          ("High Risk Features", count_tier High fa)] |}),
     library_calls feats scaled).
Proof.
  destruct (recommendations_total data Hcmp) as [rs Hrs].
  assert (Hlen : length (combine (names fi) feats) = length (names fi)).
  { rewrite length_combine, <- (Forall2_length _ _ _ Hfeats). lia. }
  destruct (analyse_features_ok fi m scaled (combine (names fi) feats) 0 ∅)
    as (fa & Hfa & Han).
  { apply List.Forall_forall. intros [n x] Hin. cbn.
    apply in_combine_l in Hin. rewrite List.Forall_forall in Hdesc.
    now apply Hdesc. }
  { rewrite Hlen. exact Himp. }
  { rewrite Hlen. exact Hsc. }
  exists fa, rs. split; [exact Han|].
  now apply analysis_served with (m := m) (s := s) (probs := [p0; p1]).
Qed.

(** C5.  For a valid input, [/detailed-analysis] gives every feature of
    the list an entry whose tier is computed from that feature's own value:
    High for particle_size_nm < 50, Medium for surface_area_m2g > 200, High
    for concentration_mgl > 500, Medium for |zeta_potential_mv| < 15, and
    Low in every other case.  These are not the thresholds of the
    [/predict] risk factors: a surface area in (100, 200] and a
    concentration in (100, 500] raise the [/predict] factor while their
    tier is Low.  With particle_size_nm = 30 the tier is High and
    [/predict] reports the small-particle-size factor. *)
Theorem feature_tiers :
  (exists r an,
    predict sf a (Ok (JObj data)) =
      (jsonify 200 (PredictionBody r), library_calls feats scaled) /\
    detailed_analysis sf a (Ok (JObj data)) =
      (jsonify 200 (AnalysisBody an), library_calls feats scaled) /\
    (forall n, In n (names fi) ->
       exists e, feature_analysis an !! n = Some e /\
                 coerces sf data n (fe_value e) /\
                 fe_risk_level e = feature_risk n (fe_value e)) /\
    (forall x, feature_risk "particle_size_nm" x =
               if Qlt_bool x 50 then High else Low) /\
    (forall x, feature_risk "surface_area_m2g" x =
               if Qlt_bool 200 x then Medium else Low) /\
    (forall x, feature_risk "concentration_mgl" x =
               if Qlt_bool 500 x then High else Low) /\
    (forall x, feature_risk "zeta_potential_mv" x =
               if Qlt_bool (Qabs x) 15 then Medium else Low) /\
    (forall n x,
       ~ In n ["particle_size_nm"; "surface_area_m2g"; "concentration_mgl";
               "zeta_potential_mv"] ->
       feature_risk n x = Low) /\
    (forall x, (100 < x)%Q -> (x <= 200)%Q ->
       data !! "surface_area_m2g" = Some (JNum x) ->
       In high_surface_msg (risk_factors r) /\
       feature_risk "surface_area_m2g" x = Low) /\
    (forall x, (100 < x)%Q -> (x <= 500)%Q ->
       data !! "concentration_mgl" = Some (JNum x) ->
       In high_concentration_msg (risk_factors r) /\
       feature_risk "concentration_mgl" x = Low) /\
    (data !! "particle_size_nm" = Some (JNum 30) ->
     In "particle_size_nm" (names fi) ->
     In small_particle_msg (risk_factors r) /\
     exists e, feature_analysis an !! "particle_size_nm" = Some e /\
               fe_risk_level e = High)) /\
  (forall req an calls,
     detailed_analysis sf a req = (jsonify 200 (AnalysisBody an), calls) ->
     exists d, req = Ok (JObj d) /\
       forall n, In n (names fi) ->
         exists e, feature_analysis an !! n = Some e /\
                   coerces sf d n (fe_value e) /\
                   fe_risk_level e = feature_risk n (fe_value e)).
Proof.
  split.
  2: { intros req an calls Hresp.
       destruct (analysis_inv _ _ _ _ _ Hresp)
         as (m' & s' & fi' & d & fs & sc & pr & q1 & _ & _ & Hfi' & -> & Hfs
             & _ & _ & _ & [Hin _] & _).
       rewrite Hinfo in Hfi'. injection Hfi' as <-.
       exists d. split; [reflexivity|]. intros n Hn.
       destruct (Hin n) as (e & He & Hpair & Htier).
       { now rewrite (Forall2_combine_fst _ _ _ Hfs). }
       exists e. repeat split; [exact He| |exact Htier].
       exact (Forall2_combine_In _ _ _ _ _ Hfs Hpair). }
  destruct valid_predict as (rf & Hrf & Hresp).
  destruct valid_analysis as (fa & rs & [Hin _] & Han).
  destruct (key_risk_factors_inv _ _ Hrf)
    as (size & area & conc & aspect & H1 & H2 & H3 & H4 & Erf).
  assert (Hentry : forall n, In n (names fi) ->
            exists e, fa !! n = Some e /\ coerces sf data n (fe_value e) /\
                      fe_risk_level e = feature_risk n (fe_value e)).
  { intros n Hn.
    destruct (Hin n) as (e & He & Hpair & Htier).
    { now rewrite (Forall2_combine_fst _ _ _ Hfeats). }
    exists e. repeat split; [exact He| |exact Htier].
    exact (Forall2_combine_In _ _ _ _ _ Hfeats Hpair). }
  do 2 eexists. split; [exact Hresp|]. split; [exact Han|].
  cbn [feature_analysis risk_factors].
  split; [exact Hentry|].
  split; [intros x; unfold feature_risk; cbn; now destruct (Qlt_bool x 50)|].
  split; [intros x; unfold feature_risk; cbn;
          now destruct (Qlt_bool 200 x)|].
  split; [intros x; unfold feature_risk; cbn;
          now destruct (Qlt_bool 500 x)|].
  split; [intros x; unfold feature_risk; cbn;
          now destruct (Qlt_bool (Qabs x) 15)|].
  split.
  { intros n x Hn. unfold feature_risk.
    destruct (String.eqb_spec n "particle_size_nm") as [->|_];
      [exfalso; apply Hn; cbn; tauto|].
    destruct (String.eqb_spec n "surface_area_m2g") as [->|_];
      [exfalso; apply Hn; cbn; tauto|].
    destruct (String.eqb_spec n "concentration_mgl") as [->|_];
      [exfalso; apply Hn; cbn; tauto|].
    destruct (String.eqb_spec n "zeta_potential_mv") as [->|_];
      [exfalso; apply Hn; cbn; tauto|].
    reflexivity. }
  split.
  { intros x Hlo Hhi Hx.
    rewrite (raw_number_lookup _ _ _ _ Hx) in H2. injection H2 as <-.
    split.
    - rewrite Erf. apply Qlt_bool_true in Hlo. rewrite Hlo. membership.
    - unfold feature_risk. cbn. apply Qlt_bool_false in Hhi.
      now rewrite Hhi. }
  split.
  { intros x Hlo Hhi Hx.
    rewrite (raw_number_lookup _ _ _ _ Hx) in H3. injection H3 as <-.
    split.
    - rewrite Erf. apply Qlt_bool_true in Hlo. rewrite Hlo. membership.
    - unfold feature_risk. cbn. apply Qlt_bool_false in Hhi.
      now rewrite Hhi. }
  intros Hx Hn.
  rewrite (raw_number_lookup _ _ _ _ Hx) in H1. injection H1 as <-.
  split.
  - rewrite Erf. change (Qlt_bool 30 50) with true. membership.
  - destruct (Hentry _ Hn) as (e & He & (v & Hv & Hf) & Htier).
    exists e. split; [exact He|].
    rewrite Hx in Hv. injection Hv as <-. cbn in Hf. injection Hf as Hf.
    rewrite Htier, <- Hf. reflexivity.
Qed.


End ValidRequest.

(** ** The deployment scenario *)

(** What the checks of [predict] report on [test_data]. *)
Lemma test_data_risk_factors :
  key_risk_factors (JObj test_data) =
  Ok [small_particle_msg; high_surface_msg; metal_msg].
Proof. vm_compute. reflexivity. Qed.

(** C3 (amended).  Post [test_data] to a service whose feature list only
    has names that the mapping holds, and whose scaler and classifier
    answer on the resulting vector, the classifier with two probabilities
    in [0, 1].  Then [/predict] answers 200, [prediction_text] is [Toxic]
    or [Non-Toxic], [confidence] lies in [0, 100], and the risk factors are
    the small-particle, high-surface-area and metal-nanoparticle ones. *)
Theorem deployment_scenario sf (a : artifacts) (m : classifier)
    (s : scaler_t) (fi : feature_info_t) (feats scaled : list Q)
    (p0 p1 : Q) (label : Z) :
  model a = Some m -> scaler a = Some s -> feature_info a = Some fi ->
  Forall2 (fun n x => test_data !! n = Some (JNum x)) (names fi) feats ->
  transform s feats = Ok scaled ->
  predict_proba m scaled = Ok [p0; p1] ->
  (0 <= p0)%Q -> (p0 <= 1)%Q -> (0 <= p1)%Q -> (p1 <= 1)%Q ->
  predict_label m scaled = Ok label ->
  exists r,
    predict sf a (Ok (JObj test_data)) =
      (jsonify 200 (PredictionBody r), library_calls feats scaled) /\
    (prediction_text r = "Toxic" \/ prediction_text r = "Non-Toxic") /\
    (0 <= confidence r)%Q /\ (confidence r <= 100)%Q /\
    risk_factors r = [small_particle_msg; high_surface_msg; metal_msg] /\
    In metal_msg (risk_factors r) /\ In high_surface_msg (risk_factors r).
Proof.
  intros Hm Hs Hfi Hfeats Hsc Hpr Hp0 Hp0' Hp1 Hp1' Hlab.
  assert (Hco : Forall2 (coerces sf test_data) (names fi) feats).
  { eapply Forall2_impl; [exact Hfeats|]. intros n x Hn.
    exists (JNum x). now split. }
  eexists. split.
  { eapply predict_served with (probs := [p0; p1]); eauto;
      first [exact test_data_risk_factors | reflexivity]. }
  cbn [prediction_text confidence risk_factors].
  split; [unfold class_text; destruct (label =? 1)%Z; auto|].
  assert (Hmax : (0 <= Qmax p0 p1 * 100)%Q /\ (Qmax p0 p1 * 100 <= 100)%Q).
  { destruct (Qmax_cases p0 p1) as [[-> _]|[-> _]]; split; lra. }
  destruct Hmax as [Hlo Hhi].
  destruct (py_round2_percent _ Hlo Hhi) as [A B].
  change (fold_left Qmax [p1] p0) with (Qmax p0 p1).
  split; [exact A|]. split; [exact B|]. split; [reflexivity|].
  split; [right; right; left; reflexivity|right; left; reflexivity].
Qed.

(** With the column list of the trainer as feature list, the scenario stops
    at the first column the mapping lacks. *)
Lemma trainer_list_rejects_test_data sf (a : artifacts) (m : classifier)
    (s : scaler_t) (fi : feature_info_t) :
  model a = Some m -> scaler a = Some s -> feature_info a = Some fi ->
  names fi = trainer_features ->
  predict sf a (Ok (JObj test_data)) =
    (jsonify 400 (ErrorBody (missing_feature "crystallinity")
                            (Some [validation_started])), []).
Proof.
  intros Hm Hs Hfi Hn.
  refine (proj1 (first_absent_rejected sf a m s fi Hm Hs Hfi test_data
            ["particle_size_nm"; "surface_area_m2g"; "zeta_potential_mv";
             "ph"; "concentration_mgl"; "material_type"]
            ["porosity"; "hydrophobicity"; "aspect_ratio"]
            [25; 150; -30; 74 # 10; 100; 1]%Q "crystallinity" _ _ _)).
  - exact Hn.
  - repeat (constructor; [eexists; split; reflexivity|]). constructor.
  - reflexivity.
Qed.

(** ** Bodies that are not objects *)

(** C8 (amended).  With the artifacts loaded and a feature list starting
    with [n]: if [get_json] raises, [/predict] answers 500
    [Prediction failed] with an empty status log; if the body is JSON null,
    a boolean or a number, the membership test raises [TypeError] and the
    answer is 500 [Prediction failed] with the one-entry status log.  A
    body that is a JSON string or array passes the membership test: when
    [n] is not a substring of the string, or not an element of the array,
    the answer is the 400 [Missing feature: n] validation error; when it
    is, subscripting raises and the answer is the 500.  No library call is
    made in any of these cases. *)
Theorem non_object_body sf (a : artifacts) (m : classifier) (s : scaler_t)
    (fi : feature_info_t) (n : string) (rest : list string) :
  model a = Some m -> scaler a = Some s -> feature_info a = Some fi ->
  names fi = n :: rest ->
  let failed e log :=
    (jsonify 500 (ErrorBody (Formatted "Prediction failed: " e) (Some log)),
     @nil call) in
  let missing :=
    (jsonify 400 (ErrorBody (missing_feature n) (Some [validation_started])),
     @nil call) in
  (forall e, predict sf a (Err e) = failed e []) /\
  predict sf a (Ok JNull) = failed TypeError [validation_started] /\
  (forall b, predict sf a (Ok (JBool b))
             = failed TypeError [validation_started]) /\
  (forall x, predict sf a (Ok (JNum x))
             = failed TypeError [validation_started]) /\
  (forall t, predict sf a (Ok (JStr t)) =
             if str_contains n t
             then failed TypeError [validation_started] else missing) /\
  (forall l, predict sf a (Ok (JArr l)) =
             if list_contains n l
             then failed TypeError [validation_started] else missing).
Proof.
  intros Hm Hs Hfi Hn failed missing. subst failed missing.
  unfold predict. rewrite Hm, Hs, Hfi. unfold predict_body. rewrite Hn.
  repeat split; try intros ?; try reflexivity.
  - unfold bind. cbn. now destruct (str_contains n t).
  - unfold bind. cbn. now destruct (list_contains n l).
Qed.

(** ** The handlers on concrete requests *)

Ltac reads_all :=
  repeat (constructor; [eexists; split; reflexivity|]); constructor.

Ltac numbers_under :=
  repeat (constructor;
          [let v := fresh "v" in
           let H := fresh "H" in
           intros v H; vm_compute in H; injection H as <-;
           eexists; reflexivity|]);
  constructor.

Lemma test_data_reads :
  Forall2 (coerces decimal_float test_data) test_data_keys test_features.
Proof. reads_all. Defined.

Lemma test_data_comparable : Forall (comparable test_data) compared_keys.
Proof. numbers_under. Defined.

Lemma test_data_described :
  Forall (fun n => is_Some (descriptions deployed_info !! n))
         (names deployed_info).
Proof. repeat (constructor; [eexists; reflexivity|]). constructor. Defined.

(** C1: a mapping that lacks [surface_area_m2g] (and more) while holding
    [null] under [particle_size_nm], the first name of the list: both
    handlers answer 500, not 400. *)
Lemma unreadable_entry_before_absent_name :
  let data : gmap string json := {[ "particle_size_nm" := JNull ]} in
  data !! "surface_area_m2g" = None /\
  In "surface_area_m2g" trainer_features /\
  predict decimal_float trainer_service (Ok (JObj data)) =
    (jsonify 500 (ErrorBody (Formatted "Prediction failed: " TypeError)
                            (Some [validation_started])), []) /\
  detailed_analysis decimal_float trainer_service (Ok (JObj data)) =
    (jsonify 500 (ErrorBody (Formatted "Analysis failed: " TypeError) None),
     []).
Proof.
  cbv zeta. split; [reflexivity|]. split; [right; left; reflexivity|].
  split; vm_compute; reflexivity.
Qed.

Lemma missing_feature_rejected_witness :
  names trainer_info =
    ["particle_size_nm"; "surface_area_m2g"; "zeta_potential_mv"; "ph";
     "concentration_mgl"; "material_type"]
    ++ "crystallinity" :: ["porosity"; "hydrophobicity"; "aspect_ratio"] /\
  Forall2 (coerces decimal_float test_data)
    ["particle_size_nm"; "surface_area_m2g"; "zeta_potential_mv"; "ph";
     "concentration_mgl"; "material_type"]
    [25; 150; -30; 74 # 10; 100; 1]%Q /\
  test_data !! "crystallinity" = None /\
  predict decimal_float trainer_service (Ok (JObj test_data)) =
    (jsonify 400 (ErrorBody (missing_feature "crystallinity")
                            (Some [validation_started])), []) /\
  detailed_analysis decimal_float trainer_service (Ok (JObj test_data)) =
    (jsonify 400 (ErrorBody (missing_feature "crystallinity") None), []).
Proof.
  assert (H1 : names trainer_info =
    ["particle_size_nm"; "surface_area_m2g"; "zeta_potential_mv"; "ph";
     "concentration_mgl"; "material_type"]
    ++ "crystallinity" :: ["porosity"; "hydrophobicity"; "aspect_ratio"])
    by reflexivity.
  assert (H2 : Forall2 (coerces decimal_float test_data)
    ["particle_size_nm"; "surface_area_m2g"; "zeta_potential_mv"; "ph";
     "concentration_mgl"; "material_type"]
    [25; 150; -30; 74 # 10; 100; 1]%Q) by reads_all.
  assert (H3 : test_data !! "crystallinity" = None) by reflexivity.
  split; [exact H1|]. split; [exact H2|]. split; [exact H3|].
  exact (missing_feature_rejected decimal_float trainer_service
           sample_classifier unit_scaler trainer_info
           eq_refl eq_refl eq_refl test_data _ _ _ _ H1 H2 H3).
Defined.



(** C3: with the trainer's column list as feature list, the scenario input
    is answered 400, [crystallinity] being the first column it lacks. *)
Lemma scenario_rejected_under_trainer_features :
  names trainer_info = trainer_features /\
  predict decimal_float trainer_service (Ok (JObj test_data)) =
    (jsonify 400 (ErrorBody (missing_feature "crystallinity")
                            (Some [validation_started])), []).
Proof.
  split; [reflexivity|].
  now apply trainer_list_rejects_test_data
    with (m := sample_classifier) (s := unit_scaler) (fi := trainer_info).
Qed.

Lemma deployment_scenario_witness :
  Forall2 (fun n x => test_data !! n = Some (JNum x)) (names deployed_info)
          test_features /\
  (0 <= (3 # 10))%Q /\ ((3 # 10) <= 1)%Q /\ (0 <= (7 # 10))%Q /\ ((7 # 10) <= 1)%Q /\
  exists r,
    predict decimal_float sample_service (Ok (JObj test_data)) =
      (jsonify 200 (PredictionBody r),
       library_calls test_features test_features) /\
    (prediction_text r = "Toxic" \/ prediction_text r = "Non-Toxic") /\
    (0 <= confidence r)%Q /\ (confidence r <= 100)%Q /\
    risk_factors r = [small_particle_msg; high_surface_msg; metal_msg] /\
    In metal_msg (risk_factors r) /\ In high_surface_msg (risk_factors r).
Proof.
  assert (H : Forall2 (fun n x => test_data !! n = Some (JNum x))
                (names deployed_info) test_features)
    by (repeat (constructor; [reflexivity|]); constructor).
  assert (A : (0 <= (3 # 10))%Q) by (vm_compute; discriminate).
  assert (B : ((3 # 10) <= 1)%Q) by (vm_compute; discriminate).
  assert (C : (0 <= (7 # 10))%Q) by (vm_compute; discriminate).
  assert (D : ((7 # 10) <= 1)%Q) by (vm_compute; discriminate).
  split; [exact H|]. split; [exact A|]. split; [exact B|].
  split; [exact C|]. split; [exact D|].
  exact (deployment_scenario decimal_float sample_service sample_classifier
           unit_scaler deployed_info test_features test_features
           (3 # 10) (7 # 10) 1%Z eq_refl eq_refl eq_refl H eq_refl eq_refl
           A B C D eq_refl).
Defined.

Lemma risk_factors_independent_monotone_witness :
  Forall2 (coerces decimal_float test_data) (names deployed_info)
          test_features /\
  Forall (comparable test_data) compared_keys /\
  exists r,
    predict decimal_float sample_service (Ok (JObj test_data)) =
      (jsonify 200 (PredictionBody r),
       library_calls test_features test_features) /\
    risk_factors r = [small_particle_msg; high_surface_msg; metal_msg].
Proof.
  split; [exact test_data_reads|]. split; [exact test_data_comparable|].
  destruct (risk_factors_independent_monotone decimal_float sample_service
              sample_classifier unit_scaler deployed_info
              eq_refl eq_refl eq_refl test_data test_features test_features
              (3 # 10) (7 # 10) 1%Z
              test_data_reads test_data_comparable eq_refl eq_refl eq_refl)
    as ([r Hp] & Hinv & _).
  exists r. split; [exact Hp|].
  destruct (Hinv _ _ _ Hp)
    as (d & size & area & conc & aspect & Hd & H1 & H2 & H3 & H4 & Hr).
  injection Hd as <-. rewrite Hr.
  vm_compute in H1, H2, H3, H4.
  injection H1 as <-. injection H2 as <-. injection H3 as <-.
  injection H4 as <-. reflexivity.
Defined.

Lemma feature_tiers_witness :
  Forall2 (coerces decimal_float test_data) (names deployed_info)
          test_features /\
  Forall (comparable test_data) compared_keys /\
  Forall (fun n => is_Some (descriptions deployed_info !! n))
         (names deployed_info) /\
  length (names deployed_info) <= length (feature_importances_ sample_classifier) /\
  length (names deployed_info) <= length test_features /\
  exists r an,
    predict decimal_float sample_service (Ok (JObj test_data)) =
      (jsonify 200 (PredictionBody r),
       library_calls test_features test_features) /\
    detailed_analysis decimal_float sample_service (Ok (JObj test_data)) =
      (jsonify 200 (AnalysisBody an),
       library_calls test_features test_features) /\
    In high_surface_msg (risk_factors r) /\
    feature_risk "surface_area_m2g" 150 = Low /\
    exists e, feature_analysis an !! "particle_size_nm" = Some e /\
              fe_risk_level e = feature_risk "particle_size_nm" (fe_value e).
Proof.
  assert (Himp : length (names deployed_info)
                 <= length (feature_importances_ sample_classifier))
    by (cbn; lia).
  assert (Hsc : length (names deployed_info) <= length test_features)
    by (cbn; lia).
  split; [exact test_data_reads|]. split; [exact test_data_comparable|].
  split; [exact test_data_described|]. split; [exact Himp|].
  split; [exact Hsc|].
  destruct (feature_tiers decimal_float sample_service
              sample_classifier unit_scaler deployed_info
              eq_refl eq_refl eq_refl test_data test_features test_features
              (3 # 10) (7 # 10) 1%Z
              test_data_reads test_data_comparable eq_refl eq_refl eq_refl
              test_data_described Himp Hsc)
    as ((r & an & Hp & Ha & Hentry & _ & _ & _ & _ & _ & Hsurf & _ & _) & _).
  exists r, an. split; [exact Hp|]. split; [exact Ha|].
  assert (Hlo : (100 < 150)%Q) by reflexivity.
  assert (Hhi : (150 <= 200)%Q) by (vm_compute; discriminate).
  destruct (Hsurf 150%Q Hlo Hhi eq_refl) as [Hin Hlow].
  split; [exact Hin|]. split; [exact Hlow|].
  destruct (Hentry "particle_size_nm") as (e & He & _ & Ht);
    [left; reflexivity|].
  exists e. split; [exact He|exact Ht].
Defined.


Lemma unloaded_artifact_reported_witness :
  (model unloaded = None \/ scaler unloaded = None
   \/ feature_info unloaded = None) /\
  (exists h, health_check unloaded = jsonify 200 (HealthBody h) /\
     (model unloaded = None -> model_loaded h = false) /\
     (scaler unloaded = None -> scaler_loaded h = false) /\
     (feature_info unloaded = None -> features_loaded h = false)) /\
  (forall get_json,
     predict decimal_float unloaded get_json =
       (jsonify 500 (ErrorBody (Literal "Model not loaded properly") None),
        [])).
Proof.
  assert (H : model unloaded = None \/ scaler unloaded = None
              \/ feature_info unloaded = None) by (left; reflexivity).
  split; [exact H|].
  exact (unloaded_artifact_reported decimal_float unloaded H).
Defined.

(** C8: a JSON string as body passes the membership test, and the answer
    is the 400 validation error. *)
Lemma string_body_gets_validation_error :
  predict decimal_float trainer_service (Ok (JStr "hello")) =
    (jsonify 400 (ErrorBody (missing_feature "particle_size_nm")
                            (Some [validation_started])), []).
Proof. vm_compute. reflexivity. Qed.

Lemma non_object_body_witness :
  names trainer_info = "particle_size_nm" :: tl trainer_features /\
  predict decimal_float trainer_service (Ok JNull) =
    (jsonify 500 (ErrorBody (Formatted "Prediction failed: " TypeError)
                            (Some [validation_started])), []) /\
  predict decimal_float trainer_service (Ok (JArr [JNum 25; JNum 150])) =
    (jsonify 400 (ErrorBody (missing_feature "particle_size_nm")
                            (Some [validation_started])), []).
Proof.
  assert (H : names trainer_info = "particle_size_nm" :: tl trainer_features)
    by reflexivity.
  split; [exact H|].
  destruct (non_object_body decimal_float trainer_service sample_classifier
              unit_scaler trainer_info "particle_size_nm"
              (tl trainer_features) eq_refl eq_refl eq_refl H)
    as (_ & Hnull & _ & _ & _ & Harr).
  split; [exact Hnull|]. exact (Harr [JNum 25; JNum 150]).
Defined.

Lemma earliest_absent_named_witness :
  names trainer_info =
    ["particle_size_nm"; "surface_area_m2g"; "zeta_potential_mv"; "ph";
     "concentration_mgl"; "material_type"]
    ++ "crystallinity" :: ["porosity"; "hydrophobicity"; "aspect_ratio"] /\
  test_data !! "crystallinity" = None /\
  In "porosity" ["porosity"; "hydrophobicity"; "aspect_ratio"] /\
  test_data !! "porosity" = None /\
  "porosity" <> "crystallinity" /\
  predict decimal_float trainer_service (Ok (JObj test_data)) =
    (jsonify 400 (ErrorBody (missing_feature "crystallinity")
                            (Some [validation_started])), []) /\
  fst (predict decimal_float trainer_service (Ok (JObj test_data)))
    <> jsonify 400 (ErrorBody (missing_feature "porosity")
                              (Some [validation_started])).
Proof.
  assert (H1 : names trainer_info =
    ["particle_size_nm"; "surface_area_m2g"; "zeta_potential_mv"; "ph";
     "concentration_mgl"; "material_type"]
    ++ "crystallinity" :: ["porosity"; "hydrophobicity"; "aspect_ratio"])
    by reflexivity.
  assert (H2 : Forall (fun k => is_Some (test_data !! k))
    ["particle_size_nm"; "surface_area_m2g"; "zeta_potential_mv"; "ph";
     "concentration_mgl"; "material_type"])
    by (repeat (constructor; [eexists; reflexivity|]); constructor).
  assert (H3 : test_data !! "crystallinity" = None) by reflexivity.
  assert (H4 : In "porosity" ["porosity"; "hydrophobicity"; "aspect_ratio"])
    by (left; reflexivity).
  assert (H5 : test_data !! "porosity" = None) by reflexivity.
  assert (H6 : "porosity" <> "crystallinity") by discriminate.
  split; [exact H1|]. split; [exact H3|]. split; [exact H4|].
  split; [exact H5|]. split; [exact H6|].
  destruct (earliest_absent_named decimal_float trainer_service
              sample_classifier unit_scaler trainer_info
              eq_refl eq_refl eq_refl test_data _ _ _ _ H1 H2 H3 H4 H5 H6)
    as [Hfirst Hnever].
  split.
  - refine (proj1 (Hfirst [25; 150; -30; 74 # 10; 100; 1]%Q _)). reads_all.
  - exact (proj1 (Hnever (Some [validation_started]))).
Defined.

(** * Further properties of the code *)

(** ** The trainer's clipping and scoring *)

Lemma Qmax_bounds (x y : Q) : (x <= Qmax x y)%Q /\ (y <= Qmax x y)%Q.
Proof. destruct (Qmax_cases x y) as [[-> H]|[-> H]]; split; lra. Qed.

Lemma Qmin_cases (x y : Q) :
  (Qmin x y = x /\ (x <= y)%Q) \/ (Qmin x y = y /\ (y < x)%Q).
Proof.
  unfold Qmin. destruct (Qlt_bool y x) eqn:E.
  - right. split; [reflexivity|]. now apply Qlt_bool_true.
  - left. split; [reflexivity|]. now apply Qlt_bool_false.
Qed.

Lemma np_clip_range (x lo hi : Q) :
  (lo <= hi)%Q -> (lo <= np_clip x lo hi)%Q /\ (np_clip x lo hi <= hi)%Q.
Proof.
  intros H. unfold np_clip.
  destruct (Qmin_cases (Qmax x lo) hi) as [[-> A]|[-> A]];
    destruct (Qmax_cases x lo) as [[E B]|[E B]]; rewrite ?E in *;
    split; lra.
Qed.

Lemma np_clip_inside (x lo hi : Q) :
  (lo <= x)%Q -> (x <= hi)%Q -> np_clip x lo hi = x.
Proof.
  intros A B. unfold np_clip, Qmax, Qmin.
  assert (E1 : Qlt_bool x lo = false) by now apply Qlt_bool_false.
  rewrite E1.
  assert (E2 : Qlt_bool hi x = false) by now apply Qlt_bool_false.
  now rewrite E2.
Qed.

Lemma np_clip_mono (x y lo hi : Q) :
  (x <= y)%Q -> (np_clip x lo hi <= np_clip y lo hi)%Q.
Proof.
  intros H. unfold np_clip.
  destruct (Qmin_cases (Qmax x lo) hi) as [[-> A]|[-> A]];
    destruct (Qmin_cases (Qmax y lo) hi) as [[-> B]|[-> B]];
    destruct (Qmax_cases x lo) as [[E C]|[E C]]; rewrite ?E in *;
    destruct (Qmax_cases y lo) as [[F D]|[F D]]; rewrite ?F in *; lra.
Qed.

(** X1.  Clipping puts the six clipped columns inside their ranges, leaves
    values already inside unchanged, so that clipping twice is clipping
    once, and never touches the four other columns. *)
Theorem clip_sample_ranges (r : sample) :
  let c := clip_sample r in
  ((1 <= particle_size_nm c)%Q /\ (particle_size_nm c <= 500)%Q) /\
  ((5 <= surface_area_m2g c)%Q /\ (surface_area_m2g c <= 400)%Q) /\
  ((-100 <= zeta_potential_mv c)%Q /\ (zeta_potential_mv c <= 60)%Q) /\
  ((3 <= ph c)%Q /\ (ph c <= 12)%Q) /\
  ((1 # 10 <= concentration_mgl c)%Q /\ (concentration_mgl c <= 1000)%Q) /\
  ((1 <= aspect_ratio c)%Q /\ (aspect_ratio c <= 20)%Q) /\
  clip_sample c = c /\
  material_type c = material_type r /\
  crystallinity c = crystallinity r /\
  porosity c = porosity r /\
  hydrophobicity c = hydrophobicity r.
Proof.
  cbv zeta.
  assert (R1 := np_clip_range (particle_size_nm r) 1 500).
  assert (R2 := np_clip_range (surface_area_m2g r) 5 400).
  assert (R3 := np_clip_range (zeta_potential_mv r) (-100) 60).
  assert (R4 := np_clip_range (ph r) 3 12).
  assert (R5 := np_clip_range (concentration_mgl r) (1 # 10) 1000).
  assert (R6 := np_clip_range (aspect_ratio r) 1 20).
  destruct R1 as [A1 B1]; [lra|]. destruct R2 as [A2 B2]; [lra|].
  destruct R3 as [A3 B3]; [lra|]. destruct R4 as [A4 B4]; [lra|].
  destruct R5 as [A5 B5]; [lra|]. destruct R6 as [A6 B6]; [lra|].
  cbn [clip_sample particle_size_nm surface_area_m2g zeta_potential_mv ph
       concentration_mgl aspect_ratio material_type crystallinity porosity
       hydrophobicity].
  repeat (split; [split; assumption|]).
  split; [|repeat split].
  unfold clip_sample at 1.
  cbn [particle_size_nm surface_area_m2g zeta_potential_mv ph
       concentration_mgl aspect_ratio material_type crystallinity porosity
       hydrophobicity].
  rewrite !np_clip_inside by assumption. reflexivity.
Qed.

Lemma Qinv_antitone (x y : Q) :
  (0 < x)%Q -> (x <= y)%Q -> (1 / y <= 1 / x)%Q.
Proof.
  intros Hx Hxy.
  apply Qle_shift_div_l; [exact Hx|].
  assert (E : (1 / y * x == x / y)%Q) by (field; lra).
  rewrite E. apply Qle_shift_div_r; lra.
Qed.

(** X2.  The score follows the comments of the source on clipped samples:
    for the same noise, a sample that is no larger in particle size and no
    smaller in surface area, concentration, material flag and aspect ratio
    scores at least as high, and is labelled toxic whenever the other one
    is, as long as [ln] is monotone on the clipped concentration range. The
    particle-size denominator is positive after clipping. *)
Theorem toxicity_score_monotone (ln : Q -> Q) (r1 r2 : sample) (noise : Q) :
  (forall x y, (1 # 10 <= x)%Q -> (x <= y)%Q -> (y <= 1000)%Q ->
               (ln x <= ln y)%Q) ->
  (particle_size_nm r2 <= particle_size_nm r1)%Q ->
  (surface_area_m2g r1 <= surface_area_m2g r2)%Q ->
  (concentration_mgl r1 <= concentration_mgl r2)%Q ->
  (material_type r1 <= material_type r2)%Q ->
  (aspect_ratio r1 <= aspect_ratio r2)%Q ->
  (0 < particle_size_nm (clip_sample r1) / 50)%Q /\
  (0 < particle_size_nm (clip_sample r2) / 50)%Q /\
  (toxicity_score ln (clip_sample r1) noise
   <= toxicity_score ln (clip_sample r2) noise)%Q /\
  (forall threshold,
     (toxicity_label (toxicity_score ln (clip_sample r1) noise) threshold
      <= toxicity_label (toxicity_score ln (clip_sample r2) noise)
                        threshold)%Z).
Proof.
  intros Hln Hs Ha Hc Hm Hr.
  destruct (np_clip_range (particle_size_nm r1) 1 500) as [S1 S1']; [lra|].
  destruct (np_clip_range (particle_size_nm r2) 1 500) as [S2 S2']; [lra|].
  destruct (np_clip_range (concentration_mgl r1) (1 # 10) 1000)
    as [C1 C1']; [lra|].
  destruct (np_clip_range (concentration_mgl r2) (1 # 10) 1000)
    as [C2 C2']; [lra|].
  change (np_clip (particle_size_nm r1) 1 500)
    with (particle_size_nm (clip_sample r1)) in *.
  change (np_clip (particle_size_nm r2) 1 500)
    with (particle_size_nm (clip_sample r2)) in *.
  change (np_clip (concentration_mgl r1) (1 # 10) 1000)
    with (concentration_mgl (clip_sample r1)) in *.
  change (np_clip (concentration_mgl r2) (1 # 10) 1000)
    with (concentration_mgl (clip_sample r2)) in *.
  assert (P1 : (0 < particle_size_nm (clip_sample r1) / 50)%Q)
    by (apply Qlt_shift_div_l; lra).
  assert (P2 : (0 < particle_size_nm (clip_sample r2) / 50)%Q)
    by (apply Qlt_shift_div_l; lra).
  split; [exact P1|]. split; [exact P2|].
  cut (toxicity_score ln (clip_sample r1) noise
       <= toxicity_score ln (clip_sample r2) noise)%Q.
  { intros Hle. split; [exact Hle|]. intros thr. unfold toxicity_label.
    set (s1 := toxicity_score ln (clip_sample r1) noise) in *.
    set (s2 := toxicity_score ln (clip_sample r2) noise) in *.
    destruct (Qlt_bool thr s1) eqn:E1; destruct (Qlt_bool thr s2) eqn:E2;
      try lia.
    apply Qlt_bool_true in E1. apply Qlt_bool_false in E2. exfalso. lra. }
  assert (T1 : (1 / (particle_size_nm (clip_sample r1) / 50)
                <= 1 / (particle_size_nm (clip_sample r2) / 50))%Q).
  { apply Qinv_antitone; [exact P2|].
    apply Qle_shift_div_l; [lra|].
    assert (E : (particle_size_nm (clip_sample r2) / 50 * 50
                 == particle_size_nm (clip_sample r2))%Q) by (field; lra).
    rewrite E. cbn [clip_sample particle_size_nm].
    now apply np_clip_mono. }
  assert (T2 : (surface_area_m2g (clip_sample r1)
                <= surface_area_m2g (clip_sample r2))%Q)
    by (cbn [clip_sample surface_area_m2g]; now apply np_clip_mono).
  assert (T3 : (ln (concentration_mgl (clip_sample r1))
                <= ln (concentration_mgl (clip_sample r2)))%Q).
  { apply Hln; [exact C1| |exact C2'].
    cbn [clip_sample concentration_mgl]. now apply np_clip_mono. }
  assert (T5 : (aspect_ratio (clip_sample r1)
                <= aspect_ratio (clip_sample r2))%Q)
    by (cbn [clip_sample aspect_ratio]; now apply np_clip_mono).
  unfold toxicity_score.
  change (material_type (clip_sample r1)) with (material_type r1).
  change (material_type (clip_sample r2)) with (material_type r2).
  set (a1 := (1 / (particle_size_nm (clip_sample r1) / 50))%Q) in *.
  set (a2 := (1 / (particle_size_nm (clip_sample r2) / 50))%Q) in *.
  set (l1 := ln (concentration_mgl (clip_sample r1))) in *.
  set (l2 := ln (concentration_mgl (clip_sample r2))) in *.
  assert (D1 : (surface_area_m2g (clip_sample r1) / 200
                <= surface_area_m2g (clip_sample r2) / 200)%Q).
  { apply Qle_shift_div_l; [lra|].
    assert (E : (surface_area_m2g (clip_sample r1) / 200 * 200
                 == surface_area_m2g (clip_sample r1))%Q) by (field; lra).
    rewrite E. exact T2. }
  assert (D2 : (l1 / 5 <= l2 / 5)%Q).
  { apply Qle_shift_div_l; [lra|].
    assert (E : (l1 / 5 * 5 == l1)%Q) by (field; lra).
    rewrite E. exact T3. }
  assert (D3 : (aspect_ratio (clip_sample r1) / 10
                <= aspect_ratio (clip_sample r2) / 10)%Q).
  { apply Qle_shift_div_l; [lra|].
    assert (E : (aspect_ratio (clip_sample r1) / 10 * 10
                 == aspect_ratio (clip_sample r1))%Q) by (field; lra).
    rewrite E. exact T5. }
  lra.
Qed.

(** ** [verify_deployment.py] *)

(** X3.  After normalisation a URL starts with [http]; a URL that already
    does is left as it is, so normalising twice changes nothing; any other
    string, the empty one included, gets [https://] in front. *)
Theorem normalize_url_scheme (url : string) :
  String.prefix "http" (normalize_url url) = true /\
  normalize_url (normalize_url url) = normalize_url url /\
  (String.prefix "http" url = true -> normalize_url url = url) /\
  (String.prefix "http" url = false ->
   normalize_url url = String.append "https://" url).
Proof.
  unfold normalize_url.
  destruct (String.prefix "http" url) eqn:E.
  - rewrite E. repeat split; auto. discriminate.
  - repeat split; auto. discriminate.
Qed.

(** X4.  The verdict of the deployment check is decided by the health
    request alone: it is [True] exactly when that request comes back with
    status 200 and a JSON object, whatever the features and prediction
    requests do. *)
Theorem deployment_verdict (net : network) (base_url : string) :
  snd (test_vercel_deployment net base_url) = true <->
  exists response d,
    http_get net (String.append base_url "/health") = Ok response /\
    status_code response = 200%Z /\
    json_body response = Ok (JObj d).
Proof.
  unfold test_vercel_deployment, check_health.
  destruct (http_get net (String.append base_url "/health"))
    as [response|e]; cbn [snd fst].
  2: { split; [discriminate|]. intros (? & ? & H & _). discriminate. }
  destruct (status_code response =? 200)%Z eqn:Hcode.
  2: { split; [discriminate|]. intros (r' & d & [= <-] & Hc & _).
       rewrite Hc in Hcode. discriminate. }
  apply Z.eqb_eq in Hcode.
  destruct (json_body response) as [j|e] eqn:Hj.
  2: { split; [discriminate|]. intros (r' & d & [= <-] & _ & H).
       rewrite Hj in H. discriminate. }
  destruct j; cbn;
    try (split; [discriminate|];
         intros (r' & d & [= <-] & _ & H); rewrite Hj in H; discriminate).
  split; [|reflexivity]. intros _. eauto.
Qed.

Lemma append_eqb_suffix (base s t : string) :
  String.eqb (String.append base s) (String.append base t) = String.eqb s t.
Proof.
  induction base as [|c base IH]; [reflexivity|].
  change (String.eqb (String c (String.append base s))
                     (String c (String.append base t)) = String.eqb s t).
  cbn [String.eqb]. now rewrite Ascii.eqb_refl.
Qed.

Lemma health_json_flags (h : health_report) (dflt : json) :
  py_get (health_json h) "model_loaded" dflt = Ok (JBool (model_loaded h)) /\
  py_get (health_json h) "scaler_loaded" dflt = Ok (JBool (scaler_loaded h)) /\
  py_get (health_json h) "features_loaded" dflt
    = Ok (JBool (features_loaded h)).
Proof. destruct h. repeat split; vm_compute; reflexivity. Qed.

(** X5.  Run against this service, the deployment check returns [True] in
    every load state: the health lines show which artifacts are loaded, the
    features line reads "working" only when [feature_info] is loaded, and
    when an artifact is missing the prediction step prints the failed status
    500 while the verdict stays [True]. *)
Theorem deployment_check_passes_unloaded (str_exn : exn -> string)
    (sf : string -> option Q) (a : artifacts) (base_url : string) :
  let net := service str_exn sf a base_url in
  test_vercel_deployment net base_url =
    ([TestingDeployment base_url; Rule; TestingHealth; HealthPassed;
      ModelLoaded (JBool (bool_decide (is_Some (model a))));
      ScalerLoaded (JBool (bool_decide (is_Some (scaler a))));
      FeaturesLoaded (JBool (bool_decide (is_Some (feature_info a))));
      TestingFeatures;
      if bool_decide (is_Some (feature_info a)) then FeaturesWorking
      else FeaturesFailed 500]
     ++ check_prediction net base_url ++ [VerificationCompleted], true) /\
  (model a = None \/ scaler a = None \/ feature_info a = None ->
   check_prediction net base_url =
     [TestingPrediction; PredictionFailed 500; ResponseText]).
Proof.
  cbv zeta. split.
  - unfold test_vercel_deployment, check_health, check_features, service.
    cbn [http_get http_post].
    rewrite !String.eqb_refl, append_eqb_suffix.
    cbn [String.eqb Ascii.eqb Bool.eqb].
    cbn [deliver health_check jsonify code body status_code json_body].
    change (200 =? 200)%Z with true.
    destruct (health_json_flags
                {| health_status := "healthy";
                   model_loaded := bool_decide (is_Some (model a));
                   scaler_loaded := bool_decide (is_Some (scaler a));
                   features_loaded := bool_decide (is_Some (feature_info a)) |}
                (JBool false)) as (-> & -> & ->).
    cbn [model_loaded scaler_loaded features_loaded].
    unfold get_features, deliver_features.
    destruct (feature_info a); reflexivity.
  - intros H. unfold check_prediction, service. cbn [http_post].
    rewrite String.eqb_refl.
    destruct (guard_unloaded sf a (Ok (JObj test_data)) H) as [-> _].
    reflexivity.
Qed.

(** ** Loading and the information endpoints *)

Ltac each_disk d :=
  destruct (model_pkl d) as [| |?m], (scaler_pkl d) as [| |?s],
           (feature_info_pkl d) as [| |?fi].

Set Warnings "-clear-no-such-hyp".

(** X6.  Either loader assigns the globals in the order model, scaler,
    feature_info and stops at the first failure: a loaded [feature_info]
    implies a loaded scaler, which implies a loaded model. It returns [True]
    exactly when all three files unpickle, which is exactly when [/features]
    answers 200 and exactly when no artifact is [None], so that the guard of
    [/predict] lets requests through. *)
Theorem load_ml_model_prefix (d : disk) (load : disk -> artifacts * bool) :
  load = Webapp.load_ml_model \/ load = Api.load_ml_model ->
  let a := fst (load d) in
  (is_Some (feature_info a) -> is_Some (scaler a)) /\
  (is_Some (scaler a) -> is_Some (model a)) /\
  (snd (load d) = true <->
   exists m s fi, model_pkl d = Pickled m /\ scaler_pkl d = Pickled s /\
                  feature_info_pkl d = Pickled fi) /\
  (snd (load d) = true <-> fst (get_features a) = 200%Z) /\
  (snd (load d) = true <->
   exists m s fi, model a = Some m /\ scaler a = Some s /\
                  feature_info a = Some fi).
Proof.
  intros [-> | ->]; cbv zeta;
    unfold Webapp.load_ml_model, Api.load_ml_model, load_in_order,
           get_features, is_Some;
    each_disk d; cbn; naive_solver.
Qed.

(** X7.  The two loaders agree whenever all three files exist, readable or
    not. When a file is missing [api/index.py] loads nothing at all, whereas
    [webapp/app.py] still loads what precedes the first file that fails:
    with the model file in place it reports [model_loaded] on [/health]
    whatever the other two files are. *)
Theorem loaders_compared (d : disk) :
  (exists_file (model_pkl d) = true -> exists_file (scaler_pkl d) = true ->
   exists_file (feature_info_pkl d) = true ->
   Api.load_ml_model d = Webapp.load_ml_model d) /\
  (exists_file (model_pkl d) = false \/ exists_file (scaler_pkl d) = false
   \/ exists_file (feature_info_pkl d) = false ->
   Api.load_ml_model d = (unloaded, false)) /\
  (forall m, model_pkl d = Pickled m ->
     model (fst (Webapp.load_ml_model d)) = Some m /\
     exists h, health_check (fst (Webapp.load_ml_model d))
                 = jsonify 200 (HealthBody h) /\
               model_loaded h = true) /\
  (forall m s, model_pkl d = Pickled m -> scaler_pkl d = Pickled s ->
     scaler (fst (Webapp.load_ml_model d)) = Some s).
Proof.
  unfold Webapp.load_ml_model, Api.load_ml_model, load_in_order.
  split; [|split; [|split]].
  - each_disk d; cbn; intros; try discriminate; reflexivity.
  - each_disk d; cbn; intros [H|[H|H]]; try discriminate; reflexivity.
  - intros m Hm. rewrite Hm.
    destruct (scaler_pkl d), (feature_info_pkl d); cbn;
      (split; [reflexivity|eexists; split; reflexivity]).
  - intros m s Hm Hs. rewrite Hm, Hs.
    destruct (feature_info_pkl d); reflexivity.
Qed.


(** ** Validation, once more *)

(** The loop never touches the handler state, and when it returns, it
    returns the 400 naming a name of the list. *)
Lemma extract_outcome sf wl data ns : forall acc st o st',
  extract_features sf wl data ns acc st = (o, st') ->
  st' = st /\
  match o with
  | Return r =>
      exists n, In n ns /\
        r = jsonify 400
              (ErrorBody (missing_feature n)
                 (if wl then Some (default [] (fr_log st)) else None))
  | _ => True
  end.
Proof.
  induction ns as [|n ns IH]; intros acc st o st' H.
  - injection H as <- <-. auto.
  - cbn [extract_features] in H. unfold bind, lift in H.
    destruct (py_contains n data) as [[|]|e].
    + destruct (py_getitem data n) as [v|e].
      * destruct (py_float sf v) as [x|e].
        -- apply IH in H as [-> Ho]. split; [reflexivity|].
           destruct o; auto. destruct Ho as (k & Hk & ->).
           exists k. split; [now right|reflexivity].
        -- injection H as <- <-. auto.
      * injection H as <- <-. auto.
    + cbn in H. injection H as <- <-. split; [reflexivity|].
      exists n. split; [now left|reflexivity].
    + injection H as <- <-. auto.
Qed.

(** For an object body exactly one of three things happens to the feature
    list: every name is read; or the names in front of some absent name are
    read; or the names in front of some unreadable entry are read. *)
Lemma extraction_cases sf (data : gmap string json) (ns : list string) :
  (exists feats, Forall2 (coerces sf data) ns feats) \/
  (exists pre xs n post,
     ns = pre ++ n :: post /\ Forall2 (coerces sf data) pre xs /\
     data !! n = None) \/
  (exists pre xs n post v e,
     ns = pre ++ n :: post /\ Forall2 (coerces sf data) pre xs /\
     data !! n = Some v /\ py_float sf v = Err e).
Proof.
  induction ns as [|n ns IH].
  - left. exists []. constructor.
  - destruct (data !! n) as [v|] eqn:Hv.
    2: { right. left. exists [], [], n, ns. repeat split; [constructor|auto]. }
    destruct (py_float sf v) as [x|e] eqn:Hx.
    2: { right. right. exists [], [], n, ns, v, e.
         repeat split; [constructor|auto|auto]. }
    assert (Hn : coerces sf data n x) by (exists v; auto).
    destruct IH as [[feats Hf]|[(pre & xs & k & post & -> & Hpre & Hk)
                               |(pre & xs & k & post & w & e & -> & Hpre
                                 & Hk & He)]].
    + left. exists (x :: feats). now constructor.
    + right. left. exists (n :: pre), (x :: xs), k, post.
      repeat split; [now constructor|exact Hk].
    + right. right. exists (n :: pre), (x :: xs), k, post, w, e.
      repeat split; [now constructor|exact Hk|exact He].
Qed.


Ltac after_extraction :=
  unfold invoke, lift, read_log, ret; cbn [fr_log fr_calls];
  repeat match goal with
         | |- context [match ?x with Ok _ => _ | Err _ => _ end] =>
             destruct x; cbn [fst snd code body jsonify]
         end.

Section Validation.

Variable sf : string -> option Q.
Variables (a : artifacts) (m : classifier) (s : scaler_t) (fi : feature_info_t).
Hypothesis Hmodel : model a = Some m.
Hypothesis Hscaler : scaler a = Some s.
Hypothesis Hinfo : feature_info a = Some fi.
Variable data : gmap string json.

Lemma read_through_not_400 feats :
  Forall2 (coerces sf data) (names fi) feats ->
  code (fst (predict sf a (Ok (JObj data)))) <> 400%Z /\
  code (fst (detailed_analysis sf a (Ok (JObj data)))) <> 400%Z.
Proof.
  intros Hf. split.
  - unfold predict. rewrite Hmodel, Hscaler, Hinfo.
    unfold predict_body, bind.
    cbn [lift new_log append_log empty_frame fr_log fr_calls].
    rewrite (extract_complete _ _ _ _ _ _ Hf).
    after_extraction; discriminate.
  - unfold detailed_analysis. rewrite Hmodel, Hscaler, Hinfo.
    unfold analysis_body, bind. cbn [lift].
    rewrite (extract_complete _ _ _ _ _ _ Hf).
    after_extraction; discriminate.
Qed.

Lemma unreadable_is_500 pre xs n post v e :
  names fi = pre ++ n :: post -> Forall2 (coerces sf data) pre xs ->
  data !! n = Some v -> py_float sf v = Err e ->
  predict sf a (Ok (JObj data)) =
    (jsonify 500 (ErrorBody (Formatted "Prediction failed: " e)
                            (Some [validation_started])), []) /\
  detailed_analysis sf a (Ok (JObj data)) =
    (jsonify 500 (ErrorBody (Formatted "Analysis failed: " e) None), []).
Proof.
  intros Hn Hpre Hv He. split.
  - rewrite (predict_extraction_outcome sf a m s fi Hmodel Hscaler Hinfo).
    rewrite Hn, (extract_prefix _ _ _ _ _ Hpre).
    now rewrite (extract_uncoercible _ _ _ _ _ _ _ _ _ Hv He).
  - rewrite (analysis_extraction_outcome sf a m s fi Hmodel Hscaler Hinfo).
    rewrite Hn, (extract_prefix _ _ _ _ _ Hpre).
    now rewrite (extract_uncoercible _ _ _ _ _ _ _ _ _ Hv He).
Qed.

(** X9.  With the artifacts loaded and an object as body, [/predict] answers
    400 exactly when some name of the feature list is absent and every
    listed name before the earliest absent one has an entry that [float]
    accepts; [/detailed-analysis] answers 400 under the same condition, so
    the two handlers reject the same bodies. An entry that [float] refuses
    in front of the earliest absent name, or anywhere when no name is
    absent, turns the answer into a 500 with no library call. *)
Theorem rejected_exactly_when_absent :
  let absent := exists pre xs n post,
      names fi = pre ++ n :: post /\ Forall2 (coerces sf data) pre xs /\
      data !! n = None in
  (code (fst (predict sf a (Ok (JObj data)))) = 400%Z <-> absent) /\
  (code (fst (detailed_analysis sf a (Ok (JObj data)))) = 400%Z <-> absent) /\
  (forall pre xs n post v e,
     names fi = pre ++ n :: post -> Forall2 (coerces sf data) pre xs ->
     data !! n = Some v -> py_float sf v = Err e ->
     predict sf a (Ok (JObj data)) =
       (jsonify 500 (ErrorBody (Formatted "Prediction failed: " e)
                               (Some [validation_started])), []) /\
     detailed_analysis sf a (Ok (JObj data)) =
       (jsonify 500 (ErrorBody (Formatted "Analysis failed: " e) None), [])).
Proof.
  cbv zeta.
  assert (Hback : (exists pre xs n post,
             names fi = pre ++ n :: post /\
             Forall2 (coerces sf data) pre xs /\ data !! n = None) ->
           code (fst (predict sf a (Ok (JObj data)))) = 400%Z /\
           code (fst (detailed_analysis sf a (Ok (JObj data)))) = 400%Z).
  { intros (pre & xs & n & post & Hn & Hpre & Habs).
    destruct (first_absent_rejected sf a m s fi Hmodel Hscaler Hinfo data
                pre post xs n Hn Hpre Habs) as [-> ->].
    split; reflexivity. }
  assert (Hforth :
           code (fst (predict sf a (Ok (JObj data)))) = 400%Z \/
           code (fst (detailed_analysis sf a (Ok (JObj data)))) = 400%Z ->
           exists pre xs n post,
             names fi = pre ++ n :: post /\
             Forall2 (coerces sf data) pre xs /\ data !! n = None).
  { intros H.
    destruct (extraction_cases sf data (names fi))
      as [[feats Hf]|[Habs|(pre & xs & n & post & v & e & Hn & Hpre & Hv
                            & He)]].
    - destruct (read_through_not_400 feats Hf) as [N1 N2].
      destruct H; contradiction.
    - exact Habs.
    - destruct (unreadable_is_500 pre xs n post v e Hn Hpre Hv He)
        as [E1 E2].
      rewrite E1, E2 in H. destruct H; discriminate. }
  split; [|split].
  - split; [intros H; apply Hforth; now left|intros H; now apply Hback].
  - split; [intros H; apply Hforth; now right|intros H; now apply Hback].
  - apply unreadable_is_500.
Qed.

End Validation.

(** ** The order of events in a request *)

Ltac log_prefix := eexists; reflexivity.

Ltac trace_with f s :=
  cbn [fst snd code body jsonify default fr_log fr_calls app result_log];
  unfold full_log;
  repeat match goal with |- _ /\ _ => split end;
  first [ reflexivity
        | discriminate
        | left; reflexivity
        | right; left; reflexivity
        | right; right; reflexivity
        | exists f, s; first [reflexivity | log_prefix]
        | log_prefix
        | let H := fresh in
          intros H;
          first [ discriminate
                | now destruct H
                | split; reflexivity
                | log_prefix ] ].

(** X10.  Whatever the request and the load state, [/predict] answers 200,
    400 or 500; the library calls it has made are an initial part of: scaler
    transform, then [predict_proba], then [predict], the last two on the
    scaler's output; the status log it sends is an initial part of the full
    eight-entry log; a 400 carries the one-entry log and follows no library
    call; and no library call is made before the entry "Input validation
    completed" is logged. Only a 200 carries the full log. *)
Theorem predict_trace sf (a : artifacts) (req : result json) :
  let resp := fst (predict sf a req) in
  let calls := snd (predict sf a req) in
  (code resp = 200%Z \/ code resp = 400%Z \/ code resp = 500%Z) /\
  (exists feats scaled, calls `prefix_of` library_calls feats scaled) /\
  match body resp with
  | PredictionBody r =>
      code resp = 200%Z /\ result_log r = full_log /\
      exists feats scaled, calls = library_calls feats scaled
  | ErrorBody _ (Some log) =>
      code resp <> 200%Z /\
      log `prefix_of` full_log /\ log <> full_log /\
      (code resp = 400%Z -> log = [validation_started] /\ calls = []) /\
      (calls <> [] -> take 2 full_log `prefix_of` log)
  | ErrorBody _ None => code resp = 500%Z /\ calls = []
  | _ => False
  end.
Proof.
  cbv zeta. unfold predict.
  destruct (model a) as [m|]; [|trace_with (@nil Q) (@nil Q)].
  destruct (scaler a) as [s|]; [|trace_with (@nil Q) (@nil Q)].
  destruct (feature_info a) as [fi|]; [|trace_with (@nil Q) (@nil Q)].
  unfold predict_body, bind.
  destruct req as [j|e];
    cbn [lift new_log append_log empty_frame fr_log fr_calls];
    [|trace_with (@nil Q) (@nil Q)].
  destruct (extract_features sf true j (names fi) [] _)
    as [[xs|e|r'] st] eqn:Hext;
    apply extract_outcome in Hext as [-> Hret].
  - unfold invoke, lift, read_log, ret. cbn [fr_log fr_calls].
    destruct (transform s xs) as [scaled|e]; [|trace_with xs (@nil Q)].
    destruct (predict_proba m scaled) as [probs|e]; [|trace_with xs scaled].
    destruct (predict_label m scaled) as [label|e]; [|trace_with xs scaled].
    destruct (py_max probs) as [top|e]; [|trace_with xs scaled].
    destruct (py_index probs 0) as [p0|e]; [|trace_with xs scaled].
    destruct (py_index probs 1) as [p1|e]; [|trace_with xs scaled].
    destruct (key_risk_factors j) as [rf|e]; [|trace_with xs scaled].
    trace_with xs scaled.
  - trace_with (@nil Q) (@nil Q).
  - destruct Hret as (n & _ & ->). trace_with (@nil Q) (@nil Q).
Qed.

(** ** Failures of the scaler and of the classifier *)

(** [max] returns an entry that no entry exceeds. *)
Lemma fold_max_spec (x : Q) (l : list Q) :
  In (fold_left Qmax l x) (x :: l) /\
  Forall (fun p => (p <= fold_left Qmax l x)%Q) (x :: l).
Proof.
  revert x. induction l as [|y l IH]; intros x; cbn [fold_left].
  - split; [now left|]. constructor; [lra|constructor].
  - destruct (IH (Qmax x y)) as [Hin Hall].
    apply Forall_cons_1 in Hall as [Hm Hall].
    destruct (Qmax_bounds x y) as [Bx By].
    split.
    + destruct Hin as [Hin|Hin]; [|now right; right].
      rewrite <- Hin.
      destruct (Qmax_cases x y) as [[-> _]|[-> _]];
        [now left|right; now left].
    + constructor; [lra|]. constructor; [lra|exact Hall].
Qed.

Section Inference.

Variable sf : string -> option Q.
Variables (a : artifacts) (m : classifier) (s : scaler_t) (fi : feature_info_t).
Hypothesis Hmodel : model a = Some m.
Hypothesis Hscaler : scaler a = Some s.
Hypothesis Hinfo : feature_info a = Some fi.
Variable data : gmap string json.
Variable feats : list Q.
Hypothesis Hfeats : Forall2 (coerces sf data) (names fi) feats.

Ltac enter_handlers :=
  unfold predict, detailed_analysis; rewrite Hmodel, Hscaler, Hinfo;
  unfold predict_body, analysis_body, bind;
  cbn [lift new_log append_log empty_frame fr_log fr_calls];
  rewrite !(extract_complete _ _ _ _ _ _ Hfeats);
  unfold invoke, lift, read_log, ret; cbn [fr_log fr_calls].

(** X11.  Once the features are read, an exception of the scaler or of the
    classifier becomes a 500 that carries it. If the scaler raises, the
    classifier is never called; if [predict_proba] raises, [predict] is
    never called. [/predict] sends the log up to the stage that failed:
    three entries for the scaler, five for the classifier. *)
Theorem inference_failure_reported :
  (forall e, transform s feats = Err e ->
     predict sf a (Ok (JObj data)) =
       (jsonify 500 (ErrorBody (Formatted "Prediction failed: " e)
                               (Some (take 3 full_log))),
        [CallTransform feats]) /\
     detailed_analysis sf a (Ok (JObj data)) =
       (jsonify 500 (ErrorBody (Formatted "Analysis failed: " e) None),
        [CallTransform feats])) /\
  (forall scaled e, transform s feats = Ok scaled ->
     predict_proba m scaled = Err e ->
     predict sf a (Ok (JObj data)) =
       (jsonify 500 (ErrorBody (Formatted "Prediction failed: " e)
                               (Some (take 5 full_log))),
        [CallTransform feats; CallPredictProba scaled]) /\
     detailed_analysis sf a (Ok (JObj data)) =
       (jsonify 500 (ErrorBody (Formatted "Analysis failed: " e) None),
        [CallTransform feats; CallPredictProba scaled])) /\
  (forall scaled probs e, transform s feats = Ok scaled ->
     predict_proba m scaled = Ok probs ->
     predict_label m scaled = Err e ->
     predict sf a (Ok (JObj data)) =
       (jsonify 500 (ErrorBody (Formatted "Prediction failed: " e)
                               (Some (take 5 full_log))),
        library_calls feats scaled) /\
     detailed_analysis sf a (Ok (JObj data)) =
       (jsonify 500 (ErrorBody (Formatted "Analysis failed: " e) None),
        library_calls feats scaled)).
Proof.
  split; [|split].
  - intros e He. enter_handlers. rewrite He. split; reflexivity.
  - intros scaled e Hs He. enter_handlers. rewrite Hs, He.
    split; reflexivity.
  - intros scaled probs e Hs Hp He. enter_handlers. rewrite Hs, Hp, He.
    split; reflexivity.
Qed.

(** X12.  A classifier that returns fewer than two probabilities makes both
    handlers answer 500 after all three library calls: [ValueError] from
    [max] on an empty vector, [IndexError] from [prediction_prob[1]] on a
    one-entry vector. With two or more entries and numeric raw entries
    [/predict] answers 200: the percentages come from the first two entries
    and the confidence from the largest entry of the whole vector. *)
Theorem probability_vector_length (scaled probs : list Q) (label : Z) :
  transform s feats = Ok scaled ->
  predict_proba m scaled = Ok probs ->
  predict_label m scaled = Ok label ->
  (probs = [] ->
   predict sf a (Ok (JObj data)) =
     (jsonify 500 (ErrorBody (Formatted "Prediction failed: " ValueError)
                             (Some (take 7 full_log))),
      library_calls feats scaled) /\
   detailed_analysis sf a (Ok (JObj data)) =
     (jsonify 500 (ErrorBody (Formatted "Analysis failed: " ValueError) None),
      library_calls feats scaled)) /\
  (forall p, probs = [p] ->
   predict sf a (Ok (JObj data)) =
     (jsonify 500 (ErrorBody (Formatted "Prediction failed: " IndexError)
                             (Some (take 7 full_log))),
      library_calls feats scaled) /\
   detailed_analysis sf a (Ok (JObj data)) =
     (jsonify 500 (ErrorBody (Formatted "Analysis failed: " IndexError) None),
      library_calls feats scaled)) /\
  (forall p0 p1 more, probs = p0 :: p1 :: more ->
   Forall (comparable data) compared_keys ->
   exists r top,
     predict sf a (Ok (JObj data)) =
       (jsonify 200 (PredictionBody r), library_calls feats scaled) /\
     non_toxic r = py_round (p0 * 100) 2 /\
     toxic r = py_round (p1 * 100) 2 /\
     confidence r = py_round (top * 100) 2 /\
     In top probs /\ Forall (fun p => (p <= top)%Q) probs).
Proof.
  intros Hs Hp Hl. split; [|split].
  - intros ->. enter_handlers. rewrite Hs, Hp, Hl. split; reflexivity.
  - intros p ->. enter_handlers. rewrite Hs, Hp, Hl. split; reflexivity.
  - intros p0 p1 more -> Hcmp.
    destruct (key_risk_factors_total data Hcmp) as [rf Hrf].
    do 2 eexists. split.
    { eapply predict_served with (probs := p0 :: p1 :: more); eauto;
        reflexivity. }
    cbn [non_toxic toxic confidence].
    split; [reflexivity|]. split; [reflexivity|]. split; [reflexivity|].
    apply fold_max_spec.
Qed.

End Inference.

(** ** Confidence and percentages *)

Lemma round_half_even_between (x : Q) :
  round_half_even x = Qfloor x \/ round_half_even x = (Qfloor x + 1)%Z.
Proof.
  unfold round_half_even.
  repeat destruct (Qlt_bool _ _); try destruct (Z.even _); auto.
Qed.

Lemma round_half_even_mono (x y : Q) :
  (x <= y)%Q -> (round_half_even x <= round_half_even y)%Z.
Proof.
  intros H.
  assert (Hf : (Qfloor x <= Qfloor y)%Z) by now apply Qfloor_resp_le.
  destruct (Z.eq_dec (Qfloor x) (Qfloor y)) as [E|N].
  - unfold round_half_even. rewrite E.
    destruct (Qlt_bool (x - inject_Z (Qfloor y)) (1 # 2)) eqn:A1;
      destruct (Qlt_bool (1 # 2) (x - inject_Z (Qfloor y))) eqn:A2;
      destruct (Qlt_bool (y - inject_Z (Qfloor y)) (1 # 2)) eqn:B1;
      destruct (Qlt_bool (1 # 2) (y - inject_Z (Qfloor y))) eqn:B2;
      try apply Qlt_bool_true in A1; try apply Qlt_bool_false in A1;
      try apply Qlt_bool_true in A2; try apply Qlt_bool_false in A2;
      try apply Qlt_bool_true in B1; try apply Qlt_bool_false in B1;
      try apply Qlt_bool_true in B2; try apply Qlt_bool_false in B2;
      try (exfalso; lra); destruct (Z.even (Qfloor y)); lia.
  - destruct (round_half_even_between x) as [-> | ->];
      destruct (round_half_even_between y) as [-> | ->]; lia.
Qed.

Lemma py_round_mono (x y : Q) (n : nat) :
  (x <= y)%Q -> (py_round x n <= py_round y n)%Q.
Proof.
  intros H. unfold py_round.
  assert (Hz : (0 < 10 ^ Z.of_nat n)%Z) by (apply Z.pow_pos_nonneg; lia).
  assert (Hs : (0 < inject_Z (10 ^ Z.of_nat n))%Q).
  { change 0%Q with (inject_Z 0). now rewrite <- Zlt_Qlt. }
  set (sc := inject_Z (10 ^ Z.of_nat n)) in *.
  assert (Hr : (round_half_even (x * sc) <= round_half_even (y * sc))%Z).
  { apply round_half_even_mono. apply Qmult_le_compat_r; lra. }
  rewrite Zle_Qle in Hr.
  apply Qle_shift_div_l; [exact Hs|].
  assert (E : (inject_Z (round_half_even (x * sc)) / sc * sc
               == inject_Z (round_half_even (x * sc)))%Q) by (field; lra).
  rewrite E. exact Hr.
Qed.

(** X13.  For a valid input and a two-class classifier, the confidence of
    the [/predict] answer is the larger of the two reported percentages: it
    is one of them and no smaller than either. When the two probabilities
    sum to 1 it is at least 50, and at most 100 when they are not negative. *)
Theorem confidence_is_larger_percentage sf (a : artifacts) (m : classifier)
    (s : scaler_t) (fi : feature_info_t) (data : gmap string json)
    (feats scaled : list Q) (p0 p1 : Q) (label : Z) :
  model a = Some m -> scaler a = Some s -> feature_info a = Some fi ->
  Forall2 (coerces sf data) (names fi) feats ->
  Forall (comparable data) compared_keys ->
  transform s feats = Ok scaled ->
  predict_proba m scaled = Ok [p0; p1] ->
  predict_label m scaled = Ok label ->
  exists r,
    predict sf a (Ok (JObj data)) =
      (jsonify 200 (PredictionBody r), library_calls feats scaled) /\
    (confidence r = non_toxic r \/ confidence r = toxic r) /\
    (non_toxic r <= confidence r)%Q /\ (toxic r <= confidence r)%Q /\
    ((p0 + p1 == 1)%Q -> (50 <= confidence r)%Q) /\
    ((p0 + p1 == 1)%Q -> (0 <= p0)%Q -> (0 <= p1)%Q ->
     (confidence r <= 100)%Q).
Proof.
  intros Hm Hs Hfi Hfeats Hcmp Hsc Hpr Hlab.
  destruct (valid_predict sf a m s fi Hm Hs Hfi data feats scaled p0 p1 label
              Hfeats Hcmp Hsc Hpr Hlab) as (rf & _ & Hresp).
  eexists. split; [exact Hresp|].
  cbn [confidence non_toxic toxic].
  destruct (Qmax_bounds p0 p1) as [B0 B1].
  split; [|split; [|split; [|split]]].
  - destruct (Qmax_cases p0 p1) as [[-> _]|[-> _]]; auto.
  - apply py_round_mono. lra.
  - apply py_round_mono. lra.
  - intros Hsum.
    assert (Hhalf : (50 <= Qmax p0 p1 * 100)%Q) by lra.
    rewrite py_round2_unfold.
    assert (Hz : (5000 <= round_half_even (Qmax p0 p1 * 100 * 100))%Z).
    { apply round_half_even_mono_lo. change (inject_Z 5000) with 5000%Q.
      lra. }
    rewrite Zle_Qle in Hz. change (inject_Z 5000) with 5000%Q in Hz.
    apply Qle_shift_div_l; lra.
  - intros Hsum H0 H1.
    assert (Hlo : (0 <= Qmax p0 p1 * 100)%Q) by lra.
    assert (Hhi : (Qmax p0 p1 * 100 <= 100)%Q).
    { destruct (Qmax_cases p0 p1) as [[-> _]|[-> _]]; lra. }
    now destruct (py_round2_percent _ Hlo Hhi).
Qed.

(** ** The shape of a 200 answer *)

Lemma predict_answer_shape sf a req r calls :
  predict sf a req = (jsonify 200 (PredictionBody r), calls) ->
  exists m s fi data feats scaled probs top p0 p1,
    model a = Some m /\ scaler a = Some s /\ feature_info a = Some fi /\
    req = Ok (JObj data) /\
    Forall2 (coerces sf data) (names fi) feats /\
    transform s feats = Ok scaled /\
    predict_proba m scaled = Ok probs /\
    predict_label m scaled = Ok (prediction r) /\
    py_max probs = Ok top /\
    py_index probs 0 = Ok p0 /\ py_index probs 1 = Ok p1 /\
    key_risk_factors (JObj data) = Ok (risk_factors r) /\
    calls = library_calls feats scaled /\
    r = {| prediction := prediction r;
           prediction_text := class_text (prediction r);
           confidence := py_round (top * 100) 2;
           non_toxic := py_round (p0 * 100) 2;
           toxic := py_round (p1 * 100) 2;
           risk_level := predict_risk_level (p1 * 100);
           risk_factors := risk_factors r;
           feature_importance :=
             top_importance (names fi) (feature_importances_ m);
           result_log := full_log |}.
Proof.
  intros H.
  destruct (predict_inv _ _ _ _ _ H)
    as (m & s & fi & data & feats & scaled & probs & top & p0 & p1 & Hm & Hs
        & Hfi & -> & Hfeats & Htr & Hpr & Hlab & Htop & Hp0 & Hp1 & Hrf & _
        & _ & _ & Hcalls).
  pose proof (predict_served sf a m s fi Hm Hs Hfi data feats scaled probs
                (prediction r) Hfeats Htr Hpr Hlab top p0 p1 (risk_factors r)
                Htop Hp0 Hp1 Hrf) as E.
  rewrite H in E. injection E as Er _.
  exists m, s, fi, data, feats, scaled, probs, top, p0, p1.
  repeat split; assumption.
Qed.

Lemma analysis_answer_shape sf a req an calls :
  detailed_analysis sf a req = (jsonify 200 (AnalysisBody an), calls) ->
  exists m s fi data feats scaled probs top p0 p1 label rs,
    model a = Some m /\ scaler a = Some s /\ feature_info a = Some fi /\
    req = Ok (JObj data) /\
    Forall2 (coerces sf data) (names fi) feats /\
    transform s feats = Ok scaled /\
    predict_proba m scaled = Ok probs /\
    predict_label m scaled = Ok label /\
    py_max probs = Ok top /\
    py_index probs 0 = Ok p0 /\ py_index probs 1 = Ok p1 /\
    analyse_features fi m scaled 0 (combine (names fi) feats) ∅
      = Ok (feature_analysis an) /\
    recommendations_of (JObj data) = Ok rs /\
    calls = library_calls feats scaled /\
    an_class an = label /\ an_text an = class_text label /\
    an_confidence an = py_round (top * 100) 2 /\
    an_non_toxic an = py_round (p0 * 100) 2 /\
    an_toxic an = py_round (p1 * 100) 2 /\
    overall_risk an = analysis_overall_risk p1 /\
    safety_recommendations an = rs /\
    risk_distribution an =
      [("Low Risk Features", count_tier Low (feature_analysis an));
       ("Medium Risk Features", count_tier Medium (feature_analysis an));
       ("High Risk Features", count_tier High (feature_analysis an))].
Proof.
  unfold detailed_analysis.
  destruct (model a) as [m|]; [|discriminate].
  destruct (scaler a) as [s|]; [|discriminate].
  destruct (feature_info a) as [fi|]; [|discriminate].
  destruct req as [j|e]; [|discriminate].
  unfold analysis_body, bind. cbn [lift].
  destruct (extract_features sf false j (names fi) [] _)
    as [[xs|e|r'] st] eqn:Hext.
  2: discriminate.
  2: { intros [= Hr _]. apply extract_return in Hext. rewrite Hr in Hext.
       discriminate. }
  unfold invoke, lift, ret. cbn [fr_log fr_calls].
  destruct (transform s xs) as [scaled|e] eqn:Hsc; [|discriminate].
  destruct (predict_proba m scaled) as [probs|e] eqn:Hpr; [|discriminate].
  destruct (predict_label m scaled) as [label|e] eqn:Hlab; [|discriminate].
  destruct (py_max probs) as [top|e] eqn:Htop; [|discriminate].
  destruct (py_index probs 0) as [p0|e] eqn:Hp0; [|discriminate].
  destruct (py_index probs 1) as [p1|e] eqn:Hp1; [|discriminate].
  destruct (analyse_features fi m scaled 0 (combine (names fi) xs) ∅)
    as [fa|e] eqn:Hfa; [|discriminate].
  destruct (recommendations_of j) as [rs|e] eqn:Hrs; [|discriminate].
  destruct (recommendations_object _ _ Hrs) as [data ->].
  apply extract_next in Hext as (-> & feats & -> & Hfeats).
  intros [= <- <-]. cbn.
  exists m, s, fi, data, feats, scaled, probs, top, p0, p1, label, rs.
  repeat split; assumption.
Qed.


(** ** Recommendations and risk factors *)

Ltac strings_apart :=
  repeat match goal with
         | H : _ /\ _ |- _ => destruct H
         | H : _ \/ _ |- _ => destruct H
         | H : @eq string _ _ |- _ => discriminate H
         | H : @eq bool _ _ |- _ => rewrite H in *; clear H
         end.

Lemma in_three (x m1 m2 m3 : string) (b1 b2 b3 : bool) :
  In x (when b1 m1 ++ when b2 m2 ++ when b3 m3) <->
  (b1 = true /\ x = m1) \/ (b2 = true /\ x = m2) \/ (b3 = true /\ x = m3).
Proof. now rewrite !in_app_iff, !in_when. Qed.

Lemma in_fired (x : string) (size area conc metal aspect : bool) :
  In x (fired size area conc metal aspect) <->
  (size = true /\ x = small_particle_msg) \/
  (area = true /\ x = high_surface_msg) \/
  (conc = true /\ x = high_concentration_msg) \/
  (metal = true /\ x = metal_msg) \/
  (aspect = true /\ x = high_aspect_msg).
Proof. unfold fired. now rewrite !in_app_iff, !in_when. Qed.

Lemma recommendations_vs_factors (d : gmap string json)
    (rf rs : list string) :
  key_risk_factors (JObj d) = Ok rf ->
  recommendations_of (JObj d) = Ok rs ->
  (In "Consider larger particle sizes to reduce bioavailability" rs <->
   In small_particle_msg rf) /\
  (In "Reduce concentration to minimize exposure risk" rs ->
   In high_concentration_msg rf) /\
  (In "Monitor surface reactivity due to high surface area" rs ->
   In high_surface_msg rf).
Proof.
  intros Hrf Hrs.
  destruct (key_risk_factors_inv _ _ Hrf)
    as (size & area & conc & aspect & H1 & H2 & H3 & H4 & ->).
  rewrite recommendations_spec, H1, H2, H3 in Hrs. injection Hrs as <-.
  split; [|split]; rewrite in_three, in_fired;
    unfold small_particle_msg, high_surface_msg, high_concentration_msg,
      metal_msg, high_aspect_msg.
  - split; intros H; strings_apart; tauto.
  - intros H. strings_apart.
    match goal with H : Qlt_bool 500 conc = true |- _ =>
      apply Qlt_bool_true in H end.
    assert (E : Qlt_bool 100 conc = true) by (apply Qlt_bool_true; lra).
    rewrite E. tauto.
  - intros H. strings_apart.
    match goal with H : Qlt_bool 200 area = true |- _ =>
      apply Qlt_bool_true in H end.
    assert (E : Qlt_bool 100 area = true) by (apply Qlt_bool_true; lra).
    rewrite E. tauto.
Qed.

(** X15.  Every recommendation of [/detailed-analysis] is backed by a risk
    factor of [/predict] on the same request: the particle-size
    recommendation is given exactly when the small-particle factor is
    reported, and the concentration and surface-area recommendations
    (thresholds 500 and 200) are only given when the corresponding factors
    (threshold 100) are reported. Whenever the five checks of [/predict] run
    through, so do the three of [/detailed-analysis]. *)
Theorem recommendations_backed sf (a : artifacts) (req : result json)
    (r : prediction_result) (an : analysis_report) (c1 c2 : list call) :
  predict sf a req = (jsonify 200 (PredictionBody r), c1) ->
  detailed_analysis sf a req = (jsonify 200 (AnalysisBody an), c2) ->
  (In "Consider larger particle sizes to reduce bioavailability"
      (safety_recommendations an) <->
   In small_particle_msg (risk_factors r)) /\
  (In "Reduce concentration to minimize exposure risk"
      (safety_recommendations an) ->
   In high_concentration_msg (risk_factors r)) /\
  (In "Monitor surface reactivity due to high surface area"
      (safety_recommendations an) ->
   In high_surface_msg (risk_factors r)) /\
  (forall (d : gmap string json) rf,
     key_risk_factors (JObj d) = Ok rf ->
     exists rs, recommendations_of (JObj d) = Ok rs).
Proof.
  intros H1 H2.
  destruct (predict_answer_shape _ _ _ _ _ H1)
    as (m & s & fi & data & feats & scaled & probs & top & p0 & p1 & _ & _
        & _ & -> & _ & _ & _ & _ & _ & _ & _ & Hrf & _).
  destruct (analysis_answer_shape _ _ _ _ _ H2)
    as (m' & s' & fi' & data' & feats' & scaled' & probs' & top' & p0' & p1'
        & label' & rs & _ & _ & _ & Hreq & _ & _ & _ & _ & _ & _ & _ & _
        & Hrs & _ & _ & _ & _ & _ & _ & _ & Hsr & _).
  injection Hreq as <-. rewrite Hsr.
  destruct (recommendations_vs_factors _ _ _ Hrf Hrs) as (A & B & C).
  split; [exact A|]. split; [exact B|]. split; [exact C|].
  intros d rf Hd.
  destruct (key_risk_factors_inv _ _ Hd)
    as (size & area & conc & aspect & E1 & E2 & E3 & _).
  rewrite recommendations_spec, E1, E2, E3. eauto.
Qed.

(** ** What a request is read for *)

Lemma extract_features_agree sf wl (d d' : gmap string json) ns :
  (forall k, In k ns -> d !! k = d' !! k) ->
  forall acc st,
    extract_features sf wl (JObj d) ns acc st =
    extract_features sf wl (JObj d') ns acc st.
Proof.
  induction ns as [|n ns IH]; intros H acc st; [reflexivity|].
  cbn [extract_features]. unfold bind, lift, py_contains, py_getitem.
  rewrite (H n) by now left.
  destruct (bool_decide (is_Some (d' !! n))); [|reflexivity].
  destruct (d' !! n) as [v|]; [|reflexivity].
  destruct (py_float sf v); [|reflexivity].
  apply IH. intros k Hk. apply H. now right.
Qed.

(** X16.  The answers depend on the body only through the entries under the
    names of the feature list and under the keys of the threshold checks:
    two objects that agree there get the same answer and cause the same
    library calls, whatever else they hold. *)
Theorem answer_reads_named_entries sf (a : artifacts) (fi : feature_info_t)
    (d d' : gmap string json) :
  feature_info a = Some fi ->
  (forall k, In k (names fi) -> d !! k = d' !! k) ->
  ((forall k, In k ["particle_size_nm"; "surface_area_m2g";
                    "concentration_mgl"; "material_type"; "aspect_ratio"] ->
              d !! k = d' !! k) ->
   predict sf a (Ok (JObj d)) = predict sf a (Ok (JObj d'))) /\
  ((forall k, In k ["particle_size_nm"; "concentration_mgl";
                    "surface_area_m2g"] ->
              d !! k = d' !! k) ->
   detailed_analysis sf a (Ok (JObj d))
   = detailed_analysis sf a (Ok (JObj d'))).
Proof.
  intros Hfi Hnames. split; intros Hkeys.
  - assert (E : key_risk_factors (JObj d) = key_risk_factors (JObj d')).
    { rewrite !key_risk_factors_spec. unfold raw_number.
      rewrite !(Hkeys "particle_size_nm"), !(Hkeys "surface_area_m2g"),
        !(Hkeys "concentration_mgl"), !(Hkeys "material_type"),
        !(Hkeys "aspect_ratio") by (cbn; tauto).
      reflexivity. }
    unfold predict. rewrite Hfi.
    destruct (model a) as [m|]; [|reflexivity].
    destruct (scaler a) as [s|]; [|reflexivity].
    unfold predict_body, bind.
    cbn [lift new_log append_log empty_frame fr_log fr_calls].
    rewrite (extract_features_agree sf true d d' (names fi) Hnames).
    rewrite E. reflexivity.
  - assert (E : recommendations_of (JObj d) = recommendations_of (JObj d')).
    { rewrite !recommendations_spec. unfold raw_number.
      rewrite !(Hkeys "particle_size_nm"), !(Hkeys "surface_area_m2g"),
        !(Hkeys "concentration_mgl") by (cbn; tauto).
      reflexivity. }
    unfold detailed_analysis. rewrite Hfi.
    destruct (model a) as [m|]; [|reflexivity].
    destruct (scaler a) as [s|]; [|reflexivity].
    unfold analysis_body, bind. cbn [lift].
    rewrite (extract_features_agree sf false d d' (names fi) Hnames).
    rewrite E. reflexivity.
Qed.

Lemma Forall2_In_left {A B} (P : A -> B -> Prop) (l : list A)
    (k : list B) (a : A) :
  Forall2 P l k -> In a l -> exists b, In b k /\ P a b.
Proof.
  induction 1 as [|a' b' l' k' Hab _ IH]; [intros []|].
  intros [<-|Hin].
  - exists b'. split; [now left|exact Hab].
  - destruct (IH Hin) as (b & Hb & HP). exists b. split; [now right|exact HP].
Qed.

(** X17.  The metal factor is decided by the raw entry: it is reported
    exactly when the mapping holds a number equal to 1 (or [true]) under
    [material_type]. An absent entry or a string never reports it, not even
    the string that [float] turns into the 1.0 handed to the scaler. *)
Theorem metal_factor_reads_raw_entry sf (a : artifacts)
    (d : gmap string json) (r : prediction_result) (calls : list call) :
  predict sf a (Ok (JObj d)) = (jsonify 200 (PredictionBody r), calls) ->
  (In metal_msg (risk_factors r) <->
   exists v x, d !! "material_type" = Some v /\ as_number v = Some x /\
               (x == 1)%Q) /\
  (d !! "material_type" = None -> ~ In metal_msg (risk_factors r)) /\
  (forall t, d !! "material_type" = Some (JStr t) ->
     ~ In metal_msg (risk_factors r) /\
     forall fi, feature_info a = Some fi -> In "material_type" (names fi) ->
       exists x feats scaled,
         sf t = Some x /\ In x feats /\ calls = library_calls feats scaled).
Proof.
  intros H.
  destruct (predict_answer_shape _ _ _ _ _ H)
    as (m & s & fi & data & feats & scaled & probs & top & p0 & p1 & _ & _
        & Hfi & Hreq & Hfeats & _ & _ & _ & _ & _ & _ & Hrf & Hcalls & _).
  injection Hreq as <-.
  destruct (key_risk_factors_inv _ _ Hrf)
    as (size & area & conc & aspect & _ & _ & _ & _ & Er).
  assert (Hiff : In metal_msg (risk_factors r) <->
                 py_eq (default (JNum 0) (d !! "material_type")) 1 = true).
  { rewrite Er, in_fired.
    unfold small_particle_msg, high_surface_msg, high_concentration_msg,
      metal_msg, high_aspect_msg.
    split; intros Hin; strings_apart; tauto. }
  split; [|split].
  - rewrite Hiff. unfold py_eq.
    destruct (d !! "material_type") as [v|]; cbn.
    + destruct (as_number v) as [x|] eqn:Hx.
      * rewrite Qeq_bool_iff. split.
        -- intros Hq. exists v, x. auto.
        -- intros (v' & x' & [= <-] & Hx' & Hq). rewrite Hx in Hx'.
           injection Hx' as <-. exact Hq.
      * split; [discriminate|]. intros (v' & x' & [= <-] & Hx' & _).
        rewrite Hx in Hx'. discriminate.
    + cbn. split; [discriminate|]. intros (v' & x' & Hv & _). discriminate.
  - intros Hnone. rewrite Hiff, Hnone. cbn. discriminate.
  - intros t Ht. split.
    + rewrite Hiff, Ht. cbn. discriminate.
    + intros fi' Hfi' Hin. rewrite Hfi in Hfi'. injection Hfi' as <-.
      destruct (Forall2_In_left _ _ _ _ Hfeats Hin)
        as (x & Hx & v & Hv & Hfl).
      rewrite Ht in Hv. injection Hv as <-. cbn in Hfl.
      destruct (sf t) as [y|] eqn:Hy; [|discriminate].
      injection Hfl as <-. exists y, feats, scaled. auto.
Qed.

(** ** The risk distribution and the tiers behind the recommendations *)

Lemma tiers_partition (l : list (string * feature_entry)) :
  (length (List.filter
             (fun kv => risk_eqb (fe_risk_level (snd kv)) Low) l)
   + length (List.filter
               (fun kv => risk_eqb (fe_risk_level (snd kv)) Medium) l)
   + length (List.filter
               (fun kv => risk_eqb (fe_risk_level (snd kv)) High) l)
   = length l)%nat.
Proof.
  induction l as [|[k e] l IH]; [reflexivity|].
  cbn [List.filter snd]. destruct (fe_risk_level e); cbn; lia.
Qed.

Lemma analysed_domain (ns : list string) (pairs : list (string * Q))
    (fa : gmap string feature_entry) :
  map fst pairs = ns -> analysed pairs ∅ fa ->
  forall n, is_Some (fa !! n) <-> In n ns.
Proof.
  intros <- [Hin Hout] n. split.
  - intros [e He]. destruct (in_dec string_dec n (map fst pairs)) as [H|H];
      [exact H|].
    rewrite (Hout n H), lookup_empty in He. discriminate.
  - intros H. destruct (Hin n H) as (e & -> & _). eauto.
Qed.

(** X18.  The three counts of [risk_distribution] in a 200 answer add up to
    the number of entries of [feature_analysis], whose keys are exactly the
    names of the feature list; when no name is listed twice the counts add
    up to the length of the list. *)
Theorem risk_distribution_counts sf (a : artifacts) (req : result json)
    (an : analysis_report) (calls : list call) :
  detailed_analysis sf a req = (jsonify 200 (AnalysisBody an), calls) ->
  exists fi lo me hi,
    feature_info a = Some fi /\
    risk_distribution an = [("Low Risk Features", lo);
                            ("Medium Risk Features", me);
                            ("High Risk Features", hi)] /\
    (lo + me + hi)%nat = size (feature_analysis an) /\
    (forall n, is_Some (feature_analysis an !! n) <-> In n (names fi)) /\
    (NoDup (names fi) -> (lo + me + hi)%nat = length (names fi)).
Proof.
  intros H.
  destruct (analysis_answer_shape _ _ _ _ _ H)
    as (m & s & fi & data & feats & scaled & probs & top & p0 & p1
        & label & rs & _ & _ & Hfi & _ & Hfeats & _ & _ & _ & _ & _ & _
        & Hfa & _ & _ & _ & _ & _ & _ & _ & _ & _ & Hrd).
  exists fi, (count_tier Low (feature_analysis an)),
    (count_tier Medium (feature_analysis an)),
    (count_tier High (feature_analysis an)).
  apply analyse_features_inv in Hfa.
  pose proof (analysed_domain (names fi) _ _
                (Forall2_combine_fst _ _ _ Hfeats) Hfa) as Hdom.
  assert (Hsum : (count_tier Low (feature_analysis an)
                  + count_tier Medium (feature_analysis an)
                  + count_tier High (feature_analysis an))%nat
                 = size (feature_analysis an)).
  { unfold count_tier. rewrite tiers_partition. apply length_map_to_list. }
  split; [exact Hfi|]. split; [exact Hrd|]. split; [exact Hsum|].
  split; [exact Hdom|].
  intros Hnd. rewrite Hsum, <- (size_dom (D := gset string)).
  rewrite <- (size_list_to_set (C := gset string) (names fi) Hnd).
  f_equal. apply set_eq. intros n.
  rewrite elem_of_dom, elem_of_list_to_set, Hdom.
  symmetry. apply list_elem_of_In.
Qed.

Lemma number_read_as_is sf (v : json) (x y : Q) :
  as_number v = Some y -> py_float sf v = Ok x -> x = y.
Proof. destruct v; cbn; congruence. Qed.

Lemma analysed_entry sf (data : gmap string json) (ns : list string)
    (feats : list Q) (fa : gmap string feature_entry)
    (n : string) (dflt y : Q) :
  Forall2 (coerces sf data) ns feats ->
  analysed (combine ns feats) ∅ fa ->
  In n ns -> raw_number data n dflt = Some y ->
  exists e, fa !! n = Some e /\ fe_value e = y /\
            fe_risk_level e = feature_risk n y.
Proof.
  intros Hfeats [Hin _] Hn Hraw.
  rewrite <- (Forall2_combine_fst _ _ _ Hfeats) in Hn.
  destruct (Hin n Hn) as (e & He & Hpair & Htier).
  apply (Forall2_combine_In _ _ _ _ _ Hfeats) in Hpair
    as (v & Hv & Hfl).
  unfold raw_number in Hraw. rewrite Hv in Hraw. cbn in Hraw.
  pose proof (number_read_as_is _ _ _ _ Hraw Hfl) as E.
  exists e. rewrite Htier, E. auto.
Qed.

(** X19.  In a 200 answer of [/detailed-analysis] each recommendation goes
    with the tier of its feature whenever that feature is in the feature
    list: the particle-size and concentration recommendations are given
    exactly when the feature's tier is High, the surface-area recommendation
    exactly when it is Medium. *)
Theorem recommendations_match_tiers sf (a : artifacts) (req : result json)
    (an : analysis_report) (calls : list call) :
  detailed_analysis sf a req = (jsonify 200 (AnalysisBody an), calls) ->
  exists fi,
    feature_info a = Some fi /\
    (In "particle_size_nm" (names fi) ->
     (In "Consider larger particle sizes to reduce bioavailability"
         (safety_recommendations an) <->
      exists e, feature_analysis an !! "particle_size_nm" = Some e /\
                fe_risk_level e = High)) /\
    (In "concentration_mgl" (names fi) ->
     (In "Reduce concentration to minimize exposure risk"
         (safety_recommendations an) <->
      exists e, feature_analysis an !! "concentration_mgl" = Some e /\
                fe_risk_level e = High)) /\
    (In "surface_area_m2g" (names fi) ->
     (In "Monitor surface reactivity due to high surface area"
         (safety_recommendations an) <->
      exists e, feature_analysis an !! "surface_area_m2g" = Some e /\
                fe_risk_level e = Medium)).
Proof.
  intros H.
  destruct (analysis_answer_shape _ _ _ _ _ H)
    as (m & s & fi & data & feats & scaled & probs & top & p0 & p1
        & label & rs & _ & _ & Hfi & _ & Hfeats & _ & _ & _ & _ & _ & _
        & Hfa & Hrs & _ & _ & _ & _ & _ & _ & _ & -> & _).
  apply analyse_features_inv in Hfa.
  exists fi. split; [exact Hfi|].
  rewrite recommendations_spec in Hrs.
  destruct (raw_number data "particle_size_nm" 0) as [size|] eqn:E1;
    [|discriminate].
  destruct (raw_number data "concentration_mgl" 0) as [conc|] eqn:E2;
    [|discriminate].
  destruct (raw_number data "surface_area_m2g" 0) as [area|] eqn:E3;
    [|discriminate].
  injection Hrs as <-.
  split; [|split]; intros Hn; rewrite in_three.
  - destruct (analysed_entry _ _ _ _ _ _ _ _ Hfeats Hfa Hn E1)
      as (e & He & _ & Ht).
    unfold feature_risk in Ht. cbn [String.eqb Ascii.eqb Bool.eqb andb] in Ht.
    split.
    + intros Hin. strings_apart. exists e. split; [exact He|].
      now rewrite Ht.
    + intros (e' & He' & Hhigh). rewrite He in He'. injection He' as <-.
      rewrite Ht in Hhigh. destruct (Qlt_bool size 50); [|discriminate].
      left. split; reflexivity.
  - destruct (analysed_entry _ _ _ _ _ _ _ _ Hfeats Hfa Hn E2)
      as (e & He & _ & Ht).
    unfold feature_risk in Ht. cbn [String.eqb Ascii.eqb Bool.eqb andb] in Ht.
    split.
    + intros Hin. strings_apart. exists e. split; [exact He|].
      now rewrite Ht.
    + intros (e' & He' & Hhigh). rewrite He in He'. injection He' as <-.
      rewrite Ht in Hhigh. destruct (Qlt_bool 500 conc); [|discriminate].
      right. left. split; reflexivity.
  - destruct (analysed_entry _ _ _ _ _ _ _ _ Hfeats Hfa Hn E3)
      as (e & He & _ & Ht).
    unfold feature_risk in Ht. cbn [String.eqb Ascii.eqb Bool.eqb andb] in Ht.
    split.
    + intros Hin. strings_apart. exists e. split; [exact He|].
      now rewrite Ht.
    + intros (e' & He' & Hmed). rewrite He in He'. injection He' as <-.
      rewrite Ht in Hmed. destruct (Qlt_bool 200 area); [|discriminate].
      right. right. split; reflexivity.
Qed.

(** ** The five most important features *)

Lemma dict_set_in (k : string) (v : Q) (d : list (string * Q))
    (k' : string) (v' : Q) :
  In (k', v') (dict_set k v d) -> (k' = k /\ v' = v) \/ In (k', v') d.
Proof.
  induction d as [|[k0 v0] d IH]; cbn [dict_set].
  - intros [[= <- <-]|[]]. now left.
  - destruct (String.eqb k k0).
    + intros [[= <- <-]|H]; [now left|right; now right].
    + intros [H|H]; [right; now left|].
      destruct (IH H) as [E|E]; [now left|right; now right].
Qed.

Lemma dict_set_keys (k : string) (v : Q) (d : list (string * Q))
    (k' : string) :
  In k' (map fst (dict_set k v d)) <-> k' = k \/ In k' (map fst d).
Proof.
  induction d as [|[k0 v0] d IH]; cbn [dict_set].
  - cbn. intuition.
  - destruct (String.eqb k k0) eqn:E.
    + apply String.eqb_eq in E as <-. cbn. intuition.
    + cbn [map fst In]. rewrite IH. intuition.
Qed.

Lemma dict_set_nodup (k : string) (v : Q) (d : list (string * Q)) :
  NoDup (map fst d) -> NoDup (map fst (dict_set k v d)).
Proof.
  induction d as [|[k0 v0] d IH]; cbn [dict_set].
  - intros _. cbn. apply NoDup_singleton.
  - cbn [map fst]. rewrite NoDup_cons, list_elem_of_In. intros [Hk0 Hd].
    destruct (String.eqb k k0) eqn:E.
    + apply String.eqb_eq in E as <-. cbn [map fst].
      rewrite NoDup_cons, list_elem_of_In. now split.
    + apply String.eqb_neq in E. cbn [map fst].
      rewrite NoDup_cons, list_elem_of_In. split.
      * rewrite dict_set_keys. intros [->|H]; [now apply E|now apply Hk0].
      * now apply IH.
Qed.

Lemma fold_dict_set (pairs d : list (string * Q)) :
  NoDup (map fst d) ->
  let r := fold_left (fun d kv => dict_set (fst kv) (snd kv) d) pairs d in
  NoDup (map fst r) /\
  (forall k v, In (k, v) r -> In (k, v) pairs \/ In (k, v) d) /\
  (forall k, In k (map fst r) <-> In k (map fst pairs) \/ In k (map fst d)).
Proof.
  revert d. induction pairs as [|[k0 v0] pairs IH]; intros d Hd.
  - cbn. split; [exact Hd|]. split; [auto|]. intuition.
  - cbn [fold_left fst snd].
    destruct (IH (dict_set k0 v0 d) (dict_set_nodup k0 v0 d Hd))
      as (Hnd & Hin & Hkeys).
    split; [exact Hnd|]. split.
    + intros k v H. destruct (Hin k v H) as [H'|H'].
      * left. now right.
      * apply dict_set_in in H' as [[-> ->]|H']; [left; now left|now right].
    + intros k. rewrite Hkeys, dict_set_keys. cbn [map fst In]. intuition.
Qed.

Lemma insert_desc_perm (x : string * Q) (l : list (string * Q)) :
  Permutation (insert_desc x l) (x :: l).
Proof.
  induction l as [|y l IH]; cbn [insert_desc]; [reflexivity|].
  destruct (Qlt_bool (snd x) (snd y)); [|reflexivity].
  rewrite IH. apply perm_swap.
Qed.

Lemma insert_desc_sorted (x : string * Q) (l : list (string * Q)) :
  StronglySorted (fun a b => (snd b <= snd a)%Q) l ->
  StronglySorted (fun a b => (snd b <= snd a)%Q) (insert_desc x l).
Proof.
  induction 1 as [|y l Hl IH Hy]; cbn [insert_desc].
  - apply SSorted_cons; [apply SSorted_nil|apply List.Forall_nil].
  - destruct (Qlt_bool (snd x) (snd y)) eqn:E.
    + apply Qlt_bool_true in E. apply SSorted_cons; [exact IH|].
      apply List.Forall_forall. intros z Hz.
      apply (Permutation_in _ (insert_desc_perm x l)) in Hz as [<-|Hz].
      * lra.
      * exact (proj1 (List.Forall_forall _ _) Hy z Hz).
    + apply Qlt_bool_false in E. apply SSorted_cons.
      * now apply SSorted_cons.
      * apply List.Forall_cons; [exact E|].
        apply List.Forall_forall. intros z Hz.
        pose proof (proj1 (List.Forall_forall _ _) Hy z Hz) as Hzy.
        cbn beta in Hzy. lra.
Qed.

Lemma sorted_desc_perm (l : list (string * Q)) :
  Permutation (sorted_desc l) l.
Proof.
  induction l as [|x l IH]; [reflexivity|].
  cbn [sorted_desc fold_right]. rewrite insert_desc_perm.
  now apply perm_skip.
Qed.

Lemma sorted_desc_sorted (l : list (string * Q)) :
  StronglySorted (fun a b => (snd b <= snd a)%Q) (sorted_desc l).
Proof.
  induction l as [|x l IH]; [apply SSorted_nil|].
  cbn [sorted_desc fold_right]. now apply insert_desc_sorted.
Qed.

Lemma sorted_split {A} (R : A -> A -> Prop) (l1 l2 : list A) :
  StronglySorted R (l1 ++ l2) ->
  StronglySorted R l1 /\ forall x y, In x l1 -> In y l2 -> R x y.
Proof.
  induction l1 as [|a l1 IH]; cbn [app].
  - intros _. split; [apply SSorted_nil|intros x y []].
  - intros H. apply StronglySorted_inv in H as [Hs Ha].
    destruct (IH Hs) as [Hs1 Hcross]. split.
    + apply SSorted_cons; [exact Hs1|].
      apply List.Forall_forall. intros z Hz.
      apply (proj1 (List.Forall_forall _ _) Ha). apply in_or_app. now left.
    + intros x y [<-|Hx] Hy.
      * apply (proj1 (List.Forall_forall _ _) Ha). apply in_or_app.
        now right.
      * now apply Hcross.
Qed.

Lemma sorted_rounded (n : nat) (l : list (string * Q)) :
  StronglySorted (fun a b => (snd b <= snd a)%Q) l ->
  StronglySorted (fun a b => (snd b <= snd a)%Q)
    (map (fun kv => (fst kv, py_round (snd kv) n)) l).
Proof.
  induction 1 as [|y l Hl IH Hy]; cbn [map]; [apply SSorted_nil|].
  apply SSorted_cons; [exact IH|].
  apply List.Forall_forall. intros z Hz.
  apply in_map_iff in Hz as (z0 & <- & Hz0). cbn [snd].
  apply py_round_mono. exact (proj1 (List.Forall_forall _ _) Hy z0 Hz0).
Qed.

(** X20.  [feature_importance], the five largest of [dict(zip(names,
    importances))]: at most five entries, no name twice, largest first
    (after rounding to four places), every entry is a name of the list with
    the rounding of an importance zipped to it, and a name of the list is
    left out only when five entries are reported and each of them is at
    least as important as the one left out. *)
Theorem top_importance_spec (ks : list string) (imp : list Q) :
  let top := top_importance ks imp in
  (length top <= 5)%nat /\
  NoDup (map fst top) /\
  StronglySorted (fun a b => (snd b <= snd a)%Q) top /\
  (forall k v, In (k, v) top ->
     exists w, In (k, w) (combine ks imp) /\ v = py_round w 4) /\
  (forall k, In k (map fst (combine ks imp)) -> ~ In k (map fst top) ->
     length top = 5%nat /\
     exists w, In (k, w) (combine ks imp) /\
               forall e, In e top -> (py_round w 4 <= snd e)%Q).
Proof.
  cbn zeta. unfold top_importance, dict_zip.
  destruct (fold_dict_set (combine ks imp) [] NoDup_nil_2)
    as (Hnd & Hin & Hkeys).
  set (d := fold_left (fun d kv => dict_set (fst kv) (snd kv) d)
                      (combine ks imp) []) in *.
  pose proof (sorted_desc_perm d) as Hperm.
  pose proof (sorted_desc_sorted d) as Hsorted.
  set (l := sorted_desc d) in *.
  rewrite <- (take_drop 5 l) in Hsorted.
  apply sorted_split in Hsorted as [Htake Hcross].
  assert (Hsub : forall x, In x (take 5 l) -> In x d).
  { intros x Hx. apply (Permutation_in _ Hperm).
    rewrite <- (take_drop 5 l). apply in_or_app. now left. }
  assert (Hfst : map fst (map (fun kv : string * Q =>
                                 (fst kv, py_round (snd kv) 4)) (take 5 l))
                 = map fst (take 5 l)).
  { rewrite List.map_map. reflexivity. }
  split; [|split; [|split; [|split]]].
  - rewrite length_map, length_take. lia.
  - rewrite Hfst.
    assert (Hl : NoDup (map fst l)).
    { rewrite (Permutation_map fst Hperm). exact Hnd. }
    rewrite <- (take_drop 5 l), map_app, NoDup_app in Hl.
    now destruct Hl.
  - now apply sorted_rounded.
  - intros k v H. apply in_map_iff in H as ([k0 w] & [= <- <-] & Hx).
    exists w. split; [|reflexivity].
    destruct (Hin k0 w (Hsub _ Hx)) as [H|[]]. exact H.
  - intros k Hk Hout. rewrite Hfst in Hout.
    assert (Hkd : In k (map fst d)) by (apply Hkeys; now left).
    apply in_map_iff in Hkd as ([k0 w] & Hk0 & Hd). cbn in Hk0. subst k0.
    apply (Permutation_in _ (Permutation_sym Hperm)) in Hd.
    rewrite <- (take_drop 5 l) in Hd. apply in_app_or in Hd as [Hd|Hd].
    { exfalso. apply Hout. apply in_map_iff. now exists (k, w). }
    split.
    + rewrite length_map, length_take.
      destruct (Nat.le_gt_cases 5 (length l)) as [Hlen|Hlen]; [lia|].
      rewrite drop_ge in Hd by lia. destruct Hd.
    + exists w. split.
        assert (Hd' : In (k, w) d).
        { apply (Permutation_in _ Hperm). rewrite <- (take_drop 5 l).
          apply in_or_app. now right. }
        destruct (Hin k w Hd') as [H|[]]. exact H.
      * intros e He. apply in_map_iff in He as (x & <- & Hx). cbn [snd].
        apply py_round_mono. exact (Hcross x (k, w) Hx Hd).
Qed.

(** ** The properties at concrete requests *)

Lemma sample_prediction :
  exists r,
    predict decimal_float sample_service (Ok (JObj test_data)) =
      (jsonify 200 (PredictionBody r),
       library_calls test_features test_features).
Proof.
  destruct (valid_predict decimal_float sample_service sample_classifier
              unit_scaler deployed_info eq_refl eq_refl eq_refl test_data
              test_features test_features (3 # 10) (7 # 10) 1%Z
              test_data_reads test_data_comparable eq_refl eq_refl eq_refl)
    as (rf & _ & H).
  eexists. exact H.
Defined.

Lemma sample_analysis :
  exists an,
    detailed_analysis decimal_float sample_service (Ok (JObj test_data)) =
      (jsonify 200 (AnalysisBody an),
       library_calls test_features test_features).
Proof.
  assert (Himp : length (names deployed_info)
                 <= length (feature_importances_ sample_classifier))
    by (cbn; lia).
  assert (Hsc : length (names deployed_info) <= length test_features)
    by (cbn; lia).
  destruct (valid_analysis decimal_float sample_service sample_classifier
              unit_scaler deployed_info eq_refl eq_refl eq_refl test_data
              test_features test_features (3 # 10) (7 # 10) 1%Z
              test_data_reads test_data_comparable eq_refl eq_refl eq_refl
              test_data_described Himp Hsc)
    as (fa & rs & _ & H).
  eexists. exact H.
Defined.

Lemma string_material_reads :
  Forall2 (coerces decimal_float (<["material_type" := JStr "1"]> test_data))
          (names deployed_info) test_features.
Proof. reads_all. Defined.

Lemma string_material_comparable :
  Forall (comparable (<["material_type" := JStr "1"]> test_data))
         compared_keys.
Proof. numbers_under. Defined.

Lemma string_material_prediction :
  exists r,
    predict decimal_float sample_service
            (Ok (JObj (<["material_type" := JStr "1"]> test_data))) =
      (jsonify 200 (PredictionBody r),
       library_calls test_features test_features).
Proof.
  destruct (valid_predict decimal_float sample_service sample_classifier
              unit_scaler deployed_info eq_refl eq_refl eq_refl
              (<["material_type" := JStr "1"]> test_data)
              test_features test_features (3 # 10) (7 # 10) 1%Z
              string_material_reads string_material_comparable
              eq_refl eq_refl eq_refl)
    as (rf & _ & H).
  eexists. exact H.
Defined.

Lemma toxicity_score_monotone_witness :
  let r1 := {| particle_size_nm := 80; surface_area_m2g := 100;
               zeta_potential_mv := -30; ph := 7; concentration_mgl := 50;
               material_type := 0; crystallinity := 1 # 2;
               porosity := 3 # 10; hydrophobicity := 1 # 2;
               aspect_ratio := 2 |} in
  let r2 := {| particle_size_nm := 25; surface_area_m2g := 150;
               zeta_potential_mv := -30; ph := 7; concentration_mgl := 100;
               material_type := 1; crystallinity := 1 # 2;
               porosity := 3 # 10; hydrophobicity := 1 # 2;
               aspect_ratio := 15 |} in
  (particle_size_nm r2 <= particle_size_nm r1)%Q /\
  (surface_area_m2g r1 <= surface_area_m2g r2)%Q /\
  (concentration_mgl r1 <= concentration_mgl r2)%Q /\
  (material_type r1 <= material_type r2)%Q /\
  (aspect_ratio r1 <= aspect_ratio r2)%Q /\
  (toxicity_score (fun x => x) (clip_sample r1) 0
   <= toxicity_score (fun x => x) (clip_sample r2) 0)%Q /\
  (toxicity_label (toxicity_score (fun x => x) (clip_sample r1) 0) 5
   <= toxicity_label (toxicity_score (fun x => x) (clip_sample r2) 0) 5)%Z.
Proof.
  cbv zeta.
  assert (H1 : (25 <= 80)%Q) by (vm_compute; discriminate).
  assert (H2 : (100 <= 150)%Q) by (vm_compute; discriminate).
  assert (H3 : (50 <= 100)%Q) by (vm_compute; discriminate).
  assert (H4 : (0 <= 1)%Q) by (vm_compute; discriminate).
  assert (H5 : (2 <= 15)%Q) by (vm_compute; discriminate).
  split; [exact H1|]. split; [exact H2|]. split; [exact H3|].
  split; [exact H4|]. split; [exact H5|].
  destruct (toxicity_score_monotone (fun x => x)
              {| particle_size_nm := 80; surface_area_m2g := 100;
                 zeta_potential_mv := -30; ph := 7; concentration_mgl := 50;
                 material_type := 0; crystallinity := 1 # 2;
                 porosity := 3 # 10; hydrophobicity := 1 # 2;
                 aspect_ratio := 2 |}
              {| particle_size_nm := 25; surface_area_m2g := 150;
                 zeta_potential_mv := -30; ph := 7; concentration_mgl := 100;
                 material_type := 1; crystallinity := 1 # 2;
                 porosity := 3 # 10; hydrophobicity := 1 # 2;
                 aspect_ratio := 15 |}
              0 (fun x y _ Hxy _ => Hxy) H1 H2 H3 H4 H5)
    as (_ & _ & Hscore & Hlabel).
  split; [exact Hscore|exact (Hlabel 5%Q)].
Defined.

Lemma load_ml_model_prefix_witness :
  let d := {| model_pkl := Pickled sample_classifier;
              scaler_pkl := Missing;
              feature_info_pkl := Pickled deployed_info |} in
  (Webapp.load_ml_model = Webapp.load_ml_model
   \/ Webapp.load_ml_model = Api.load_ml_model) /\
  snd (Webapp.load_ml_model d) = false /\
  feature_info (fst (Webapp.load_ml_model d)) = None /\
  fst (get_features (fst (Webapp.load_ml_model d))) <> 200%Z.
Proof.
  cbv zeta.
  assert (H : Webapp.load_ml_model = Webapp.load_ml_model
              \/ Webapp.load_ml_model = Api.load_ml_model)
    by (left; reflexivity).
  split; [exact H|].
  destruct (load_ml_model_prefix
              {| model_pkl := Pickled sample_classifier;
                 scaler_pkl := Missing;
                 feature_info_pkl := Pickled deployed_info |}
              Webapp.load_ml_model H)
    as (Hfi & _ & _ & Hfeat & _).
  assert (Hret : snd (Webapp.load_ml_model
                        {| model_pkl := Pickled sample_classifier;
                           scaler_pkl := Missing;
                           feature_info_pkl := Pickled deployed_info |})
                 = false) by reflexivity.
  split; [exact Hret|]. split.
  - destruct (feature_info _) as [fi|] eqn:E; [|reflexivity].
    destruct (Hfi (ex_intro _ fi eq_refl)) as [s Hs]. discriminate Hs.
  - intros H200. apply Hfeat in H200. rewrite Hret in H200.
    discriminate H200.
Defined.

Lemma rejected_exactly_when_absent_witness :
  model trainer_service = Some sample_classifier /\
  scaler trainer_service = Some unit_scaler /\
  feature_info trainer_service = Some trainer_info /\
  code (fst (predict decimal_float trainer_service (Ok (JObj test_data))))
  = 400%Z /\
  code (fst (detailed_analysis decimal_float trainer_service
               (Ok (JObj test_data)))) = 400%Z.
Proof.
  split; [reflexivity|]. split; [reflexivity|]. split; [reflexivity|].
  destruct (rejected_exactly_when_absent decimal_float trainer_service
              sample_classifier unit_scaler trainer_info
              eq_refl eq_refl eq_refl test_data) as (Hp & Ha & _).
  assert (Habs : exists pre xs n post,
             names trainer_info = pre ++ n :: post /\
             Forall2 (coerces decimal_float test_data) pre xs /\
             test_data !! n = None).
  { exists ["particle_size_nm"; "surface_area_m2g"; "zeta_potential_mv";
            "ph"; "concentration_mgl"; "material_type"],
      [25; 150; -30; 74 # 10; 100; 1]%Q, "crystallinity",
      ["porosity"; "hydrophobicity"; "aspect_ratio"].
    split; [reflexivity|]. split; [reads_all|reflexivity]. }
  split; [exact (proj2 Hp Habs)|exact (proj2 Ha Habs)].
Defined.

Lemma inference_failure_reported_witness :
  let failing := {| transform := fun _ => Err (LibraryError "shape") |} in
  let a := {| model := Some sample_classifier; scaler := Some failing;
              feature_info := Some deployed_info |} in
  Forall2 (coerces decimal_float test_data) (names deployed_info)
          test_features /\
  transform failing test_features = Err (LibraryError "shape") /\
  predict decimal_float a (Ok (JObj test_data)) =
    (jsonify 500 (ErrorBody (Formatted "Prediction failed: "
                                       (LibraryError "shape"))
                            (Some (take 3 full_log))),
     [CallTransform test_features]) /\
  detailed_analysis decimal_float a (Ok (JObj test_data)) =
    (jsonify 500 (ErrorBody (Formatted "Analysis failed: "
                                       (LibraryError "shape")) None),
     [CallTransform test_features]).
Proof.
  cbv zeta. split; [exact test_data_reads|]. split; [reflexivity|].
  destruct (inference_failure_reported decimal_float
              {| model := Some sample_classifier;
                 scaler := Some {| transform :=
                                     fun _ => Err (LibraryError "shape") |};
                 feature_info := Some deployed_info |}
              sample_classifier
              {| transform := fun _ => Err (LibraryError "shape") |}
              deployed_info eq_refl eq_refl eq_refl test_data test_features
              test_data_reads) as (Hscaler & _).
  exact (Hscaler (LibraryError "shape") eq_refl).
Defined.

Lemma probability_vector_length_witness :
  let single := {| predict_proba := fun _ => Ok [1%Q];
                   predict_label := fun _ => Ok 0%Z;
                   feature_importances_ := tenth |} in
  let a := {| model := Some single; scaler := Some unit_scaler;
              feature_info := Some deployed_info |} in
  Forall2 (coerces decimal_float test_data) (names deployed_info)
          test_features /\
  transform unit_scaler test_features = Ok test_features /\
  predict_proba single test_features = Ok [1%Q] /\
  predict_label single test_features = Ok 0%Z /\
  predict decimal_float a (Ok (JObj test_data)) =
    (jsonify 500 (ErrorBody (Formatted "Prediction failed: " IndexError)
                            (Some (take 7 full_log))),
     library_calls test_features test_features) /\
  detailed_analysis decimal_float a (Ok (JObj test_data)) =
    (jsonify 500 (ErrorBody (Formatted "Analysis failed: " IndexError) None),
     library_calls test_features test_features).
Proof.
  cbv zeta. split; [exact test_data_reads|]. split; [reflexivity|].
  split; [reflexivity|]. split; [reflexivity|].
  destruct (probability_vector_length decimal_float
              {| model := Some {| predict_proba := fun _ => Ok [1%Q];
                                  predict_label := fun _ => Ok 0%Z;
                                  feature_importances_ := tenth |};
                 scaler := Some unit_scaler;
                 feature_info := Some deployed_info |}
              {| predict_proba := fun _ => Ok [1%Q];
                 predict_label := fun _ => Ok 0%Z;
                 feature_importances_ := tenth |}
              unit_scaler deployed_info eq_refl eq_refl eq_refl test_data
              test_features test_data_reads test_features [1%Q] 0%Z
              eq_refl eq_refl eq_refl) as (_ & Hone & _).
  exact (Hone 1%Q eq_refl).
Defined.

Lemma confidence_is_larger_percentage_witness :
  Forall2 (coerces decimal_float test_data) (names deployed_info)
          test_features /\
  Forall (comparable test_data) compared_keys /\
  exists r,
    predict decimal_float sample_service (Ok (JObj test_data)) =
      (jsonify 200 (PredictionBody r),
       library_calls test_features test_features) /\
    confidence r = toxic r /\ (50 <= confidence r)%Q.
Proof.
  split; [exact test_data_reads|]. split; [exact test_data_comparable|].
  destruct (confidence_is_larger_percentage decimal_float sample_service
              sample_classifier unit_scaler deployed_info test_data
              test_features test_features (3 # 10) (7 # 10) 1%Z
              eq_refl eq_refl eq_refl test_data_reads test_data_comparable
              eq_refl eq_refl eq_refl)
    as (r & Hr & _ & _ & _ & H50 & _).
  exists r. split; [exact Hr|].
  split; [|exact (H50 eq_refl)].
  destruct (valid_predict decimal_float sample_service sample_classifier
              unit_scaler deployed_info eq_refl eq_refl eq_refl test_data
              test_features test_features (3 # 10) (7 # 10) 1%Z
              test_data_reads test_data_comparable eq_refl eq_refl eq_refl)
    as (rf & _ & H).
  rewrite H in Hr. injection Hr as <-. reflexivity.
Defined.


Lemma recommendations_backed_witness :
  exists r an,
    predict decimal_float sample_service (Ok (JObj test_data)) =
      (jsonify 200 (PredictionBody r),
       library_calls test_features test_features) /\
    detailed_analysis decimal_float sample_service (Ok (JObj test_data)) =
      (jsonify 200 (AnalysisBody an),
       library_calls test_features test_features) /\
    (In "Consider larger particle sizes to reduce bioavailability"
        (safety_recommendations an) <->
     In small_particle_msg (risk_factors r)).
Proof.
  destruct sample_prediction as [r Hr]. destruct sample_analysis as [an Han].
  exists r, an. split; [exact Hr|]. split; [exact Han|].
  exact (proj1 (recommendations_backed decimal_float sample_service
                  (Ok (JObj test_data)) r an _ _ Hr Han)).
Defined.

Lemma answer_reads_named_entries_witness :
  let d' := <["comment" := JStr "batch 7"]> test_data in
  feature_info sample_service = Some deployed_info /\
  (forall k, In k (names deployed_info) -> test_data !! k = d' !! k) /\
  (forall k, In k ["particle_size_nm"; "surface_area_m2g";
                   "concentration_mgl"; "material_type"; "aspect_ratio"] ->
             test_data !! k = d' !! k) /\
  predict decimal_float sample_service (Ok (JObj test_data))
  = predict decimal_float sample_service (Ok (JObj d')).
Proof.
  cbv zeta.
  assert (H1 : forall k, In k (names deployed_info) ->
                 test_data !! k
                 = <["comment" := JStr "batch 7"]> test_data !! k).
  { intros k Hk. rewrite lookup_insert_ne; [reflexivity|].
    intros <-. cbn in Hk. intuition discriminate. }
  assert (H2 : forall k, In k ["particle_size_nm"; "surface_area_m2g";
                               "concentration_mgl"; "material_type";
                               "aspect_ratio"] ->
                 test_data !! k
                 = <["comment" := JStr "batch 7"]> test_data !! k).
  { intros k Hk. rewrite lookup_insert_ne; [reflexivity|].
    intros <-. cbn in Hk. intuition discriminate. }
  split; [reflexivity|]. split; [exact H1|]. split; [exact H2|].
  exact (proj1 (answer_reads_named_entries decimal_float sample_service
                  deployed_info test_data
                  (<["comment" := JStr "batch 7"]> test_data) eq_refl H1)
               H2).
Defined.

Lemma metal_factor_reads_raw_entry_witness :
  exists r,
    predict decimal_float sample_service
            (Ok (JObj (<["material_type" := JStr "1"]> test_data))) =
      (jsonify 200 (PredictionBody r),
       library_calls test_features test_features) /\
    ~ In metal_msg (risk_factors r) /\
    decimal_float "1" = Some 1%Q /\ In 1%Q test_features.
Proof.
  destruct string_material_prediction as [r Hr].
  exists r. split; [exact Hr|].
  destruct (metal_factor_reads_raw_entry decimal_float sample_service
              (<["material_type" := JStr "1"]> test_data) r _ Hr)
    as (_ & _ & Hstr).
  destruct (Hstr "1" eq_refl) as [Hno _].
  split; [exact Hno|]. split; [reflexivity|].
  cbn. tauto.
Defined.

Lemma risk_distribution_counts_witness :
  exists an lo me hi,
    detailed_analysis decimal_float sample_service (Ok (JObj test_data)) =
      (jsonify 200 (AnalysisBody an),
       library_calls test_features test_features) /\
    risk_distribution an = [("Low Risk Features", lo);
                            ("Medium Risk Features", me);
                            ("High Risk Features", hi)] /\
    (lo + me + hi)%nat = 9%nat.
Proof.
  destruct sample_analysis as [an Han].
  destruct (risk_distribution_counts decimal_float sample_service
              (Ok (JObj test_data)) an _ Han)
    as (fi & lo & me & hi & Hfi & Hrd & _ & _ & Hlen).
  exists an, lo, me, hi. split; [exact Han|]. split; [exact Hrd|].
  injection Hfi as <-. rewrite Hlen; [reflexivity|].
  refine (bool_decide_unpack (NoDup (names deployed_info)) _).
  vm_compute. exact I.
Defined.

Lemma recommendations_match_tiers_witness :
  exists an e,
    detailed_analysis decimal_float sample_service (Ok (JObj test_data)) =
      (jsonify 200 (AnalysisBody an),
       library_calls test_features test_features) /\
    In "Consider larger particle sizes to reduce bioavailability"
       (safety_recommendations an) /\
    feature_analysis an !! "particle_size_nm" = Some e /\
    fe_risk_level e = High.
Proof.
  destruct sample_analysis as [an Han].
  destruct (recommendations_match_tiers decimal_float sample_service
              (Ok (JObj test_data)) an _ Han)
    as (fi & Hfi & Hsize & _).
  injection Hfi as <-.
  assert (Hin : In "particle_size_nm" (names deployed_info))
    by (left; reflexivity).
  destruct (analysis_answer_shape _ _ _ _ _ Han)
    as (m & s & fi & data & feats & scaled & probs & top & p0 & p1
        & label & rs & _ & _ & _ & Hreq & _ & _ & _ & _ & _ & _ & _ & _
        & Hrs & _ & _ & _ & _ & _ & _ & _ & Hsr & _).
  injection Hreq as <-. vm_compute in Hrs. injection Hrs as <-.
  assert (Hrec : In "Consider larger particle sizes to reduce bioavailability"
                    (safety_recommendations an))
    by (rewrite Hsr; left; reflexivity).
  destruct (proj1 (Hsize Hin) Hrec) as (e & He & Hhigh).
  exists an, e. split; [exact Han|]. split; [exact Hrec|].
  split; [exact He|exact Hhigh].
Defined.
